(** * Web Forx Online Storeshop: the order-submission flow of [app.js]

    A shallow embedding of the request handlers of [src/app.js] that touch the
    relational store ([POST /checkout], [GET /readyz], the start-up seed block)
    and the properties the specification states about them.

    What the handlers call but the repository does not contain is kept apart:
    - the built-ins of the JavaScript runtime ([JSON.parse] and the
      conversions between numbers, strings and objects) are the fields of the
      class [Runtime], over which every statement quantifies; [Node.runtime]
      is an executable instance used to run the handlers on concrete
      requests;
    - the ORM and the database behind it are modelled by the tables of the
      entity schemas, the types of their columns with their [nullable] and
      [default] constraints, one id sequence per table, and [save] as a
      transaction of one [INSERT] per table in which the store may fail at
      any statement. What the server makes of a value that is not of the
      kind of its column is the field of the class [Postgres], over which
      every statement quantifies.

    JavaScript numbers are IEEE 754 binary64 values: they are modelled by
    Rocq's primitive floats, whose operations are the same. *)

From Stdlib Require Import ZArith List String Ascii Bool Lia Floats.
From Stdlib Require Import DecimalString.
Import ListNotations.

Set Warnings "-register-all".
Local Open Scope string_scope.
Local Open Scope Z_scope.

(** ** JavaScript values *)

(** The values a request body or a [JSON.parse] result is made of, and
    [undefined], which reading a missing property gives. An object is the list
    of its own properties in creation order, each key bound once. *)
Inductive value : Type :=
| VUndefined
| VNull
| VBool (b : bool)
| VNum (n : float)
| VStr (s : string)
| VArr (elems : list value)
| VObj (props : list (string * value)).

(** [ToBoolean], as [||] applies it to its left operand. *)
Definition ToBoolean (v : value) : bool :=
  match v with
  | VUndefined | VNull => false
  | VBool b => b
  | VNum n => negb (PrimFloat.is_zero n || PrimFloat.is_nan n)
  | VStr s => negb (s =? "")%string
  | VArr _ | VObj _ => true
  end.

(** [a || b] *)
Definition js_or (a b : value) : value := if ToBoolean a then a else b.

Fixpoint own_property (props : list (string * value)) (k : string) : value :=
  match props with
  | [] => VUndefined
  | (k', v) :: rest => if (k' =? k)%string then v else own_property rest k
  end.

(** [v.k] for a [v] that is neither [null] nor [undefined], and a key [k]
    among [name], [address], [cartData], [price], [quantity]: none of them is
    a property of the prototypes of objects, arrays, strings, numbers or
    booleans, so only an object's own property can answer. *)
Definition GetV (v : value) (k : string) : value :=
  match v with
  | VObj props => own_property props k
  | _ => VUndefined
  end.

(** [v.k] in general: reading a property of [null] or [undefined] throws a
    TypeError ([None]). *)
Definition Get (v : value) (k : string) : option value :=
  match v with
  | VUndefined | VNull => None
  | _ => Some (GetV v k)
  end.

(** [Array.isArray] *)
Definition isArray (v : value) : bool :=
  match v with VArr _ => true | _ => false end.

(** ** The JavaScript runtime

    The built-ins the handlers call. [JSON_parse] answers [None] where
    [JSON.parse] throws a SyntaxError. [ObjectToString] is [ToPrimitive] on an
    array or an object, which for the values [JSON.parse] builds either gives the
    string of the inherited [toString] or throws a TypeError ([None], when own
    properties shadow [toString] and [valueOf]). *)
Class Runtime : Type := {
  JSON_parse : string -> option value;
  StringToNumber : string -> float;
  NumberToString : float -> string;
  ObjectToString : value -> option string;
  JSON_parse_empty_array : JSON_parse "[]" = Some (VArr [])
}.

Section Coercions.
Context {RT : Runtime}.

(** [ToString], as [JSON.parse] applies it to its argument. *)
Definition ToString (v : value) : option string :=
  match v with
  | VUndefined => Some "undefined"
  | VNull => Some "null"
  | VBool true => Some "true"
  | VBool false => Some "false"
  | VNum n => Some (NumberToString n)
  | VStr s => Some s
  | VArr _ | VObj _ => ObjectToString v
  end.

(** [ToNumber], as [*] applies it to its operands. *)
Definition ToNumber (v : value) : option float :=
  match v with
  | VUndefined => Some PrimFloat.nan
  | VNull => Some 0%float
  | VBool true => Some 1%float
  | VBool false => Some 0%float
  | VNum n => Some n
  | VStr s => Some (StringToNumber s)
  | VArr _ | VObj _ => option_map StringToNumber (ObjectToString v)
  end.

(** [JSON.parse(v)]: [None] when it throws. *)
Definition JSON_parse_value (v : value) : option value :=
  match ToString v with
  | Some text => JSON_parse text
  | None => None
  end.
End Coercions.

(** ** The relational store

    The three tables of the entity schemas. A row records, column by
    column, the value the handler bound to it, once the type of the column
    has taken it; [total] is always a number. The [id] columns are generated
    from one sequence per table. *)

Record Product : Type := mkProduct {
  product_id : Z;
  product_name : value;
  price : value;
  image : value
}.

Record Order : Type := mkOrder {
  order_id : Z;
  order_name : value;
  address : value;
  total : float;
  createdAt : Z
}.

Record OrderItem : Type := mkOrderItem {
  item_id : Z;
  productName : value;
  productPrice : value;
  quantity : value;
  order : Z
}.

(** [AppDataSource]: the connection flag, the rows of each table and the last
    value each id sequence handed out. *)
Record DataSource : Type := mkDataSource {
  isInitialized : bool;
  products : list Product;
  orders : list Order;
  order_items : list OrderItem;
  products_seq : Z;
  orders_seq : Z;
  order_items_seq : Z
}.

(** The objects the handlers pass to [save]. *)
Record NewProduct : Type := mkNewProduct {
  seed_name : value;
  seed_price : value;
  seed_image : value
}.

Record NewOrderItem : Type := mkNewOrderItem {
  new_productName : value;
  new_productPrice : value;
  new_quantity : value
}.

Record NewOrder : Type := mkNewOrder {
  new_name : value;
  new_address : value;
  new_total : float;
  new_orderItems : list NewOrderItem
}.

(** What a request cannot control: [fault] is the index of the statement at
    which the backing store fails while the request is served (the
    connection is lost, the disk is full, ...), [None] when none does; [now]
    is the store's clock. *)
Record Env : Type := mkEnv {
  fault : option nat;
  now : Z
}.

Definition fails (f : option nat) : bool :=
  match f with Some O => true | _ => false end.

Definition later (f : option nat) : option nat :=
  match f with Some (S k) => Some k | _ => f end.

(** *** Transactions

    A transaction body threads the fault countdown and the working copy of
    the store, and answers [None] once a statement has failed. *)
Definition Tx (A : Type) : Type :=
  option nat -> DataSource -> option A * option nat * DataSource.

Definition tx_ret {A} (a : A) : Tx A := fun f db => (Some a, f, db).

Definition tx_bind {A B} (m : Tx A) (k : A -> Tx B) : Tx B :=
  fun f db =>
    match m f db with
    | (Some a, f', db') => k a f' db'
    | (None, f', db') => (None, f', db')
    end.

Declare Scope tx_scope.
Delimit Scope tx_scope with tx.
Notation "x <- m ;; k" := (tx_bind m (fun x => k))
  (at level 100, m at next level, right associativity) : tx_scope.

(** One statement: it is not run when the store fails at it. *)
Definition statement {A} (run : DataSource -> option A * DataSource) : Tx A :=
  fun f db =>
    if fails f then (None, f, db)
    else let (r, db') := run db in (r, later f, db').

(** Sequences are not transactional: a rolled-back transaction gives back
    the rows, not the ids it drew. *)
Definition rollback (before after : DataSource) : DataSource :=
  {| isInitialized := isInitialized before;
     products := products before;
     orders := orders before;
     order_items := order_items before;
     products_seq := products_seq after;
     orders_seq := orders_seq after;
     order_items_seq := order_items_seq after |}.

(** [BEGIN; body; COMMIT]: the commit is the last statement, and any failure
    rolls the rows back. Nothing runs on a data source that is not
    initialized. *)
Definition transaction {A} (body : Tx A) (f : option nat) (db : DataSource)
  : option A * DataSource :=
  if negb (isInitialized db) then (None, db)
  else
    match body f db with
    | (Some a, f', db') =>
        if fails f' then (None, rollback db db') else (Some a, db')
    | (None, _, db') => (None, rollback db db')
    end.

(** *** Column types of the entity schemas

    The driver sends every parameter as text, and the server reads it with
    the input function of the type of its column when the statement is
    bound, before any row is written. *)

Inductive ColumnType : Type :=
| Varchar
| Float
| Int.

(** What the server makes of the text of a value that is not of the kind of
    its column (a string bound to a [float] column, a number bound to a
    [varchar] column, an object, ...): whether the input function of the
    type takes it. *)
Class Postgres : Type := {
  takes : ColumnType -> value -> bool
}.

(** A text with the character U+0000, which no [varchar] holds. *)
Fixpoint has_nul (s : string) : bool :=
  match s with
  | EmptyString => false
  | String c r => (c =? "000")%char || has_nul r
  end.

(** The integer a number is, when it is one. *)
Definition integer_of (x : float) : option Z :=
  match Prim2SF x with
  | S754_zero _ => Some 0
  | S754_finite s m e =>
      let magnitude :=
        if 0 <=? e then Some (Z.pos m * 2 ^ e)
        else if Z.pos m mod 2 ^ (- e) =? 0 then Some (Z.pos m / 2 ^ (- e))
        else None in
      option_map (fun n => if s then - n else n) magnitude
  | S754_infinity _ | S754_nan => None
  end.

(** [type: 'int']: the integers of 32 bits. The text of any other number
    ([1.5], [3000000000], [NaN]) is refused. *)
Definition int4 (x : float) : bool :=
  match integer_of x with
  | Some n => (-2147483648 <=? n) && (n <=? 2147483647)
  | None => false
  end.

(** A statement can bind at most this many parameters. *)
Definition max_parameters : Z := 65535.

(** A property that is [undefined] is written [DEFAULT] in the statement
    and binds no parameter. *)
Definition parameter (v : value) : Z :=
  match v with VUndefined => 0 | _ => 1 end.

Definition parameters {A} (count : A -> Z) (rows : list A) : Z :=
  fold_right (fun row n => count row + n) 0 rows.

(** [nullable: false] *)
Definition not_null (v : value) : bool :=
  match v with VUndefined | VNull => false | _ => true end.

(** [default: d]: a property left [undefined] takes the column default. *)
Definition or_default (d v : value) : value :=
  match v with VUndefined => d | _ => v end.

(** The rows of one [INSERT], written in order: the first that a
    constraint refuses ends the statement. *)
Fixpoint insert_rows {A} (insert : A -> DataSource -> option unit * DataSource)
    (rows : list A) (db : DataSource) : option unit * DataSource :=
  match rows with
  | [] => (Some tt, db)
  | row :: rest =>
      match insert row db with
      | (Some _, db') => insert_rows insert rest db'
      | (None, db') => (None, db')
      end
  end.

Section Statements.
Context {PG : Postgres}.

(** Whether a column of type [t] takes the value bound to it: [NULL] and
    [DEFAULT] are of every type, a string is a [varchar] unless it holds
    U+0000, every number is a [float], and the 32-bit integers are the
    [int]s. *)
Definition binds (t : ColumnType) (v : value) : bool :=
  match v with
  | VUndefined | VNull => true
  | _ =>
      match t, v with
      | Varchar, VStr s => negb (has_nul s)
      | Float, VNum _ => true
      | Int, VNum x => int4 x
      | _, _ => takes t v
      end
  end.

(** One row of [INSERT INTO products]: the id is drawn, then the
    constraints are checked. *)
Definition insert_product (p : NewProduct) (db : DataSource)
  : option unit * DataSource :=
  let id := products_seq db + 1 in
  let row := mkProduct id (seed_name p) (seed_price p) (seed_image p) in
  if not_null (seed_name p) && not_null (seed_price p) && not_null (seed_image p)
  then (Some tt,
        mkDataSource (isInitialized db) (products db ++ [row]) (orders db)
          (order_items db) id (orders_seq db) (order_items_seq db))
  else (None,
        mkDataSource (isInitialized db) (products db) (orders db)
          (order_items db) id (orders_seq db) (order_items_seq db)).

Definition product_binds (p : NewProduct) : bool :=
  binds Varchar (seed_name p) && binds Float (seed_price p)
  && binds Varchar (seed_image p).

Definition product_parameters (p : NewProduct) : Z :=
  parameter (seed_name p) + parameter (seed_price p) + parameter (seed_image p).

(** [INSERT INTO orders]: the name and the address are bound, then the id
    is drawn and the constraints are checked. *)
Definition insert_order (at_time : Z) (o : NewOrder) (db : DataSource)
  : option Z * DataSource :=
  let id := orders_seq db + 1 in
  let row := mkOrder id (new_name o) (new_address o) (new_total o) at_time in
  if negb (binds Varchar (new_name o) && binds Varchar (new_address o))
  then (None, db)
  else if not_null (new_name o) && not_null (new_address o)
  then (Some id,
        mkDataSource (isInitialized db) (products db) (orders db ++ [row])
          (order_items db) (products_seq db) id (order_items_seq db))
  else (None,
        mkDataSource (isInitialized db) (products db) (orders db)
          (order_items db) (products_seq db) id (order_items_seq db)).

(** One row of [INSERT INTO order_items]. *)
Definition insert_order_item (oid : Z) (i : NewOrderItem) (db : DataSource)
  : option unit * DataSource :=
  let id := order_items_seq db + 1 in
  let qty := or_default (VNum 1%float) (new_quantity i) in
  let row := mkOrderItem id (new_productName i) (new_productPrice i) qty oid in
  if not_null (new_productName i) && not_null (new_productPrice i) && not_null qty
  then (Some tt,
        mkDataSource (isInitialized db) (products db) (orders db)
          (order_items db ++ [row]) (products_seq db) (orders_seq db) id)
  else (None,
        mkDataSource (isInitialized db) (products db) (orders db)
          (order_items db) (products_seq db) (orders_seq db) id).

Definition item_binds (i : NewOrderItem) : bool :=
  binds Varchar (new_productName i) && binds Float (new_productPrice i)
  && binds Int (new_quantity i).

(** The name, the price and the quantity, and the id of the order. *)
Definition item_parameters (i : NewOrderItem) : Z :=
  parameter (new_productName i) + parameter (new_productPrice i)
  + parameter (new_quantity i) + 1.

(** The ORM writes the entities of one table with one [INSERT] of as many
    rows, and with no statement when there is none. The statement is bound
    first, which fails on too many parameters or on a value that the type
    of its column refuses, and leaves everything as it was; then its rows
    are written. *)
Definition insert_order_items (oid : Z) (items : list NewOrderItem) : Tx unit :=
  match items with
  | [] => tx_ret tt
  | _ :: _ =>
      statement
        (fun db =>
           if (parameters item_parameters items <=? max_parameters)
              && forallb item_binds items
           then insert_rows (insert_order_item oid) items db
           else (None, db))
  end.

Definition insert_products (ps : list NewProduct) : Tx unit :=
  match ps with
  | [] => tx_ret tt
  | _ :: _ =>
      statement
        (fun db =>
           if (parameters product_parameters ps <=? max_parameters)
              && forallb product_binds ps
           then insert_rows insert_product ps db
           else (None, db))
  end.

(** [getRepository('Order').save(order)]: with [cascade: true] on
    [orderItems] the ORM inserts the order, then its items with the new id
    as their foreign key, inside the transaction it opens around every
    [save]: [BEGIN], the two [INSERT]s, [COMMIT]. It answers the saved
    entity, of which the handler reads the [id]. *)
Definition save_order (env : Env) (o : NewOrder) (db : DataSource)
  : option Z * DataSource :=
  transaction
    (id <- statement (insert_order (now env) o) ;;
     _ <- insert_order_items id (new_orderItems o) ;;
     tx_ret id)%tx
    (fault env) db.

(** [getRepository('Product').save(defaults)] *)
Definition save_products (f : option nat) (ps : list NewProduct) (db : DataSource)
  : option unit * DataSource :=
  transaction (insert_products ps) f db.
End Statements.

(** [AppDataSource.initialize()] *)
Definition initialize (env : Env) (db : DataSource) : bool * DataSource :=
  if fails (fault env) then (false, db)
  else (true,
        mkDataSource true (products db) (orders db) (order_items db)
          (products_seq db) (orders_seq db) (order_items_seq db)).

(** A data source as [new DataSource(...)] leaves it, over the given
    database. *)
Definition disconnected (db : DataSource) : DataSource :=
  mkDataSource false (products db) (orders db) (order_items db)
    (products_seq db) (orders_seq db) (order_items_seq db).

(** ** HTTP responses *)

(** What [renderPage] is given for the one page modelled here: the order
    confirmation, which interpolates [saved.id]. *)
Inductive Content : Type :=
| OrderConfirmation (id : Z).

(** A response body: the text handed to [res.send], or the document
    [renderPage(title, content)] builds around a title and a content. *)
Inductive Body : Type :=
| Text (s : string)
| Page (title : string) (content : Content).

Record Response : Type := mkResponse {
  status : Z;
  body : Body
}.

(** What became of a request: a response was sent, or the handler threw
    outside every [try], so that its promise rejects and the handler itself
    sends nothing. *)
Inductive Outcome : Type :=
| Sent (r : Response)
| Unhandled.

Definition renderPage (title : string) (content : Content) : Body :=
  Page title content.

(** [res.send(b)] and [res.status(c).send(b)] *)
Definition send (b : Body) : Response := mkResponse 200 b.
Definition status_send (c : Z) (b : Body) : Response := mkResponse c b.

Record Request : Type := mkRequest {
  req_body : value
}.

(** ** Health endpoints *)

Definition get_healthz : Response := status_send 200 (Text "ok").

Definition get_readyz (db : DataSource) : Response :=
  if isInitialized db then send (Text "ready")
  else status_send 503 (Text "not ready").

(** ** Checkout *)

Definition elements (v : value) : list value :=
  match v with VArr l => l | _ => [] end.

(** [Array.prototype.reduce] with an initial value, for a callback that may
    throw. *)
Fixpoint reduce {A B} (f : A -> B -> option A) (l : list B) (a : A) : option A :=
  match l with
  | [] => Some a
  | x :: rest =>
      match f a x with
      | Some a' => reduce f rest a'
      | None => None
      end
  end.

(** [Array.prototype.map], for a callback that may throw. *)
Fixpoint map_throwing {A B} (f : A -> option B) (l : list A) : option (list B) :=
  match l with
  | [] => Some []
  | x :: rest =>
      match f x with
      | Some y =>
          match map_throwing f rest with
          | Some ys => Some (y :: ys)
          | None => None
          end
      | None => None
      end
  end.

Section Checkout.
Context {RT : Runtime} {PG : Postgres}.

(** [(sum, item) => sum + item.price * item.quantity] *)
Definition add_line (sum : float) (item : value) : option float :=
  match Get item "price", Get item "quantity" with
  | Some p, Some q =>
      match ToNumber p, ToNumber q with
      | Some p', Some q' => Some (sum + p' * q')%float
      | _, _ => None
      end
  | _, _ => None
  end.

Definition cart_total (cartItems : list value) : option float :=
  reduce add_line cartItems 0%float.

(** [i => ({ productName: i.name, productPrice: i.price, quantity: i.quantity })] *)
Definition snapshot (i : value) : option NewOrderItem :=
  match Get i "name", Get i "price", Get i "quantity" with
  | Some n, Some p, Some q => Some (mkNewOrderItem n p q)
  | _, _, _ => None
  end.

(** What the handler answers once [save] has settled: the confirmation
    page with [saved.id], or the 500 of the [catch]. *)
Definition confirm (saved : option Z * DataSource) : Outcome * DataSource :=
  match saved with
  | (Some id, db') =>
      (Sent (send (renderPage "Order Confirmation - Web Forx Online Storeshop"
                     (OrderConfirmation id))), db')
  | (None, db') =>
      (Sent (status_send 500 (Text "Error processing order")), db')
  end.

(** The second [try] block of the handler: build the order, save it,
    render the confirmation; anything thrown becomes the 500 response. *)
Definition place_order (env : Env) (name address : value) (order_total : float)
    (cartItems : list value) (db : DataSource) : Outcome * DataSource :=
  match map_throwing snapshot cartItems with
  | None => (Sent (status_send 500 (Text "Error processing order")), db)
  | Some orderItems =>
      confirm (save_order env (mkNewOrder name address order_total orderItems) db)
  end.

(** [const { name, address, cartData } = req.body || {}] *)
Definition form (req : Request) : value := js_or (req_body req) (VObj []).
Definition buyer_name (req : Request) : value := GetV (form req) "name".
Definition buyer_address (req : Request) : value := GetV (form req) "address".
Definition cartData (req : Request) : value := GetV (form req) "cartData".

(** [JSON.parse(cartData || '[]')], [None] when it throws. *)
Definition parse_cart (req : Request) : option value :=
  JSON_parse_value (js_or (cartData req) (VStr "[]")).

(** [app.post('/checkout', ...)] *)
Definition post_checkout (env : Env) (req : Request) (db : DataSource)
  : Outcome * DataSource :=
  match parse_cart req with
  | None => (Sent (status_send 400 (Text "Invalid cart data")), db)
  | Some cartItems =>
      if negb (isArray cartItems)
         || (Z.of_nat (List.length (elements cartItems)) =? 0)
      then (Sent (status_send 400 (Text "Cart is empty")), db)
      else
        match cart_total (elements cartItems) with
        | None => (Unhandled, db)
        | Some order_total =>
            place_order env (buyer_name req) (buyer_address req) order_total
              (elements cartItems) db
        end
  end.
End Checkout.

(** ** Start-up seeding *)

Definition default_products : list NewProduct :=
  [ mkNewProduct (VStr "WFX Strawberry Delight") (VNum 3.0%float) (VStr "strawberry.svg");
    mkNewProduct (VStr "WFX Dark Chocolate") (VNum 2.5%float) (VStr "chocolate.svg");
    mkNewProduct (VStr "WFX Candy Crunch") (VNum 2.75%float) (VStr "candy.svg");
    mkNewProduct (VStr "WFX Berry Burst") (VNum 3.0%float) (VStr "berry.svg");
    mkNewProduct (VStr "WFX Salted Caramel") (VNum 2.5%float) (VStr "caramel.svg");
    mkNewProduct (VStr "WFX Orange Zest") (VNum 2.5%float) (VStr "orange.svg") ].

(** [repo.count()]: one statement, outside any transaction. *)
Definition count_products (f : option nat) (db : DataSource) : option Z :=
  if negb (isInitialized db) || fails f then None
  else Some (Z.of_nat (List.length (products db))).

(** The seed step of the start-up chain, for the product list [defaults]:
    [false] when something threw, which makes the process exit. *)
Definition seedIfEmpty {PG : Postgres} (env : Env) (defaults : list NewProduct)
    (db : DataSource) : bool * DataSource :=
  match count_products (fault env) db with
  | None => (false, db)
  | Some count =>
      if count =? 0 then
        match save_products (later (fault env)) defaults db with
        | (Some _, db') => (true, db')
        | (None, db') => (false, db')
        end
      else (true, db)
  end.

(** The list the block seeds with: the parsed [SEED_PRODUCTS_JSON] when the
    variable is set, the built-in products otherwise. *)
Definition seed_defaults (configured : option (list NewProduct)) : list NewProduct :=
  match configured with
  | Some ps => ps
  | None => default_products
  end.

(** ** A runtime to run the handlers on

    An executable [Runtime], so that the handlers compute on concrete
    request bodies: a reader for JSON text (the grammar of RFC 8259, strings
    as UTF-8 bytes) and the number and string conversions of ECMAScript on
    ASCII text. *)
Module Node.

Definition is_ws (c : ascii) : bool :=
  match c with
  | " "%char | "009"%char | "010"%char | "013"%char => true
  | _ => false
  end.

Fixpoint skip_ws (s : string) : string :=
  match s with
  | String c r => if is_ws c then skip_ws r else s
  | EmptyString => s
  end.

Definition code (c : ascii) : Z := Z.of_N (N_of_ascii c).
Definition char_of (n : Z) : ascii := ascii_of_N (Z.to_N n).

Definition digit (c : ascii) : option Z :=
  let n := code c in
  if (48 <=? n) && (n <=? 57) then Some (n - 48) else None.

Definition hex_digit (c : ascii) : option Z :=
  let n := code c in
  if (48 <=? n) && (n <=? 57) then Some (n - 48)
  else if (65 <=? n) && (n <=? 70) then Some (n - 55)
  else if (97 <=? n) && (n <=? 102) then Some (n - 87)
  else None.

(** *** Decimal to binary64 *)

Definition signed_zero (neg : bool) : float :=
  if neg then (-0)%float else 0%float.

Definition signed_infinity (neg : bool) : float :=
  if neg then neg_infinity else infinity.

(** The binary64 value nearest to [m * 10^e10] (ties to even), for
    [0 <= m]. Magnitudes beyond the range of the format are settled from
    the size of [m] alone, without building the power of ten. *)
Definition float_of_decimal (neg : bool) (m e10 : Z) : float :=
  if m =? 0 then signed_zero neg
  else if 310 <? e10 + Z.log2 m / 4 then signed_infinity neg
  else if e10 + (Z.log2 m + 1) / 3 + 1 <? -330 then signed_zero neg
  else if 0 <=? e10 then
    SF2Prim (binary_normalize prec emax (cond_Zopp neg (m * 10 ^ e10)) 0 neg)
  else
    let '(q, e, l) := SFdiv_core_binary prec emax m 0 (10 ^ (- e10)) 0 in
    SF2Prim (binary_round_aux prec emax neg q e l).

(** *** Numbers *)

Fixpoint read_digits (s : string) (acc count : Z) : Z * Z * string :=
  match s with
  | String c r =>
      match digit c with
      | Some d => read_digits r (10 * acc + d) (count + 1)
      | None => (acc, count, s)
      end
  | EmptyString => (acc, count, s)
  end.

(** [frac]: the digits extend the mantissa; their number is returned. *)
Definition read_frac (m : Z) (s : string) : option (Z * Z * string) :=
  match s with
  | String "."%char r =>
      let '(m', n, r') := read_digits r m 0 in
      if n =? 0 then None else Some (m', n, r')
  | _ => Some (m, 0, s)
  end.

Definition read_exp (s : string) : option (Z * string) :=
  match s with
  | String c r =>
      if (c =? "e")%char || (c =? "E")%char then
        let '(sign, r1) :=
          match r with
          | String "-"%char x => (-1, x)
          | String "+"%char x => (1, x)
          | _ => (1, r)
          end in
        let '(e, n, r2) := read_digits r1 0 0 in
        if n =? 0 then None else Some (sign * e, r2)
      else Some (0, s)
  | EmptyString => Some (0, s)
  end.

(** [number = [ "-" ] int [ frac ] [ exp ]] *)
Definition read_number (s : string) : option (float * string) :=
  let '(neg, s0) :=
    match s with
    | String "-"%char r => (true, r)
    | _ => (false, s)
    end in
  match s0 with
  | String c r =>
      match digit c with
      | Some d =>
          let '(m, _, s1) := if d =? 0 then (0, 1, r) else read_digits r d 1 in
          match read_frac m s1 with
          | Some (m', fd, s2) =>
              match read_exp s2 with
              | Some (e, s3) => Some (float_of_decimal neg m' (e - fd), s3)
              | None => None
              end
          | None => None
          end
      | None => None
      end
  | EmptyString => None
  end.

(** *** Strings *)

(** The UTF-8 bytes of a code point (a lone surrogate takes the three-byte
    form), in reverse order. *)
Definition utf8_rev (cp : Z) : list ascii :=
  if cp <? 128 then [char_of cp]
  else if cp <? 2048 then
    [char_of (128 + cp mod 64); char_of (192 + cp / 64)]
  else if cp <? 65536 then
    [char_of (128 + cp mod 64); char_of (128 + (cp / 64) mod 64);
     char_of (224 + cp / 4096)]
  else
    [char_of (128 + cp mod 64); char_of (128 + (cp / 64) mod 64);
     char_of (128 + (cp / 4096) mod 64); char_of (240 + cp / 262144)].

Definition flush (pending : option Z) (acc : list ascii) : list ascii :=
  match pending with
  | Some h => (utf8_rev h ++ acc)%list
  | None => acc
  end.

(** A [\uXXXX] escape: a high surrogate waits for its low half. *)
Definition push_unit (u : Z) (pending : option Z) (acc : list ascii)
  : option Z * list ascii :=
  if (55296 <=? u) && (u <=? 56319) then (Some u, flush pending acc)
  else if (56320 <=? u) && (u <=? 57343) then
    match pending with
    | Some h =>
        (None, (utf8_rev (65536 + (h - 55296) * 1024 + (u - 56320)) ++ acc)%list)
    | None => (None, (utf8_rev u ++ acc)%list)
    end
  else (None, (utf8_rev u ++ flush pending acc)%list).

Definition escape (c : ascii) : option ascii :=
  match c with
  | "034"%char => Some "034"%char
  | "\"%char => Some "\"%char
  | "/"%char => Some "/"%char
  | "b"%char => Some "008"%char
  | "f"%char => Some "012"%char
  | "n"%char => Some "010"%char
  | "r"%char => Some "013"%char
  | "t"%char => Some "009"%char
  | _ => None
  end.

(** The characters of a string after its opening quote, up to the closing
    one. *)
Fixpoint read_chars (s : string) (pending : option Z) (acc : list ascii)
  : option (string * string) :=
  match s with
  | EmptyString => None
  | String "034"%char r =>
      Some (string_of_list_ascii (rev (flush pending acc)), r)
  | String "\"%char (String "u"%char (String a (String b (String c (String d r))))) =>
      match hex_digit a, hex_digit b, hex_digit c, hex_digit d with
      | Some x3, Some x2, Some x1, Some x0 =>
          let '(pending', acc') :=
            push_unit (x3 * 4096 + x2 * 256 + x1 * 16 + x0) pending acc in
          read_chars r pending' acc'
      | _, _, _, _ => None
      end
  | String "\"%char (String e r) =>
      match escape e with
      | Some c => read_chars r None (c :: flush pending acc)
      | None => None
      end
  | String "\"%char EmptyString => None
  | String c r =>
      if code c <? 32 then None
      else read_chars r None (c :: flush pending acc)
  end.

(** *** Values *)

(** A member of an object: a key met again keeps its place and takes the
    new value. *)
Fixpoint set_property (k : string) (v : value) (props : list (string * value))
  : list (string * value) :=
  match props with
  | [] => [(k, v)]
  | (k', v') :: rest =>
      if (k' =? k)%string then (k, v) :: rest
      else (k', v') :: set_property k v rest
  end.

Fixpoint read_value (fuel : nat) (s : string) {struct fuel}
  : option (value * string) :=
  match fuel with
  | O => None
  | S fuel' =>
      match skip_ws s with
      | String "["%char r =>
          match skip_ws r with
          | String "]"%char r' => Some (VArr [], r')
          | _ => read_elements fuel' r []
          end
      | String "{"%char r =>
          match skip_ws r with
          | String "}"%char r' => Some (VObj [], r')
          | _ => read_members fuel' r []
          end
      | String "034"%char r =>
          match read_chars r None [] with
          | Some (str, r') => Some (VStr str, r')
          | None => None
          end
      | String "t"%char (String "r"%char (String "u"%char (String "e"%char r))) =>
          Some (VBool true, r)
      | String "f"%char (String "a"%char (String "l"%char (String "s"%char
          (String "e"%char r)))) =>
          Some (VBool false, r)
      | String "n"%char (String "u"%char (String "l"%char (String "l"%char r))) =>
          Some (VNull, r)
      | s' =>
          match read_number s' with
          | Some (n, r) => Some (VNum n, r)
          | None => None
          end
      end
  end
with read_elements (fuel : nat) (s : string) (acc : list value) {struct fuel}
  : option (value * string) :=
  match fuel with
  | O => None
  | S fuel' =>
      match read_value fuel' s with
      | Some (v, r) =>
          match skip_ws r with
          | String ","%char r' => read_elements fuel' r' (v :: acc)
          | String "]"%char r' => Some (VArr (rev (v :: acc)), r')
          | _ => None
          end
      | None => None
      end
  end
with read_members (fuel : nat) (s : string) (acc : list (string * value))
  {struct fuel} : option (value * string) :=
  match fuel with
  | O => None
  | S fuel' =>
      match skip_ws s with
      | String "034"%char r =>
          match read_chars r None [] with
          | Some (k, r1) =>
              match skip_ws r1 with
              | String ":"%char r2 =>
                  match read_value fuel' r2 with
                  | Some (v, r3) =>
                      match skip_ws r3 with
                      | String ","%char r4 =>
                          read_members fuel' r4 (set_property k v acc)
                      | String "}"%char r4 =>
                          Some (VObj (set_property k v acc), r4)
                      | _ => None
                      end
                  | None => None
                  end
              | _ => None
              end
          | None => None
          end
      | _ => None
      end
  end.

(** [JSON.parse] on a string (no reviver). *)
Definition parse (s : string) : option value :=
  match read_value (S (String.length s)) s with
  | Some (v, r) =>
      match skip_ws r with
      | EmptyString => Some v
      | _ => None
      end
  | None => None
  end.

(** *** [StringToNumber] *)

Definition is_space (c : ascii) : bool :=
  let n := code c in ((9 <=? n) && (n <=? 13)) || (n =? 32).

(** The white space of three bytes: U+1680, U+2000 to U+200A, U+2028,
    U+2029, U+202F, U+205F, U+3000 and U+FEFF. *)
Definition wide_space (a b c : Z) : bool :=
  ((a =? 225) && (b =? 154) && (c =? 128))
  || ((a =? 226) && (b =? 128)
      && (((128 <=? c) && (c <=? 138)) || (c =? 168) || (c =? 169) || (c =? 175)))
  || ((a =? 226) && (b =? 129) && (c =? 159))
  || ((a =? 227) && (b =? 128) && (c =? 128))
  || ((a =? 239) && (b =? 187) && (c =? 191)).

(** [StrWhiteSpaceChar]: the white space and the line terminators of
    ECMAScript, U+00A0 among them, in their UTF-8 bytes. *)
Fixpoint skip_space (s : string) : string :=
  match s with
  | String a r =>
      if is_space a then skip_space r
      else
        match r with
        | String b r2 =>
            if (code a =? 194) && (code b =? 160) then skip_space r2
            else
              match r2 with
              | String c r3 =>
                  if wide_space (code a) (code b) (code c) then skip_space r3
                  else s
              | EmptyString => s
              end
        | EmptyString => s
        end
  | EmptyString => s
  end.

Fixpoint read_radix (radix : Z) (s : string) (acc count : Z) : Z * Z * string :=
  match s with
  | String c r =>
      match hex_digit c with
      | Some d =>
          if d <? radix then read_radix radix r (radix * acc + d) (count + 1)
          else (acc, count, s)
      | None => (acc, count, s)
      end
  | EmptyString => (acc, count, s)
  end.

Definition float_of_Z (z : Z) : float :=
  SF2Prim (binary_normalize prec emax z 0 false).

(** [0x], [0o] and [0b] literals *)
Definition read_radix_literal (s : string) : option (float * string) :=
  match s with
  | String "0"%char (String c r) =>
      let radix :=
        if (c =? "x")%char || (c =? "X")%char then 16
        else if (c =? "o")%char || (c =? "O")%char then 8
        else if (c =? "b")%char || (c =? "B")%char then 2
        else 0 in
      if radix =? 0 then None
      else
        let '(z, n, r') := read_radix radix r 0 0 in
        if n =? 0 then None else Some (float_of_Z z, r')
  | _ => None
  end.

(** [StrDecimalLiteral] *)
Definition read_decimal_literal (s : string) : option (float * string) :=
  let '(neg, s0) :=
    match s with
    | String "-"%char r => (true, r)
    | String "+"%char r => (false, r)
    | _ => (false, s)
    end in
  if prefix "Infinity" s0 then
    Some (signed_infinity neg, substring 8 (String.length s0 - 8)%nat s0)
  else
    let '(m, n, s1) := read_digits s0 0 0 in
    let '(m', fd, s2) :=
      match s1 with
      | String "."%char r => read_digits r m 0
      | _ => (m, 0, s1)
      end in
    if n + fd =? 0 then None
    else
      match read_exp s2 with
      | Some (e, s3) => Some (float_of_decimal neg m' (e - fd), s3)
      | None => None
      end.

Definition string_to_number (s : string) : float :=
  let t := skip_space s in
  match t with
  | EmptyString => 0%float
  | _ =>
      let r :=
        match read_radix_literal t with
        | Some x => Some x
        | None => read_decimal_literal t
        end in
      match r with
      | Some (x, rest) =>
          match skip_space rest with
          | EmptyString => x
          | _ => PrimFloat.nan
          end
      | None => PrimFloat.nan
      end
  end.

(** *** [Number::toString] *)

Definition decimal (z : Z) : string :=
  DecimalString.NilZero.string_of_int (Z.to_int z).

Fixpoint zeros (n : nat) : string :=
  match n with
  | O => ""
  | S k => String "0"%char (zeros k)
  end.

(** [num / den < 10 ^ k] *)
Definition below_pow10 (num den k : Z) : bool :=
  if 0 <=? k then num <? den * 10 ^ k else num * 10 ^ (- k) <? den.

Fixpoint first_pow10 (fuel : nat) (num den k : Z) : Z :=
  match fuel with
  | O => k
  | S f => if below_pow10 num den k then k else first_pow10 f num den (k + 1)
  end.

(** [floor (num / den / 10 ^ s)] together with the distances of
    [num / den / 10 ^ s] to it and to its successor, as numerators over a
    common denominator. *)
Definition scaled (num den s : Z) : Z * Z * Z :=
  let '(a, b) := if 0 <=? s then (num, den * 10 ^ s) else (num * 10 ^ (- s), den) in
  let lo := a / b in
  (lo, a - lo * b, (lo + 1) * b - a).

(** The shortest digit string that reads back as [x], nearest to [x] when
    several do: its digits [n], their number [p], and the exponent [k']
    with [10^(p-1) <= n < 10^p] and [x] the value nearest to
    [n * 10^(k'-p)]. The search starts from [k] with
    [10^(k-1) <= x < 10^k]. *)
Fixpoint shortest (fuel : nat) (p : Z) (x : float) (num den k : Z) : Z * Z * Z :=
  let '(lo, dlo, dhi) := scaled num den (k - p) in
  let ok n :=
    (10 ^ (p - 1) <=? n) && (n <=? 10 ^ p)
    && PrimFloat.eqb (float_of_decimal false n (k - p)) x in
  let pick :=
    match ok lo, ok (lo + 1) with
    | true, true =>
        if dlo <? dhi then Some lo
        else if dhi <? dlo then Some (lo + 1)
        else if Z.even lo then Some lo else Some (lo + 1)
    | true, false => Some lo
    | false, true => Some (lo + 1)
    | false, false => None
    end in
  match pick, fuel with
  | Some n, _ => if n =? 10 ^ p then (10 ^ (p - 1), p, k + 1) else (n, p, k)
  | None, S f => shortest f (p + 1) x num den k
  | None, O => (lo, p, k)
  end.

Definition layout (ds : string) (p k : Z) : string :=
  if (p <=? k) && (k <=? 21) then ds ++ zeros (Z.to_nat (k - p))
  else if (0 <? k) && (k <=? 21) then
    substring 0 (Z.to_nat k) ds ++ "." ++ substring (Z.to_nat k) (Z.to_nat (p - k)) ds
  else if (-6 <? k) && (k <=? 0) then "0." ++ zeros (Z.to_nat (- k)) ++ ds
  else
    let e := k - 1 in
    let tail := (if e <? 0 then "e-" else "e+") ++ decimal (Z.abs e) in
    if p =? 1 then ds ++ tail
    else substring 0 1 ds ++ "." ++ substring 1 (Z.to_nat (p - 1)) ds ++ tail.

Definition number_to_string (x : float) : string :=
  match Prim2SF x with
  | S754_nan => "NaN"
  | S754_zero _ => "0"
  | S754_infinity neg => if neg then "-Infinity" else "Infinity"
  | S754_finite neg m e =>
      let num := if 0 <=? e then Zpos m * 2 ^ e else Zpos m in
      let den := if 0 <=? e then 1 else 2 ^ (- e) in
      let k0 := (Z.log2 num - Z.log2 den) * 30103 / 100000 - 2 in
      let k := first_pow10 8 num den k0 in
      let '(n, p, k') := shortest 17 1 (PrimFloat.abs x) num den k in
      (if neg then "-" else "") ++ layout (decimal n) p k'
  end.

(** *** [ToString] on any value *)

Fixpoint has_key (k : string) (props : list (string * value)) : bool :=
  match props with
  | [] => false
  | (k', _) :: rest => (k' =? k)%string || has_key k rest
  end.

(** Arrays join their elements; an object answers the inherited
    [toString] unless an own property (never callable in parsed JSON)
    shadows it. *)
Fixpoint to_string (v : value) : option string :=
  match v with
  | VUndefined => Some "undefined"
  | VNull => Some "null"
  | VBool true => Some "true"
  | VBool false => Some "false"
  | VNum n => Some (number_to_string n)
  | VStr s => Some s
  | VObj props => if has_key "toString" props then None else Some "[object Object]"
  | VArr l =>
      (fix join (l : list value) : option string :=
         match l with
         | [] => Some ""
         | x :: rest =>
             let head :=
               match x with
               | VUndefined | VNull => Some ""
               | _ => to_string x
               end in
             match rest with
             | [] => head
             | _ =>
                 match head, join rest with
                 | Some a, Some b => Some (a ++ "," ++ b)
                 | _, _ => None
                 end
             end
         end) l
  end.

#[export] Instance runtime : Runtime := {|
  JSON_parse := parse;
  StringToNumber := string_to_number;
  NumberToString := number_to_string;
  ObjectToString := to_string;
  JSON_parse_empty_array := eq_refl
|}.
End Node.

(** ** Vocabulary of the specification *)

(** The response that confirms the order [id]. *)
Definition confirmation (id : Z) : Response :=
  send (renderPage "Order Confirmation - Web Forx Online Storeshop"
          (OrderConfirmation id)).

(** The price and the quantity of a cart item that carries both as
    numbers. *)
Definition line_of (item : value) : option (float * float) :=
  match item with
  | VObj props =>
      match own_property props "price", own_property props "quantity" with
      | VNum p, VNum q => Some (p, q)
      | _, _ => None
      end
  | _ => None
  end.

Definition lines_of (cartItems : list value) : option (list (float * float)) :=
  map_throwing line_of cartItems.

(** [Σ price_i × quantity_i] in binary64 arithmetic, summed from [0] in cart
    order. *)
Definition float_sum (lines : list (float * float)) : float :=
  fold_left (fun sum l => (sum + fst l * snd l)%float) lines 0%float.

(** A well-formed cart item: an object with a string for its name and
    numbers for its price and quantity. *)
Definition well_formed_item (item : value) : bool :=
  match line_of item, GetV item "name" with
  | Some _, VStr _ => true
  | _, _ => false
  end.

Definition well_formed_cart (cartItems : list value) : bool :=
  forallb well_formed_item cartItems.

(** The order item a cart item is copied to. *)
Definition snapshot_of (item : value) : NewOrderItem :=
  mkNewOrderItem (GetV item "name") (GetV item "price") (GetV item "quantity").

(** The rows [save] writes for the items of order [oid] when the last item
    id drawn is [seq]. *)
Fixpoint item_rows (seq oid : Z) (items : list NewOrderItem) : list OrderItem :=
  match items with
  | [] => []
  | i :: rest =>
      mkOrderItem (seq + 1) (new_productName i) (new_productPrice i)
        (or_default (VNum 1%float) (new_quantity i)) oid
      :: item_rows (seq + 1) oid rest
  end.

Fixpoint product_rows (seq : Z) (ps : list NewProduct) : list Product :=
  match ps with
  | [] => []
  | p :: rest =>
      mkProduct (seq + 1) (seed_name p) (seed_price p) (seed_image p)
      :: product_rows (seq + 1) rest
  end.

(** The constraints a row must meet to be inserted. *)
Definition item_insertable (i : NewOrderItem) : bool :=
  not_null (new_productName i) && not_null (new_productPrice i)
  && not_null (or_default (VNum 1%float) (new_quantity i)).

(** A cart item that the columns of [order_items] take as it is: a string
    without U+0000 for its name, a number for its price, an integer of 32
    bits for its quantity. *)
Definition storable_item (item : value) : bool :=
  match GetV item "name", GetV item "price", GetV item "quantity" with
  | VStr n, VNum _, VNum q => negb (has_nul n) && int4 q
  | _, _, _ => false
  end.

(** A cart of such items that one [INSERT] can bind: four parameters an
    item. *)
Definition storable_cart (cartItems : list value) : bool :=
  forallb storable_item cartItems
  && (4 * Z.of_nat (List.length cartItems) <=? max_parameters).

(** The order items of an order. *)
Definition items_of (db : DataSource) (oid : Z) : list OrderItem :=
  filter (fun i => order i =? oid) (order_items db).

(** The number a numeric column holds. *)
Definition number (v : value) : float :=
  match v with VNum n => n | _ => PrimFloat.nan end.

(** [Σ productPrice × quantity] over order item rows, in binary64
    arithmetic. *)
Definition order_sum (rows : list OrderItem) : float :=
  fold_left
    (fun sum r => (sum + number (productPrice r) * number (quantity r))%float)
    rows 0%float.

(** Order ids come from the sequence: no row names an id not drawn yet. *)
Definition store_consistent (db : DataSource) : Prop :=
  Forall (fun o => order_id o <= orders_seq db) (orders db)
  /\ Forall (fun i => order i <= orders_seq db) (order_items db).

(** [0 <= x < ∞] *)
Definition finite_nonneg (x : float) : bool :=
  ((0 <=? x) && (x <? infinity))%float.

Definition nonneg_line (l : float * float) : bool :=
  finite_nonneg (fst l) && finite_nonneg (snd l).


(** The store after [save(order)] has committed. *)
Definition committed (env : Env) (o : NewOrder) (db : DataSource) : DataSource :=
  let id := orders_seq db + 1 in
  mkDataSource (isInitialized db) (products db)
    (orders db ++ [mkOrder id (new_name o) (new_address o) (new_total o) (now env)])
    (order_items db ++ item_rows (order_items_seq db) id (new_orderItems o))
    (products_seq db) id
    (order_items_seq db + Z.of_nat (List.length (new_orderItems o))).

(** The store after [save(defaults)] has committed. *)
Definition seeded (ps : list NewProduct) (db : DataSource) : DataSource :=
  mkDataSource (isInitialized db)
    (products db ++ product_rows (products_seq db) ps)
    (orders db) (order_items db)
    (products_seq db + Z.of_nat (List.length ps))
    (orders_seq db) (order_items_seq db).

(** The sign of a binary64 value, read on its specification. *)
Definition SFnonneg (x : spec_float) : bool :=
  match x with
  | S754_zero _ => true
  | S754_infinity s | S754_finite s _ _ => negb s
  | S754_nan => false
  end.

Definition SFbounded (x : spec_float) : bool :=
  match x with
  | S754_zero _ | S754_finite _ _ _ => true
  | _ => false
  end.

(** ** Sample requests *)

(** A server for the samples. None of them binds a value of another kind
    than that of its column, so that what the server makes of one does not
    matter to them: this one takes none. *)
Definition strict_server : Postgres := {| takes := fun _ _ => false |}.

Definition quoted (s : string) : string :=
  String "034"%char (s ++ String "034"%char "").

(** [[{"id":2,"name":"WFX Dark Chocolate","price":2.50,"quantity":3}]] *)
Definition chocolate_cart : string :=
  "[{" ++ quoted "id" ++ ":2," ++ quoted "name" ++ ":" ++ quoted "WFX Dark Chocolate"
  ++ "," ++ quoted "price" ++ ":2.50," ++ quoted "quantity" ++ ":3}]".

(** The same cart with a quantity of 3000000000, and with one of
    2147483648: both past the largest [int], 2147483647. *)
Definition bulk_cart : string :=
  "[{" ++ quoted "id" ++ ":2," ++ quoted "name" ++ ":" ++ quoted "WFX Dark Chocolate"
  ++ "," ++ quoted "price" ++ ":2.50," ++ quoted "quantity" ++ ":3000000000}]".


(** [[{"name":"Store credit","price":-5,"quantity":1}]] *)
Definition credit_cart : string :=
  "[{" ++ quoted "name" ++ ":" ++ quoted "Store credit" ++ "," ++ quoted "price"
  ++ ":-5," ++ quoted "quantity" ++ ":1}]".

Definition checkout_form (name address cart : value) : Request :=
  mkRequest (VObj [("name", name); ("address", address); ("cartData", cart)]).

Definition alice_order : Request :=
  checkout_form (VStr "Alice") (VStr "1 Main St") (VStr chocolate_cart).

Definition anonymous_order : Request :=
  checkout_form (VStr "") (VStr "") (VStr chocolate_cart).

Definition credit_order : Request :=
  checkout_form (VStr "Mallory") (VStr "2 Side St") (VStr credit_cart).

Definition bulk_order : Request :=
  checkout_form (VStr "Alice") (VStr "1 Main St") (VStr bulk_cart).


(** A form posted without its [cartData] field. *)
Definition bare_form : Request :=
  mkRequest (VObj [("name", VStr "Alice"); ("address", VStr "1 Main St")]).

Definition empty_store : DataSource := mkDataSource true [] [] [] 0 0 0.

(** No failure of the store; and a failure at the second statement, the
    insert of the order items. *)
Definition calm : Env := mkEnv None 1700000000.
Definition failing_after_header : Env := mkEnv (Some 1%nat) 1700000000.

(** What [chocolate_cart] parses to, and the store after Alice's order. *)
Definition chocolate_items : list value :=
  [VObj [("id", VNum 2%float); ("name", VStr "WFX Dark Chocolate");
         ("price", VNum 2.5%float); ("quantity", VNum 3%float)]].

Definition alice_store : DataSource :=
  mkDataSource true []
    [mkOrder 1 (VStr "Alice") (VStr "1 Main St") 7.5%float 1700000000]
    [mkOrderItem 1 (VStr "WFX Dark Chocolate") (VNum 2.5%float) (VNum 3%float) 1]
    0 1 1.

(** * The rest of [app.js] *)

(** ** More of the JavaScript runtime

    The built-ins the page scripts, the product listing and the
    configuration call besides those of [Runtime]: [JSON.stringify],
    [Number.prototype.toFixed] with two digits, and [parseInt] in base 10. *)
Class Builtins : Type := {
  JSON_stringify : value -> string;
  toFixed2 : float -> string;
  parseInt10 : string -> float
}.

(** ** The cart kept by the browser

    The scripts of the products, cart and checkout pages keep the cart as
    JSON text under the key ['cart'] of [sessionStorage]: [None] is the
    [null] that [getItem] answers for a missing key. *)

(** [v === n] for a number [n]: objects are never identical to a number,
    [NaN] equals nothing, the two zeros are equal. *)
Definition strict_equals_number (v : value) (n : float) : bool :=
  match v with
  | VNum m => PrimFloat.eqb m n
  | _ => false
  end.

(** [props] with the property [k] set to [v]: an existing property keeps
    its place, a new one comes last. *)
Fixpoint put_property (props : list (string * value)) (k : string) (v : value)
  : list (string * value) :=
  match props with
  | [] => [(k, v)]
  | (k', v') :: rest =>
      if (k' =? k)%string then (k, v) :: rest
      else (k', v') :: put_property rest k v
  end.

(** [l] with its element of index [n] replaced. *)
Fixpoint replace_nth {A} (n : nat) (x : A) (l : list A) : list A :=
  match l, n with
  | [], _ => []
  | _ :: rest, O => x :: rest
  | y :: rest, S n' => y :: replace_nth n' x rest
  end.

Section Cart.
Context {RT : Runtime} {BI : Builtins}.

(** [ToPrimitive] *)
Definition ToPrimitive (v : value) : option value :=
  match v with
  | VArr _ | VObj _ => option_map VStr (ObjectToString v)
  | _ => Some v
  end.

(** [a + b]: concatenation as soon as one side is a string, the sum of the
    numbers otherwise; [None] when a conversion throws. *)
Definition js_plus (a b : value) : option value :=
  match ToPrimitive a, ToPrimitive b with
  | Some pa, Some pb =>
      match pa, pb with
      | VStr s, _ => option_map (fun t => VStr (s ++ t)) (ToString pb)
      | _, VStr t => option_map (fun s => VStr (s ++ t)) (ToString pa)
      | _, _ =>
          match ToNumber pa, ToNumber pb with
          | Some x, Some y => Some (VNum (x + y)%float)
          | _, _ => None
          end
      end
  | _, _ => None
  end.

(** [cart ? JSON.parse(cart) : []] *)
Definition load_cart (storage : option string) : option value :=
  match storage with
  | None => Some (VArr [])
  | Some s => if (s =? "")%string then Some (VArr []) else JSON_parse s
  end.

(** [cart.find(i => i.id === id)], as the index of the entry found: the
    outer [None] when the callback throws on a [null] entry. *)
Fixpoint find_by_id (id : float) (cart : list value) : option (option nat) :=
  match cart with
  | [] => Some None
  | i :: rest =>
      match Get i "id" with
      | None => None
      | Some v =>
          if strict_equals_number v id then Some (Some O)
          else
            match find_by_id id rest with
            | Some (Some n) => Some (Some (S n))
            | r => r
            end
      end
  end.

(** [{ id, name, price, quantity: 1 }] *)
Definition new_entry (id : float) (name : string) (price : float) : value :=
  VObj [("id", VNum id); ("name", VStr name); ("price", VNum price);
        ("quantity", VNum 1%float)].

(** [it.quantity += 1] on the entry [it] *)
Definition bump_quantity (it : value) : option value :=
  match Get it "quantity" with
  | None => None
  | Some q =>
      match js_plus q (VNum 1%float) with
      | None => None
      | Some q' =>
          match it with
          | VObj props => Some (VObj (put_property props "quantity" q'))
          | _ => Some it
          end
      end
  end.

(** The middle line of [addToCart], on the entries of the cart:
    [const it = cart.find(...); if (it) it.quantity += 1; else cart.push(...)]. *)
Definition add_entry (cart : list value) (id : float) (name : string) (price : float)
  : option (list value) :=
  match find_by_id id cart with
  | None => None
  | Some (Some n) =>
      let it := nth n cart VUndefined in
      if ToBoolean it then
        match bump_quantity it with
        | Some it' => Some (replace_nth n it' cart)
        | None => None
        end
      else Some (cart ++ [new_entry id name price])%list
  | Some None => Some (cart ++ [new_entry id name price])%list
  end.

(** [addToCart(id, name, price)], for the number, string and number the
    products page writes into the call: the text it stores under ['cart'],
    or [None] when it throws before storing, which leaves the storage as it
    was. Reading the cart throws on text that is not JSON; [find] exists on
    arrays only. *)
Definition addToCart (storage : option string) (id : float) (name : string)
    (price : float) : option string :=
  match load_cart storage with
  | Some (VArr cart) =>
      match add_entry cart id name price with
      | Some cart' => Some (JSON_stringify (VArr cart'))
      | None => None
      end
  | _ => None
  end.

(** [(s, i) => s + i.quantity] *)
Definition add_quantity (s i : value) : option value :=
  match Get i "quantity" with
  | Some q => js_plus s q
  | None => None
  end.

(** [updateCartCount()]: the value written to the badge. *)
Definition updateCartCount (storage : option string) : option value :=
  match load_cart storage with
  | Some (VArr cart) => reduce add_quantity cart (VNum 0%float)
  | _ => None
  end.

(** [v.length === 0]: [None] when reading [length] throws. *)
Definition length_is_zero (v : value) : option bool :=
  match v with
  | VUndefined | VNull => None
  | VArr l => Some (match l with [] => true | _ => false end)
  | VStr s => Some (s =? "")%string
  | VObj props => Some (strict_equals_number (own_property props "length") 0%float)
  | _ => Some false
  end.

(** [!cart || JSON.parse(cart).length === 0], the test both checkout
    scripts start with: [None] when it throws. *)
Definition cart_is_empty (storage : option string) : option bool :=
  match storage with
  | None => Some true
  | Some s =>
      if (s =? "")%string then Some true
      else
        match JSON_parse s with
        | Some v => length_is_zero v
        | None => None
        end
  end.

(** What the hidden [cartData] field holds before [prepareOrder] runs. *)
Definition blank_field : string := "".

(** [prepareOrder()]: what it returns and the value of the [cartData] field
    when it is done; [None] when it throws. *)
Definition prepareOrder (storage : option string) : option (bool * string) :=
  match cart_is_empty storage, storage with
  | Some false, Some s => Some (true, s)
  | Some _, _ => Some (false, blank_field)
  | None, _ => None
  end.

(** One line of the cart summary: the texts of the name, of the price
    with two digits, and of the quantity. *)
Record SummaryLine : Type := mkSummaryLine {
  line_name : string;
  line_price : string;
  line_quantity : string
}.

(** What [renderCartSummary] writes into the page. *)
Inductive Summary : Type :=
| EmptyCartNotice
| CartLines (lines : list SummaryLine) (total_text : string).

(** The body of the [forEach] callback of [renderCartSummary]:
    [total += item.price * item.quantity], then the line, whose
    [item.price.toFixed(2)] exists for a number only. *)
Definition summary_step (acc : float * list SummaryLine) (item : value)
  : option (float * list SummaryLine) :=
  match add_line (fst acc) item with
  | None => None
  | Some t =>
      match ToString (GetV item "name"), GetV item "price",
            ToString (GetV item "quantity") with
      | Some n, VNum p, Some q =>
          Some (t, (snd acc ++ [mkSummaryLine n (toFixed2 p) q])%list)
      | _, _, _ => None
      end
  end.

(** [renderCartSummary()]: [None] when it throws, which leaves the page
    without a summary. *)
Definition renderCartSummary (storage : option string) : option Summary :=
  match cart_is_empty storage with
  | None => None
  | Some true => Some EmptyCartNotice
  | Some false =>
      match storage with
      | Some s =>
          match JSON_parse s with
          | Some (VArr cart) =>
              match reduce summary_step cart (0%float, []) with
              | Some (t, ls) => Some (CartLines ls (toFixed2 t))
              | None => None
              end
          | _ => None
          end
      | None => None
      end
  end.

(** What [renderCart] writes into the cart page. *)
Inductive CartView : Type :=
| EmptyCartView
| CartList (lines : list SummaryLine).

(** The body of the [forEach] callback of [renderCart]: the line of the
    item, without a total. *)
Definition cart_line (item : value) : option SummaryLine :=
  match Get item "name" with
  | None => None
  | Some name =>
      match ToString name, GetV item "price", ToString (GetV item "quantity") with
      | Some n, VNum p, Some q => Some (mkSummaryLine n (toFixed2 p) q)
      | _, _, _ => None
      end
  end.

(** [renderCart()]: [None] when it throws, which leaves the page without
    its list. *)
Definition renderCart (storage : option string) : option CartView :=
  match cart_is_empty storage with
  | None => None
  | Some true => Some EmptyCartView
  | Some false =>
      match storage with
      | Some s =>
          match JSON_parse s with
          | Some (VArr cart) => option_map CartList (map_throwing cart_line cart)
          | _ => None
          end
      | None => None
      end
  end.
End Cart.

(** ** The process environment and the files beside the script *)

(** [process.env]: a variable is a string or is not set. *)
Record ProcessEnv : Type := mkProcessEnv {
  DB_HOST : option string;
  DB_PORT : option string;
  DB_SSL : option string;
  DB_SSL_CA_PATH : option string;
  DB_USER : option string;
  DB_PASS : option string;
  DB_NAME : option string;
  CREATE_DB_IF_MISSING : option string;
  STARTUP_UPLOAD_STATIC : option string;
  S3_BUCKET : option string;
  S3_REGION : option string;
  TYPEORM_SYNC : option string
}.

(** What [fs] and [require] find: the text of a file ([None]: reading it
    throws), the entries of the [static] directory beside the script
    ([None]: no such directory; an entry without content cannot be read as a
    file), and whether the AWS SDK packages are installed. *)
Record Files : Type := mkFiles {
  readFile : string -> option string;
  static_dir : option (list (string * option string));
  aws_sdk : bool
}.

(** A variable that is set to a non-empty string, the truthy case. *)
Definition is_set (x : option string) : bool :=
  match x with
  | Some s => negb (s =? "")%string
  | None => false
  end.

(** [x || d] *)
Definition env_or (x : option string) (d : string) : string :=
  match x with
  | Some s => if (s =? "")%string then d else s
  | None => d
  end.

(** [toLowerCase] on the letters A to Z. No other character lowers to one
    of the letters of ['true'], so this decides [s.toLowerCase() === 'true']. *)
Definition lower (c : ascii) : ascii :=
  let n := N_of_ascii c in
  if ((65 <=? n) && (n <=? 90))%N then ascii_of_N (n + 32) else c.

Fixpoint toLowerCase (s : string) : string :=
  match s with
  | EmptyString => EmptyString
  | String c r => String (lower c) (toLowerCase r)
  end.

(** [(x || d).toLowerCase() === 'true'] *)
Definition flag (x : option string) (d : string) : bool :=
  (toLowerCase (env_or x d) =? "true")%string.

(** *** Connection options *)

(** The [ssl] option: [false], [{ ca }] or [{ rejectUnauthorized: false }]. *)
Inductive Ssl : Type :=
| SslOff
| SslCa (ca : string)
| SslUnverified.

Record ConnectionOptions : Type := mkConnectionOptions {
  host : string;
  port : float;
  ssl : Ssl;
  user : string;
  password : string;
  database : string
}.

(** The [ssl] expression, written twice in the script:
    [DB_SSL === 'true' || (DB_HOST && DB_HOST !== 'localhost')
       ? (DB_SSL_CA_PATH ? { ca: readFileSync(...) } : { rejectUnauthorized: false })
       : false]; [None] when reading the certificate throws. *)
Definition ssl_option (e : ProcessEnv) (fs : Files) : option Ssl :=
  let wanted :=
    match DB_SSL e with Some s => (s =? "true")%string | None => false end in
  let remote :=
    match DB_HOST e with
    | Some h => negb (h =? "")%string && negb (h =? "localhost")%string
    | None => false
    end in
  if wanted || remote then
    match DB_SSL_CA_PATH e with
    | Some path =>
        if (path =? "")%string then Some SslUnverified
        else option_map SslCa (readFile fs path)
    | None => Some SslUnverified
    end
  else Some SslOff.

Section Options.
Context {BI : Builtins}.

(** [DB_PORT ? parseInt(DB_PORT, 10) : 5432] *)
Definition port_option (e : ProcessEnv) : float :=
  match DB_PORT e with
  | Some p => if (p =? "")%string then 5432%float else parseInt10 p
  | None => 5432%float
  end.

(** [dbConfig] of [ensureDatabaseExists]: the maintenance database. *)
Definition dbConfig (e : ProcessEnv) (fs : Files) : option ConnectionOptions :=
  match ssl_option e fs with
  | Some s =>
      Some (mkConnectionOptions (env_or (DB_HOST e) "localhost") (port_option e) s
              (env_or (DB_USER e) "postgres") (env_or (DB_PASS e) "postgres")
              "postgres")
  | None => None
  end.

(** The options of [AppDataSource], with its [synchronize] flag. *)
Definition dataSourceOptions (e : ProcessEnv) (fs : Files)
  : option (ConnectionOptions * bool) :=
  match ssl_option e fs with
  | Some s =>
      Some (mkConnectionOptions (env_or (DB_HOST e) "localhost") (port_option e) s
              (env_or (DB_USER e) "postgres") (env_or (DB_PASS e) "postgres")
              (env_or (DB_NAME e) "webforx_store"),
            flag (TYPEORM_SYNC e) "true")
  | None => None
  end.
End Options.

(** *** Asset addresses *)

(** The address of the asset [key]: in the bucket when [S3_BUCKET] and
    [S3_REGION] are both set, under [/static] otherwise. *)
Definition asset_url (e : ProcessEnv) (key : string) : string :=
  if is_set (S3_BUCKET e) && is_set (S3_REGION e) then
    "https://" ++ env_or (S3_BUCKET e) "" ++ ".s3." ++ env_or (S3_REGION e) ""
    ++ ".amazonaws.com/" ++ key
  else "/static/" ++ key.

Definition heroImageUrl (e : ProcessEnv) : string := asset_url e "shop.svg".

(** ** The products page *)

(** [name.replace(/'/g, "\\'")]: a backslash before every single quote. *)
Fixpoint escape_quotes (s : string) : string :=
  match s with
  | EmptyString => EmptyString
  | String c r =>
      if (c =? "'")%char then String "\" (String "'" (escape_quotes r))
      else String c (escape_quotes r)
  end.

(** One product of the listing: the address of its image, its name, its
    price with two digits, and the three arguments written into the
    [addToCart(...)] call of its button. *)
Record Card : Type := mkCard {
  card_image : string;
  card_name : string;
  card_price : string;
  call_id : Z;
  call_name : string;
  call_price : string
}.

(** The page of [GET /products], or its 500 "Error fetching products". *)
Inductive Listing : Type :=
| ProductsPage (cards : list Card)
| ProductsError.

Section Products.
Context {RT : Runtime} {BI : Builtins}.

(** The callback of [products.forEach]: [None] when it throws, which
    [p.name.replace] does unless the name is a string and [p.price.toFixed]
    unless the price is a number. *)
Definition product_card (e : ProcessEnv) (p : Product) : option Card :=
  match ToString (image p) with
  | Some img =>
      match product_name p, price p with
      | VStr n, VNum x =>
          Some (mkCard (asset_url e img) n (toFixed2 x) (product_id p)
                  (escape_quotes n) (NumberToString x))
      | _, _ => None
      end
  | None => None
  end.

(** [app.get('/products', ...)]: [repo.find()], then one card per product;
    anything thrown becomes the 500. *)
Definition get_products (env : Env) (e : ProcessEnv) (db : DataSource) : Listing :=
  if negb (isInitialized db) || fails (fault env) then ProductsError
  else
    match map_throwing (product_card e) (products db) with
    | Some cards => ProductsPage cards
    | None => ProductsError
    end.
End Products.

(** ** Start-up *)

(** *** Uploading the static files *)

(** The objects of the object store: bucket, key and body. *)
Definition ObjectStore : Type := list (string * string * string).

Fixpoint s3_get (bucket key : string) (s3 : ObjectStore) : option string :=
  match s3 with
  | [] => None
  | (b, k, body) :: rest =>
      if (b =? bucket)%string && (k =? key)%string then Some body
      else s3_get bucket key rest
  end.

(** An upload replaces the object of the same key. *)
Fixpoint s3_put (bucket key body : string) (s3 : ObjectStore) : ObjectStore :=
  match s3 with
  | [] => [(bucket, key, body)]
  | (b, k, body') :: rest =>
      if (b =? bucket)%string && (k =? key)%string then (bucket, key, body) :: rest
      else (b, k, body') :: s3_put bucket key body rest
  end.

(** The [for] loop over the directory: one upload per entry, awaited in
    turn; the first that fails throws, and nothing is undone. *)
Fixpoint upload_all (bucket : string) (entries : list (string * option string))
    (f : option nat) (s3 : ObjectStore) : bool * ObjectStore :=
  match entries with
  | [] => (true, s3)
  | (file, content) :: rest =>
      if fails f then (false, s3)
      else
        match content with
        | Some body => upload_all bucket rest (later f) (s3_put bucket file body s3)
        | None => (false, s3)
        end
  end.

(** [uploadStaticFilesToS3()]: [false] when it throws. The store fails at
    the upload of index [f]. *)
Definition uploadStaticFilesToS3 (e : ProcessEnv) (fs : Files) (f : option nat)
    (s3 : ObjectStore) : bool * ObjectStore :=
  if negb (flag (STARTUP_UPLOAD_STATIC e) "false") then (true, s3)
  else if negb (is_set (S3_BUCKET e)) || negb (is_set (S3_REGION e)) then (true, s3)
  else if negb (aws_sdk fs) then (false, s3)
  else
    match static_dir fs with
    | None => (true, s3)
    | Some entries => upload_all (env_or (S3_BUCKET e) "") entries f s3
    end.

(** *** Creating the database *)

(** A database name that [CREATE DATABASE "name"] and the [datname = $1]
    lookup take as it stands: not empty, at most 63 bytes, without double
    quote or NUL. *)
Definition plain_char (c : ascii) : bool :=
  negb (c =? "034")%char && negb (c =? "000")%char.

Fixpoint all_chars (ok : ascii -> bool) (s : string) : bool :=
  match s with
  | EmptyString => true
  | String c r => ok c && all_chars ok r
  end.

Definition plain_name (s : string) : bool :=
  negb (s =? "")%string && (String.length s <=? 63)%nat && all_chars plain_char s.

Definition has_database (name : string) (dbs : list string) : bool :=
  existsb (String.eqb name) dbs.

Section Bootstrap.
Context {BI : Builtins}.

(** What the server does of the lookup and the [CREATE DATABASE] for a name
    that is not plain (the quoting of the statement does not cover it). *)
Variable odd_name : string -> list string -> bool * list string.

(** [ensureDatabaseExists()] on the databases of the server: [false] when
    it throws. The statements are the connection to the [postgres]
    database, the lookup, the creation and the disconnection; the server
    fails at the one of index [f]. *)
Definition ensureDatabaseExists (e : ProcessEnv) (fs : Files) (f : option nat)
    (dbs : list string) : bool * list string :=
  if negb (flag (CREATE_DB_IF_MISSING e) "false") then (true, dbs)
  else
    let targetDB := env_or (DB_NAME e) "webforx_store" in
    match dbConfig e fs with
    | None => (false, dbs)
    | Some _ =>
        if fails f || negb (has_database "postgres" dbs) then (false, dbs)
        else if fails (later f) then (false, dbs)
        else if negb (plain_name targetDB) then odd_name targetDB dbs
        else if has_database targetDB dbs then
          (negb (fails (later (later f))), dbs)
        else if fails (later (later f)) then (false, dbs)
        else
          (negb (fails (later (later (later f)))), (dbs ++ [targetDB])%list)
    end.
End Bootstrap.

(** *** The start-up chain *)

(** What start-up works on: the databases of the server, the object store,
    the tables of the application's database (meaningful once it exists),
    whether those tables have been created, and whether the HTTP server
    listens. *)
Record World : Type := mkWorld {
  databases : list string;
  objects : ObjectStore;
  store : DataSource;
  tables : bool;
  listening : bool
}.

(** Where the outside fails during one start-up: the statement of
    [ensureDatabaseExists], the upload, the connection of the data source,
    the statement of the seed step, and the binding of the port. *)
Record BootFaults : Type := mkBootFaults {
  at_ensure : option nat;
  at_upload : option nat;
  at_connect : option nat;
  at_seed : option nat;
  at_listen : bool
}.

Inductive Boot : Type :=
| Listening
| Exited (code : Z).

(** The tables of a database that has just been created. *)
Definition fresh_store : DataSource := mkDataSource false [] [] [] 0 0 0.

Section Startup.
Context {PG : Postgres} {BI : Builtins}.
Variable odd_name : string -> list string -> bool * list string.

(** The chain at the end of the script:
    [ensureDatabaseExists().then(uploadStaticFilesToS3)
       .then(() => AppDataSource.initialize()).then(seed and listen)
       .catch(() => process.exit(1))],
    after [new DataSource(...)], which throws while the script loads when
    the certificate cannot be read. [configured] is the list
    [SEED_PRODUCTS_JSON] parses to, when it is set. *)
Definition startup (e : ProcessEnv) (fs : Files)
    (configured : option (list NewProduct)) (fl : BootFaults) (clock : Z)
    (w : World) : Boot * World :=
  match dataSourceOptions e fs with
  | None => (Exited 1, w)
  | Some (options, synchronize) =>
      let (ensured, dbs) :=
        ensureDatabaseExists odd_name e fs (at_ensure fl) (databases w) in
      let created :=
        negb (has_database (database options) (databases w))
        && has_database (database options) dbs in
      let st := if created then fresh_store else disconnected (store w) in
      let tb := if created then false else tables w in
      if negb ensured then (Exited 1, mkWorld dbs (objects w) st tb false)
      else
        let (uploaded, s3) :=
          uploadStaticFilesToS3 e fs (at_upload fl) (objects w) in
        if negb uploaded then (Exited 1, mkWorld dbs s3 st tb false)
        else if negb (has_database (database options) dbs) then
          (Exited 1, mkWorld dbs s3 st tb false)
        else
          let (connected, st1) := initialize (mkEnv (at_connect fl) clock) st in
          if negb connected then (Exited 1, mkWorld dbs s3 st1 tb false)
          else
            let tb1 := tb || synchronize in
            if negb tb1 then (Exited 1, mkWorld dbs s3 st1 tb1 false)
            else
              let (seeded_ok, st2) :=
                seedIfEmpty (mkEnv (at_seed fl) clock) (seed_defaults configured)
                  st1 in
              if negb seeded_ok then (Exited 1, mkWorld dbs s3 st2 tb1 false)
              else if at_listen fl then (Exited 1, mkWorld dbs s3 st2 tb1 false)
              else (Listening, mkWorld dbs s3 st2 tb1 true)
  end.
End Startup.

(** ** A sequence of submissions *)

(** [POST /checkout] served for each request in turn, each under its own
    circumstances. *)
Fixpoint serve {RT : Runtime} {PG : Postgres} (reqs : list (Env * Request))
    (db : DataSource)
  : list Outcome * DataSource :=
  match reqs with
  | [] => ([], db)
  | (env, req) :: rest =>
      let (out, db1) := post_checkout env req db in
      let (outs, db2) := serve rest db1 in
      (out :: outs, db2)
  end.

(** The order ids the responses of a sequence confirm, in order. *)
Fixpoint confirmed_ids (outs : list Outcome) : list Z :=
  match outs with
  | [] => []
  | Sent (mkResponse 200 (Page _ (OrderConfirmation id))) :: rest =>
      id :: confirmed_ids rest
  | _ :: rest => confirmed_ids rest
  end.

(** ** More of the runtime to run on *)
Module NodeBuiltins.

(** *** [JSON.stringify] *)

Definition hex_char (n : Z) : ascii :=
  if n <? 10 then Node.char_of (48 + n) else Node.char_of (87 + n).

(** The characters of a string between its quotes. *)
Fixpoint quote_chars (s : string) : string :=
  match s with
  | EmptyString => EmptyString
  | String c r =>
      let n := Node.code c in
      let rest := quote_chars r in
      if n =? 34 then String "\" (String c rest)
      else if n =? 92 then String "\" (String "\" rest)
      else if n =? 8 then String "\" (String "b" rest)
      else if n =? 12 then String "\" (String "f" rest)
      else if n =? 10 then String "\" (String "n" rest)
      else if n =? 13 then String "\" (String "r" rest)
      else if n =? 9 then String "\" (String "t" rest)
      else if n <? 32 then
        String "\" (String "u" (String "0" (String "0"
          (String (hex_char (n / 16)) (String (hex_char (n mod 16)) rest)))))
      else String c rest
  end.

Definition quote (s : string) : string :=
  String "034" (quote_chars s ++ String "034" "").

Fixpoint join (sep : string) (parts : list string) : string :=
  match parts with
  | [] => ""
  | [p] => p
  | p :: rest => p ++ sep ++ join sep rest
  end.

(** The text of a value, [None] for the [undefined] that an object member
    drops and an array element turns into [null]. *)
Fixpoint serialize (v : value) : option string :=
  match v with
  | VUndefined => None
  | VNull => Some "null"
  | VBool true => Some "true"
  | VBool false => Some "false"
  | VNum n =>
      if PrimFloat.is_nan n || PrimFloat.is_infinity n then Some "null"
      else Some (Node.number_to_string n)
  | VStr s => Some (quote s)
  | VArr l =>
      Some ("[" ++ join ","
                     (map (fun x => match serialize x with
                                    | Some t => t
                                    | None => "null"
                                    end) l) ++ "]")
  | VObj props =>
      Some ("{" ++ join ","
                     ((fix members (ps : list (string * value)) : list string :=
                         match ps with
                         | [] => []
                         | (k, x) :: rest =>
                             match serialize x with
                             | Some t => (quote k ++ ":" ++ t) :: members rest
                             | None => members rest
                             end
                         end) props) ++ "}")
  end.

(** [JSON.stringify] of a value that is not [undefined]. *)
Definition stringify (v : value) : string :=
  match serialize v with
  | Some t => t
  | None => "undefined"
  end.

(** *** [toFixed(2)] *)

(** The digits of [n] hundredths. *)
Definition hundredths (n : Z) : string :=
  let ds := Node.decimal n in
  let padded := Node.zeros (3 - String.length ds) ++ ds in
  let k := (String.length padded - 2)%nat in
  substring 0 k padded ++ "." ++ substring k 2 padded.

Definition to_fixed2 (x : float) : string :=
  match Prim2SF x with
  | S754_nan => "NaN"
  | S754_infinity neg => if neg then "-Infinity" else "Infinity"
  | S754_zero _ => "0.00"
  | S754_finite neg m e =>
      let num := if 0 <=? e then Zpos m * 2 ^ e else Zpos m in
      let den := if 0 <=? e then 1 else 2 ^ (- e) in
      if den * 10 ^ 21 <=? num then Node.number_to_string x
      else
        let n := (2 * 100 * num + den) / (2 * den) in
        (if neg then "-" else "") ++ hundredths n
  end.

(** *** [parseInt(s, 10)] *)

Definition parse_int (s : string) : float :=
  let t := Node.skip_space s in
  let '(neg, t1) :=
    match t with
    | String "-"%char r => (true, r)
    | String "+"%char r => (false, r)
    | _ => (false, t)
    end in
  let '(z, n, _) := Node.read_digits t1 0 0 in
  if n =? 0 then PrimFloat.nan
  else if neg then (- Node.float_of_Z z)%float
  else Node.float_of_Z z.

#[export] Instance builtins : Builtins := {|
  JSON_stringify := stringify;
  toFixed2 := to_fixed2;
  parseInt10 := parse_int
|}.
End NodeBuiltins.

(** ** More vocabulary *)

(** The cart entry [e] is the one of product [id]. *)
Definition has_id (id : float) (e : value) : bool :=
  strict_equals_number (GetV e "id") id.

(** The ids of the entries of a cart, in order. *)
Definition entry_ids (cart : list value) : list value :=
  map (fun e => GetV e "id") cart.

(** How many entries of the cart are of product [id]. *)
Definition entries_of (id : float) (cart : list value) : nat :=
  List.length (filter (has_id id) cart).

(** What a summary shows of the cart, its total left out. *)
Definition view_of (s : Summary) : CartView :=
  match s with
  | EmptyCartNotice => EmptyCartView
  | CartLines lines _ => CartList lines
  end.

(** At most one entry per product. *)
Definition one_entry_each (cart : list value) : Prop :=
  forall id, (entries_of id cart <= 1)%nat.

(** Ids are drawn from the sequences and never twice, every order item
    belongs to a stored order, and every stored order has an item. *)
Definition store_sound (db : DataSource) : Prop :=
  NoDup (map order_id (orders db))
  /\ NoDup (map item_id (order_items db))
  /\ Forall (fun o => order_id o <= orders_seq db) (orders db)
  /\ Forall (fun i => item_id i <= order_items_seq db) (order_items db)
  /\ Forall (fun i => In (order i) (map order_id (orders db))) (order_items db)
  /\ Forall (fun o => In (order_id o) (map order (order_items db))) (orders db).

(** Each number above the one before it, the first above [n]. *)
Fixpoint increasing_from (n : Z) (l : list Z) : Prop :=
  match l with
  | [] => True
  | x :: rest => n < x /\ increasing_from x rest
  end.

(** A product row the listing can show: a string for its name, a number
    for its price, a string for its image. *)
Definition displayable (p : Product) : bool :=
  match product_name p, price p, image p with
  | VStr _, VNum _, VStr _ => true
  | _, _, _ => false
  end.

(** A seed that meets the [nullable] constraints of the [products] table. *)
Definition seed_insertable (p : NewProduct) : bool :=
  not_null (seed_name p) && not_null (seed_price p) && not_null (seed_image p).

(** A seed that the columns of [products] take as it is: strings without
    U+0000 for its name and its image, a number for its price. *)
Definition storable_seed (p : NewProduct) : bool :=
  match seed_name p, seed_price p, seed_image p with
  | VStr n, VNum _, VStr i => negb (has_nul n) && negb (has_nul i)
  | _, _, _ => false
  end.

(** Seeds that one [INSERT] can bind: three parameters a seed. *)
Definition storable_seeds (ps : list NewProduct) : bool :=
  forallb storable_seed ps
  && (3 * Z.of_nat (List.length ps) <=? max_parameters).

(** Every single quote of [s] comes right after a backslash. *)
Fixpoint quotes_guarded_after (previous : ascii) (s : string) : bool :=
  match s with
  | EmptyString => true
  | String c r =>
      (negb (c =? "'")%char || (previous =? "\")%char)
      && quotes_guarded_after c r
  end.

Definition quotes_guarded (s : string) : bool := quotes_guarded_after " " s.

(** [s] without the backslash before each single quote. *)
Fixpoint unescape_quotes (s : string) : string :=
  match s with
  | String "\" (String "'" r) => String "'" (unescape_quotes r)
  | String c r => String c (unescape_quotes r)
  | EmptyString => EmptyString
  end.

(** *** More samples *)

Definition no_env : ProcessEnv :=
  mkProcessEnv None None None None None None None None None None None None.

(** A deployment against a managed database, the static files in a
    bucket. *)
Definition cloud_env : ProcessEnv :=
  mkProcessEnv (Some "db.internal") (Some "5433") (Some "false") None
    (Some "shop") (Some "secret") (Some "shop_db") (Some "TRUE") (Some "true")
    (Some "wfx-assets") (Some "eu-west-1") None.

(** The options [cloud_env] gives the data source. *)
Definition cloud_options : ConnectionOptions :=
  mkConnectionOptions "db.internal" 5433%float SslUnverified "shop" "secret"
    "shop_db".

Definition some_files : Files :=
  mkFiles (fun _ => None)
    (Some [("shop.svg", Some "<svg>shop</svg>");
           ("chocolate.svg", Some "<svg>chocolate</svg>")])
    true.

(** A server whose only database is the maintenance one. *)
Definition bare_world : World :=
  mkWorld ["postgres"] [] fresh_store false false.

(** A server with the default database in place, its tables not yet
    created. *)
Definition local_world : World :=
  mkWorld ["postgres"; "webforx_store"] [] fresh_store false false.

Definition no_faults : BootFaults := mkBootFaults None None None None false.

(** What a server does of a name that is not plain does not matter to the
    samples. *)
Definition refuse_odd_name (name : string) (dbs : list string) : bool * list string :=
  (false, dbs).

(** The first start-up of the cloud deployment, on a bare server. *)
Definition cloud_boot : Boot * World :=
  startup (PG := strict_server) (BI := NodeBuiltins.builtins) refuse_odd_name
      cloud_env some_files None
    no_faults 1700000000 bare_world.

(** A catalog of one product whose name has an apostrophe, and its card. *)
Definition bakers_shelf : DataSource :=
  mkDataSource true
    [mkProduct 7 (VStr "Baker's Dozen") (VNum 2.5%float) (VStr "dozen.svg")]
    [] [] 7 0 0.

Definition bakers_card : Card :=
  mkCard "/static/dozen.svg" "Baker's Dozen" "2.50" 7 "Baker\'s Dozen" "2.5".

(** The text [addToCart] stores for Alice's first chocolate. *)
Definition one_chocolate : string :=
  "[{" ++ quoted "id" ++ ":2," ++ quoted "name" ++ ":" ++ quoted "WFX Dark Chocolate"
  ++ "," ++ quoted "price" ++ ":2.5," ++ quoted "quantity" ++ ":1}]".

Definition one_chocolate_cart : list value :=
  [new_entry 2%float "WFX Dark Chocolate" 2.5%float].

(** ** The runtime at work *)

Example parse_chocolate_cart :
  Node.parse chocolate_cart = Some (VArr chocolate_items).
Proof. reflexivity. Qed.

Example parse_values :
  Node.parse (" [ 1e3 , -0, 2.50, true, null, " ++ quoted "a\u0041\n" ++ ", {}] ")
  = Some (VArr [VNum 1000%float; VNum (-0)%float; VNum 2.5%float; VBool true;
                VNull; VStr (String "a" (String "A" (String "010" ""))); VObj []]).
Proof. reflexivity. Qed.

Example parse_refuses :
  map Node.parse ["{"; "[1,]"; "01"; "1."; "nul"; ""; "[1 2]"; "+1"; "NaN"]
  = [None; None; None; None; None; None; None; None; None].
Proof. reflexivity. Qed.

Example parse_keeps_last_member :
  Node.parse ("{" ++ quoted "price" ++ ":1," ++ quoted "price" ++ ":2}")
  = Some (VObj [("price", VNum 2%float)]).
Proof. reflexivity. Qed.

Example number_to_string_samples :
  map Node.number_to_string
    [0; -0; 2.5; -7.5; 1e21; 0.0009765625; 123456789; infinity]%float
  = ["0"; "0"; "2.5"; "-7.5"; "1e+21"; "0.0009765625"; "123456789"; "Infinity"].
Proof. reflexivity. Qed.

Example string_to_number_samples :
  map Node.string_to_number [""; " 12 "; "1.5e3"; "0x1F"; ".5"; "-Infinity"]
  = [0; 12; 1500; 31; 0.5; neg_infinity]%float.
Proof. reflexivity. Qed.

(** White space around a number is skipped, U+00A0 and the other white
    space of Unicode included. *)
Example string_to_number_white_space :
  map Node.string_to_number
    [String "194" (String "160" "2.5");
     String "226" (String "128" (String "168" "7"))
       ++ String "239" (String "187" (String "191" ""));
     String "194" (String "133" "1")]
  = [2.5; 7; PrimFloat.nan]%float.
Proof. reflexivity. Qed.

(** What the columns take: the integers of 32 bits for an [int], the
    strings without U+0000 for a [varchar]. *)
Example int4_samples :
  map int4 [3; -0; 2147483647; -2147483648; 2147483648; 3000000000; 1.5;
            PrimFloat.nan; infinity]%float
  = [true; true; true; true; false; false; false; false; false].
Proof. reflexivity. Qed.

Example has_nul_samples :
  map has_nul ["Alice"; ""; String "000" ""; "a" ++ String "000" "b"]
  = [false; false; true; true].
Proof. reflexivity. Qed.

(** An array element that is [null] makes the callback of [reduce] throw,
    outside both [try] blocks. *)
Example null_item_is_unhandled :
  post_checkout (RT := Node.runtime) (PG := strict_server) calm
    (checkout_form (VStr "Alice") (VStr "1 Main St") (VStr "[null]")) empty_store
  = (Unhandled, empty_store).
Proof. reflexivity. Qed.

(** ** Sign of binary64 sums and products *)

Lemma leb_zero_SFnonneg (x : float) : (0 <=? x)%float = SFnonneg (Prim2SF x).
Proof.
  rewrite leb_spec. unfold SFleb. change (Prim2SF 0) with (S754_zero false).
  destruct (Prim2SF x) as [s|s| |s m e]; try destruct s; reflexivity.
Qed.

Lemma shr_1_nonneg mrs : 0 <= shr_m mrs -> 0 <= shr_m (shr_1 mrs).
Proof.
  destruct mrs as [m r s]; simpl.
  destruct m as [|p|p]; simpl; try lia; destruct p; simpl; lia.
Qed.

Lemma iter_shr_1_nonneg p mrs :
  0 <= shr_m mrs -> 0 <= shr_m (iter_pos shr_1 p mrs).
Proof.
  revert mrs. induction p; intros mrs H; simpl; auto using shr_1_nonneg.
Qed.

Lemma shr_fexp_nonneg m e l :
  0 <= m -> 0 <= shr_m (fst (shr_fexp prec emax m e l)).
Proof.
  intros H. unfold shr_fexp, shr.
  assert (H0 : 0 <= shr_m (shr_record_of_loc m l)).
  { destruct l as [|[]]; simpl; exact H. }
  destruct (fexp prec emax (Zdigits2 m + e) - e); simpl;
    auto using iter_shr_1_nonneg.
Qed.

Lemma round_nearest_even_nonneg m l : 0 <= m -> 0 <= round_nearest_even m l.
Proof.
  intros H. destruct l as [|[]]; simpl; try lia. destruct (Z.even m); lia.
Qed.

(** Rounding a non-negative mantissa never produces a negative number or a
    NaN. *)
Lemma binary_round_aux_nonneg m e l :
  0 <= m -> SFnonneg (binary_round_aux prec emax false m e l) = true.
Proof.
  intros H. unfold binary_round_aux.
  pose proof (shr_fexp_nonneg m e l H) as H1.
  destruct (shr_fexp prec emax m e l) as [mrs' e']. simpl in H1.
  pose proof (shr_fexp_nonneg _ e' loc_Exact
                (round_nearest_even_nonneg _ (loc_of_shr_record mrs') H1)) as H2.
  destruct (shr_fexp prec emax _ e' loc_Exact) as [mrs'' e'']. simpl in H2.
  destruct (shr_m mrs'') as [|p|p]; try reflexivity.
  - destruct (e'' <=? emax - prec); reflexivity.
  - lia.
Qed.

Lemma SFmul_nonneg x y :
  SFnonneg x = true -> SFnonneg y = true ->
  SFbounded x = true -> SFbounded y = true ->
  SFnonneg (SFmul prec emax x y) = true.
Proof.
  destruct x as [sx|sx| |sx mx ex], y as [sy|sy| |sy my ey]; simpl;
    intros Hx Hy Bx By; try discriminate; try reflexivity.
  destruct sx; [discriminate|]. destruct sy; [discriminate|].
  apply binary_round_aux_nonneg. lia.
Qed.

Lemma SFadd_nonneg x y :
  SFnonneg x = true -> SFnonneg y = true ->
  SFnonneg (SFadd prec emax x y) = true.
Proof.
  destruct x as [sx|sx| |sx mx ex], y as [sy|sy| |sy my ey]; simpl;
    intros Hx Hy; try discriminate; try reflexivity;
    try (destruct sx; [discriminate|]); try (destruct sy; [discriminate|]);
    try reflexivity.
  - destruct sx, sy; reflexivity.
  - unfold binary_normalize. simpl cond_Zopp. simpl Z.add.
    unfold binary_round.
    destruct (shl_align _ _ _) as [mz ez].
    apply binary_round_aux_nonneg. lia.
Qed.

Lemma mul_nonneg (x y : float) :
  finite_nonneg x = true -> finite_nonneg y = true -> (0 <=? x * y)%float = true.
Proof.
  unfold finite_nonneg.
  rewrite !leb_zero_SFnonneg, !ltb_spec, mul_spec.
  change (Prim2SF infinity) with (S754_infinity false).
  intros [Hx Bx]%andb_prop [Hy By]%andb_prop.
  apply SFmul_nonneg; auto.
  - destruct (Prim2SF x) as [s|s| |s m e]; try reflexivity; try discriminate.
    destruct s; discriminate.
  - destruct (Prim2SF y) as [s|s| |s m e]; try reflexivity; try discriminate.
    destruct s; discriminate.
Qed.

Lemma add_nonneg (x y : float) :
  (0 <=? x)%float = true -> (0 <=? y)%float = true -> (0 <=? x + y)%float = true.
Proof.
  rewrite !leb_zero_SFnonneg, add_spec. apply SFadd_nonneg.
Qed.

Lemma fold_sum_nonneg (lines : list (float * float)) (a : float) :
  (0 <=? a)%float = true ->
  forallb nonneg_line lines = true ->
  (0 <=? fold_left (fun sum l => (sum + fst l * snd l)%float) lines a)%float = true.
Proof.
  revert a. induction lines as [|l lines IH]; intros a Ha Hl; simpl in *.
  - exact Ha.
  - apply andb_prop in Hl as [Hl Hrest]. apply andb_prop in Hl as [Hp Hq].
    apply IH; [|exact Hrest]. apply add_nonneg; [exact Ha|].
    apply mul_nonneg; assumption.
Qed.

Lemma float_sum_nonneg (lines : list (float * float)) :
  forallb nonneg_line lines = true -> (0 <=? float_sum lines)%float = true.
Proof.
  apply fold_sum_nonneg. reflexivity.
Qed.

(** ** The transactions of [save] *)

(** Closes a case in which the transaction has settled: the pair it
    returned is taken apart and what is left follows from the context. *)
Ltac settle :=
  let H := fresh "H" in
  intros H; injection H; clear H; intros; subst; cbn; auto; try lia.

Lemma rollback_same (db : DataSource) : rollback db db = db.
Proof. destruct db; reflexivity. Qed.

Section Transactions.
Context {PG : Postgres}.

(** The rows of the [INSERT] into [order_items], once it is bound. *)
Lemma insert_item_rows_ok (oid : Z) (items : list NewOrderItem) :
  forall db u db2,
    insert_rows (insert_order_item oid) items db = (Some u, db2) ->
    db2 = mkDataSource (isInitialized db) (products db) (orders db)
            (order_items db ++ item_rows (order_items_seq db) oid items)
            (products_seq db) (orders_seq db)
            (order_items_seq db + Z.of_nat (List.length items)).
Proof.
  induction items as [|i rest IH]; intros db u db2 H.
  - cbn in H. injection H as _ <-. destruct db; cbn.
    rewrite app_nil_r, Z.add_0_r. reflexivity.
  - cbn [insert_rows] in H. unfold insert_order_item in H.
    destruct (not_null (new_productName i) && not_null (new_productPrice i)
              && not_null (or_default (VNum 1%float) (new_quantity i)));
      [|discriminate].
    apply IH in H. subst db2. cbn [isInitialized products orders order_items
      products_seq orders_seq order_items_seq item_rows List.length].
    rewrite <- app_assoc. cbn [app]. f_equal. lia.
Qed.

Lemma insert_item_rows_run (oid : Z) (items : list NewOrderItem) :
  forall db,
    forallb item_insertable items = true ->
    insert_rows (insert_order_item oid) items db
    = (Some tt,
       mkDataSource (isInitialized db) (products db) (orders db)
         (order_items db ++ item_rows (order_items_seq db) oid items)
         (products_seq db) (orders_seq db)
         (order_items_seq db + Z.of_nat (List.length items))).
Proof.
  induction items as [|i rest IH]; intros db H.
  - cbn. destruct db; cbn. rewrite app_nil_r, Z.add_0_r. reflexivity.
  - cbn [forallb] in H. apply andb_prop in H as [Hi Hrest].
    cbn [insert_rows]. unfold insert_order_item.
    unfold item_insertable in Hi. rewrite Hi.
    rewrite (IH _ Hrest). cbn [isInitialized products orders order_items
      products_seq orders_seq order_items_seq item_rows List.length].
    rewrite <- app_assoc. cbn [app]. do 2 f_equal. lia.
Qed.

(** Whatever becomes of the rows, they touch the order items and their
    sequence only, and the sequence does not go back. *)
Lemma insert_item_rows_frame (oid : Z) (items : list NewOrderItem) :
  forall db r db2,
    insert_rows (insert_order_item oid) items db = (r, db2) ->
    isInitialized db2 = isInitialized db
    /\ products db2 = products db
    /\ products_seq db2 = products_seq db
    /\ orders db2 = orders db
    /\ orders_seq db2 = orders_seq db
    /\ order_items_seq db <= order_items_seq db2.
Proof.
  induction items as [|i rest IH]; intros db r db2 H.
  - cbn in H. injection H as _ <-. repeat split; lia.
  - cbn [insert_rows] in H. unfold insert_order_item in H.
    destruct (not_null (new_productName i) && not_null (new_productPrice i)
              && not_null (or_default (VNum 1%float) (new_quantity i))).
    + apply IH in H. cbn in H. destruct H as (? & ? & ? & ? & ? & ?).
      repeat split; try assumption; lia.
    + injection H as _ <-. cbn. repeat split; lia.
Qed.

Lemma insert_order_items_ok (oid : Z) (items : list NewOrderItem) :
  forall f db u f' db2,
    insert_order_items oid items f db = (Some u, f', db2) ->
    db2 = mkDataSource (isInitialized db) (products db) (orders db)
            (order_items db ++ item_rows (order_items_seq db) oid items)
            (products_seq db) (orders_seq db)
            (order_items_seq db + Z.of_nat (List.length items)).
Proof.
  intros f db u f' db2. destruct items as [|i rest].
  - cbn. intros H. injection H as _ _ <-. destruct db; cbn.
    rewrite app_nil_r, Z.add_0_r. reflexivity.
  - unfold insert_order_items, statement. destruct (fails f); [discriminate|].
    destruct ((parameters item_parameters (i :: rest) <=? max_parameters)
              && forallb item_binds (i :: rest)); [|discriminate].
    destruct (insert_rows (insert_order_item oid) (i :: rest) db)
      as [[u'|] db3] eqn:Hrows; [|discriminate].
    intros H. injection H as _ _ <-.
    exact (insert_item_rows_ok _ _ _ _ _ Hrows).
Qed.

Lemma insert_order_items_run (oid : Z) (items : list NewOrderItem) :
  forall db,
    forallb item_insertable items = true ->
    forallb item_binds items = true ->
    parameters item_parameters items <= max_parameters ->
    insert_order_items oid items None db
    = (Some tt, None,
       mkDataSource (isInitialized db) (products db) (orders db)
         (order_items db ++ item_rows (order_items_seq db) oid items)
         (products_seq db) (orders_seq db)
         (order_items_seq db + Z.of_nat (List.length items))).
Proof.
  intros db Hrows Hbinds Hcount. destruct items as [|i rest].
  - cbn. destruct db; cbn. rewrite app_nil_r, Z.add_0_r. reflexivity.
  - unfold insert_order_items, statement. cbn [fails later].
    apply Z.leb_le in Hcount. rewrite Hcount, Hbinds. cbn [andb].
    rewrite (insert_item_rows_run _ _ _ Hrows). reflexivity.
Qed.

(** The statement of the items touches the order items and their sequence
    only. *)
Lemma insert_order_items_frame (oid : Z) (items : list NewOrderItem) :
  forall f db r f' db2,
    insert_order_items oid items f db = (r, f', db2) ->
    isInitialized db2 = isInitialized db
    /\ products db2 = products db
    /\ products_seq db2 = products_seq db
    /\ orders db2 = orders db
    /\ orders_seq db2 = orders_seq db
    /\ order_items_seq db <= order_items_seq db2.
Proof.
  intros f db r f' db2. destruct items as [|i rest].
  - cbn. intros H. injection H as _ _ <-. repeat split; lia.
  - unfold insert_order_items, statement. destruct (fails f).
    { intros H. injection H as _ _ <-. repeat split; lia. }
    destruct ((parameters item_parameters (i :: rest) <=? max_parameters)
              && forallb item_binds (i :: rest)).
    2:{ intros H. injection H as _ _ <-. repeat split; lia. }
    destruct (insert_rows (insert_order_item oid) (i :: rest) db)
      as [r' db3] eqn:Hrows.
    intros H. injection H as _ _ <-.
    exact (insert_item_rows_frame _ _ _ _ _ Hrows).
Qed.

(** The rows of the [INSERT] into [products]. *)
Lemma insert_product_rows_ok (ps : list NewProduct) :
  forall db u db2,
    insert_rows insert_product ps db = (Some u, db2) ->
    db2 = seeded ps db.
Proof.
  induction ps as [|p rest IH]; intros db u db2 H.
  - cbn in H. injection H as _ <-. destruct db; unfold seeded; cbn.
    rewrite app_nil_r, Z.add_0_r. reflexivity.
  - cbn [insert_rows] in H. unfold insert_product in H.
    destruct (not_null (seed_name p) && not_null (seed_price p)
              && not_null (seed_image p)); [|discriminate].
    apply IH in H. subst db2. unfold seeded.
    cbn [isInitialized products orders order_items
      products_seq orders_seq order_items_seq product_rows List.length].
    rewrite <- app_assoc. cbn [app]. f_equal. lia.
Qed.

Lemma insert_products_ok (ps : list NewProduct) :
  forall f db u f' db2,
    insert_products ps f db = (Some u, f', db2) ->
    db2 = seeded ps db.
Proof.
  intros f db u f' db2. destruct ps as [|p rest].
  - cbn. intros H. injection H as _ _ <-. destruct db; unfold seeded; cbn.
    rewrite app_nil_r, Z.add_0_r. reflexivity.
  - unfold insert_products, statement. destruct (fails f); [discriminate|].
    destruct ((parameters product_parameters (p :: rest) <=? max_parameters)
              && forallb product_binds (p :: rest)); [|discriminate].
    destruct (insert_rows insert_product (p :: rest) db)
      as [[u'|] db3] eqn:Hrows; [|discriminate].
    intros H. injection H as _ _ <-.
    exact (insert_product_rows_ok _ _ _ _ Hrows).
Qed.

(** What [save(order)] leaves behind: the whole aggregate under the next
    order id, or the rows as they were. *)
Lemma save_order_inv (env : Env) (o : NewOrder) (db : DataSource) :
  forall r db1,
    save_order env o db = (r, db1) ->
    match r with
    | Some id => id = orders_seq db + 1 /\ db1 = committed env o db
    | None =>
        isInitialized db1 = isInitialized db /\ products db1 = products db
        /\ orders db1 = orders db /\ order_items db1 = order_items db
    end.
Proof.
  intros r db1. unfold save_order, transaction.
  destruct (isInitialized db) eqn:Hinit; cbn [negb].
  2:{ settle. }
  unfold tx_bind at 1. unfold statement at 1.
  destruct (fails (fault env)).
  { settle. }
  unfold insert_order.
  destruct (binds Varchar (new_name o) && binds Varchar (new_address o));
    cbn [negb].
  2:{ settle. }
  destruct (not_null (new_name o) && not_null (new_address o)).
  2:{ settle. }
  unfold tx_bind.
  match goal with
  | |- context [insert_order_items ?oid ?items ?f ?d] =>
      destruct (insert_order_items oid items f d) as [[[u|] f'] db2] eqn:Hitems
  end.
  2:{ settle. }
  unfold tx_ret. destruct (fails f').
  { settle. }
  intros H. injection H as <- <-. split; [reflexivity|].
  apply insert_order_items_ok in Hitems. subst db2. unfold committed.
  cbn [isInitialized products orders order_items products_seq orders_seq
       order_items_seq]. rewrite Hinit. reflexivity.
Qed.

Lemma save_order_run (env : Env) (o : NewOrder) (db : DataSource) :
  isInitialized db = true ->
  fault env = None ->
  not_null (new_name o) = true ->
  not_null (new_address o) = true ->
  binds Varchar (new_name o) = true ->
  binds Varchar (new_address o) = true ->
  forallb item_insertable (new_orderItems o) = true ->
  forallb item_binds (new_orderItems o) = true ->
  parameters item_parameters (new_orderItems o) <= max_parameters ->
  save_order env o db = (Some (orders_seq db + 1), committed env o db).
Proof.
  intros Hinit Hfault Hname Haddr Hbn Hba Hitems Hbinds Hcount.
  unfold save_order, transaction. rewrite Hinit, Hfault. cbn [negb].
  unfold tx_bind at 1. unfold statement at 1. cbn [fails later].
  unfold insert_order. rewrite Hbn, Hba, Hname, Haddr. cbn [andb negb].
  unfold tx_bind. rewrite (insert_order_items_run _ _ _ Hitems Hbinds Hcount).
  unfold tx_ret. cbn [fails]. unfold committed.
  cbn [isInitialized products orders order_items products_seq orders_seq
       order_items_seq]. rewrite Hinit. reflexivity.
Qed.

(** [save(order)] fails when one of its two statements does not bind. *)
Lemma save_order_unbound (env : Env) (o : NewOrder) (db : DataSource) :
  new_orderItems o <> [] ->
  binds Varchar (new_name o) && binds Varchar (new_address o)
  && (parameters item_parameters (new_orderItems o) <=? max_parameters)
  && forallb item_binds (new_orderItems o) = false ->
  fst (save_order env o db) = None.
Proof.
  intros Hne Hbinds. unfold save_order, transaction.
  destruct (isInitialized db); cbn [negb]; [|reflexivity].
  unfold tx_bind at 1. unfold statement at 1.
  destruct (fails (fault env)); [reflexivity|].
  unfold insert_order.
  destruct (binds Varchar (new_name o) && binds Varchar (new_address o));
    cbn [negb andb] in *; [|reflexivity].
  destruct (not_null (new_name o) && not_null (new_address o)); [|reflexivity].
  unfold tx_bind.
  destruct (new_orderItems o) as [|i rest]; [contradiction|].
  unfold insert_order_items, statement.
  destruct (fails (later (fault env))); [reflexivity|].
  rewrite Hbinds. reflexivity.
Qed.

(** [save(order)] never touches the catalog or the connection, and never
    gives back an id. *)
Lemma save_order_frame (env : Env) (o : NewOrder) (db : DataSource) :
  forall r db1,
    save_order env o db = (r, db1) ->
    isInitialized db1 = isInitialized db
    /\ products db1 = products db
    /\ products_seq db1 = products_seq db
    /\ orders_seq db <= orders_seq db1
    /\ order_items_seq db <= order_items_seq db1.
Proof.
  intros r db1. unfold save_order, transaction.
  destruct (isInitialized db) eqn:Hinit; cbn [negb].
  2:{ intros H. injection H as _ <-. repeat split; first [congruence | lia]. }
  unfold tx_bind at 1. unfold statement at 1.
  destruct (fails (fault env)).
  { intros H. injection H as _ <-. cbn. repeat split; first [congruence | lia]. }
  unfold insert_order.
  destruct (binds Varchar (new_name o) && binds Varchar (new_address o));
    cbn [negb].
  2:{ intros H. injection H as _ <-. cbn. repeat split; first [congruence | lia]. }
  destruct (not_null (new_name o) && not_null (new_address o)).
  2:{ intros H. injection H as _ <-. cbn. repeat split; first [congruence | lia]. }
  unfold tx_bind.
  match goal with
  | |- context [insert_order_items ?oid ?items ?f ?d] =>
      destruct (insert_order_items oid items f d) as [[[u|] f'] db2] eqn:Hitems
  end; apply insert_order_items_frame in Hitems; cbn in Hitems;
    destruct Hitems as (Hi & Hp & Hps & _ & Hos & His).
  - unfold tx_ret. destruct (fails f'); intros H; injection H as _ <-; cbn;
      repeat split; first [congruence | lia].
  - intros H. injection H as _ <-. cbn. repeat split; first [congruence | lia].
Qed.

Lemma save_products_inv (f : option nat) (ps : list NewProduct) (db : DataSource) :
  forall r db1,
    save_products f ps db = (r, db1) ->
    match r with
    | Some _ => db1 = seeded ps db
    | None =>
        isInitialized db1 = isInitialized db /\ products db1 = products db
        /\ orders db1 = orders db /\ order_items db1 = order_items db
    end.
Proof.
  intros r db1. unfold save_products, transaction.
  destruct (isInitialized db) eqn:Hinit; cbn [negb].
  2:{ settle. }
  destruct (insert_products ps f db) as [[[u|] f'] db2] eqn:Hps.
  2:{ settle. }
  destruct (fails f').
  { settle. }
  intros H. injection H as <- <-. eapply insert_products_ok, Hps.
Qed.
End Transactions.

(** ** The cart computations of the handler *)

Lemma line_of_inv (item : value) (p q : float) :
  line_of item = Some (p, q) ->
  exists props,
    item = VObj props
    /\ own_property props "price" = VNum p
    /\ own_property props "quantity" = VNum q.
Proof.
  destruct item as [| | | | |l|props]; cbn; try discriminate.
  destruct (own_property props "price") as [| | |p'| | |] eqn:Hp;
    try discriminate.
  destruct (own_property props "quantity") as [| | |q'| | |] eqn:Hq;
    try discriminate.
  intros H. injection H as <- <-. exists props. repeat split; assumption.
Qed.

Lemma well_formed_item_inv (item : value) :
  well_formed_item item = true ->
  exists props n p q,
    item = VObj props
    /\ own_property props "name" = VStr n
    /\ own_property props "price" = VNum p
    /\ own_property props "quantity" = VNum q.
Proof.
  unfold well_formed_item.
  destruct (line_of item) as [[p q]|] eqn:Hline; [|discriminate].
  apply line_of_inv in Hline as (props & -> & Hp & Hq). cbn.
  destruct (own_property props "name") as [| | | |n| |] eqn:Hn; try discriminate.
  intros _. exists props, n, p, q. auto.
Qed.

Section CartFacts.
Context {RT : Runtime} {PG : Postgres}.

Lemma add_line_of (sum : float) (item : value) (p q : float) :
  line_of item = Some (p, q) ->
  add_line sum item = Some (sum + p * q)%float.
Proof.
  intros (props & -> & Hp & Hq)%line_of_inv.
  unfold add_line. cbn. rewrite Hp, Hq. reflexivity.
Qed.

Lemma reduce_lines (cartItems : list value) :
  forall lines sum,
    lines_of cartItems = Some lines ->
    reduce add_line cartItems sum
    = Some (fold_left (fun s l => (s + fst l * snd l)%float) lines sum).
Proof.
  unfold lines_of.
  induction cartItems as [|item rest IH]; intros lines sum H; cbn in H.
  - injection H as <-. reflexivity.
  - destruct (line_of item) as [[p q]|] eqn:Hitem; [|discriminate].
    destruct (map_throwing line_of rest) as [ls|] eqn:Hrest; [|discriminate].
    injection H as <-. cbn [reduce].
    rewrite (add_line_of _ _ _ _ Hitem). cbn [fold_left fst snd].
    apply IH. reflexivity.
Qed.

Lemma cart_total_lines (cartItems : list value) (lines : list (float * float)) :
  lines_of cartItems = Some lines ->
  cart_total cartItems = Some (float_sum lines).
Proof. apply reduce_lines. Qed.

Lemma add_line_snapshot (sum t : float) (item : value) :
  add_line sum item = Some t -> snapshot item = Some (snapshot_of item).
Proof.
  unfold add_line, snapshot, snapshot_of.
  destruct item; cbn; try discriminate; reflexivity.
Qed.

(** Once the total has been computed, copying the items cannot throw. *)
Lemma reduce_snapshot (cartItems : list value) :
  forall sum t,
    reduce add_line cartItems sum = Some t ->
    map_throwing snapshot cartItems = Some (map snapshot_of cartItems).
Proof.
  induction cartItems as [|item rest IH]; intros sum t H; cbn in *.
  - reflexivity.
  - destruct (add_line sum item) as [sum'|] eqn:Hitem; [|discriminate].
    rewrite (add_line_snapshot _ _ _ Hitem), (IH _ _ H). reflexivity.
Qed.

Lemma well_formed_lines (cartItems : list value) :
  well_formed_cart cartItems = true ->
  exists lines, lines_of cartItems = Some lines.
Proof.
  unfold well_formed_cart, lines_of.
  induction cartItems as [|item rest IH]; cbn; intros H.
  - eexists; reflexivity.
  - apply andb_prop in H as [Hitem Hrest].
    unfold well_formed_item in Hitem.
    destruct (line_of item) as [l|]; [|discriminate].
    destruct (IH Hrest) as [ls ->]. eexists; reflexivity.
Qed.

Lemma well_formed_insertable (cartItems : list value) :
  well_formed_cart cartItems = true ->
  forallb item_insertable (map snapshot_of cartItems) = true.
Proof.
  unfold well_formed_cart.
  induction cartItems as [|item rest IH]; cbn; intros H; [reflexivity|].
  apply andb_prop in H as [Hitem Hrest]. rewrite (IH Hrest), andb_true_r.
  apply well_formed_item_inv in Hitem as (props & n & p & q & -> & Hn & Hp & Hq).
  unfold item_insertable, snapshot_of. cbn. rewrite Hn, Hp, Hq. reflexivity.
Qed.

Lemma storable_item_inv (item : value) :
  storable_item item = true ->
  exists props n p q,
    item = VObj props
    /\ own_property props "name" = VStr n /\ has_nul n = false
    /\ own_property props "price" = VNum p
    /\ own_property props "quantity" = VNum q /\ int4 q = true.
Proof.
  unfold storable_item.
  destruct item as [| | | | |l|props]; cbn; try discriminate.
  destruct (own_property props "name") as [| | | |n| |] eqn:Hname;
    try discriminate.
  destruct (own_property props "price") as [| | |p| | |] eqn:Hprice;
    try discriminate.
  destruct (own_property props "quantity") as [| | |q| | |] eqn:Hquantity;
    try discriminate.
  intros [Hn Hq]%andb_prop. apply negb_true_iff in Hn.
  exists props, n, p, q. repeat split; assumption || reflexivity.
Qed.

(** The items of a storable cart are well formed, and the statement that
    inserts their copies binds: four parameters an item, each of the type
    of its column. *)
Lemma storable_items_bind (cartItems : list value) :
  forallb storable_item cartItems = true ->
  well_formed_cart cartItems = true
  /\ forallb item_binds (map snapshot_of cartItems) = true
  /\ parameters item_parameters (map snapshot_of cartItems)
     = 4 * Z.of_nat (List.length cartItems).
Proof.
  unfold well_formed_cart.
  induction cartItems as [|item rest IH]; intros H.
  - repeat split.
  - cbn [forallb] in H. apply andb_prop in H as [Hitem Hrest].
    destruct (IH Hrest) as (Hwf & Hbinds & Hcount).
    apply storable_item_inv in Hitem
      as (props & n & p & q & -> & Hn & Hnul & Hp & Hq & Hint).
    cbn [map forallb parameters fold_right List.length].
    fold (parameters item_parameters (map snapshot_of rest)).
    rewrite Hwf, Hbinds, Hcount.
    unfold well_formed_item, line_of, item_binds, item_parameters, snapshot_of.
    cbn [GetV new_productName new_productPrice new_quantity].
    rewrite Hn, Hp, Hq. cbn [binds parameter]. rewrite Hnul, Hint.
    repeat split. lia.
Qed.

(** For a well-formed cart, the statement that inserts the copies of its
    items binds exactly when the cart is storable. *)
Lemma well_formed_binds (cartItems : list value) :
  well_formed_cart cartItems = true ->
  (parameters item_parameters (map snapshot_of cartItems) <=? max_parameters)
  && forallb item_binds (map snapshot_of cartItems)
  = storable_cart cartItems.
Proof.
  intros Hwf. unfold storable_cart.
  assert (H : forallb item_binds (map snapshot_of cartItems)
              = forallb storable_item cartItems
              /\ parameters item_parameters (map snapshot_of cartItems)
                 = 4 * Z.of_nat (List.length cartItems)).
  { unfold well_formed_cart in Hwf.
    induction cartItems as [|item rest IH]; [split; reflexivity|].
    cbn [forallb] in Hwf. apply andb_prop in Hwf as [Hitem Hrest].
    destruct (IH Hrest) as [Hbinds Hcount].
    apply well_formed_item_inv in Hitem
      as (props & n & p & q & -> & Hn & Hp & Hq).
    cbn [map forallb parameters fold_right List.length].
    fold (parameters item_parameters (map snapshot_of rest)).
    unfold storable_item at 1. rewrite Hbinds, Hcount.
    unfold item_binds, item_parameters, snapshot_of.
    cbn [GetV new_productName new_productPrice new_quantity].
    rewrite Hn, Hp, Hq. cbn [binds parameter].
    rewrite andb_true_r. split; [reflexivity|lia]. }
  destruct H as [-> ->]. apply andb_comm.
Qed.

(** An empty array stops at the second check. *)
Lemma post_checkout_empty (env : Env) (req : Request) (db : DataSource) :
  parse_cart req = Some (VArr []) ->
  post_checkout env req db = (Sent (status_send 400 (Text "Cart is empty")), db).
Proof.
  intros H. unfold post_checkout. rewrite H. reflexivity.
Qed.

(** A request whose cart passes the checks and whose total is computed
    reaches [save] with the order built from it. *)
Lemma post_checkout_valid (env : Env) (req : Request) (db : DataSource)
    (cartItems : list value) (t : float) :
  parse_cart req = Some (VArr cartItems) ->
  cartItems <> [] ->
  cart_total cartItems = Some t ->
  post_checkout env req db
  = confirm (save_order env
               (mkNewOrder (buyer_name req) (buyer_address req) t
                  (map snapshot_of cartItems)) db).
Proof.
  intros Hparse Hne Htotal. unfold post_checkout. rewrite Hparse.
  cbn [isArray negb elements orb].
  destruct cartItems as [|item rest]; [contradiction|].
  cbn [List.length]. rewrite Htotal.
  unfold place_order. unfold cart_total in Htotal.
  rewrite (reduce_snapshot _ _ _ Htotal). reflexivity.
Qed.
End CartFacts.

(** ** Readiness *)

(** C8: [GET /readyz] answers 200 "ready" exactly when the data source is
    initialized and 503 "not ready" exactly when it is not; it always
    answers one of the two, so that the probe is not ready before
    [initialize] has succeeded and ready after. *)
Theorem readyz_reflects_initialization (db : DataSource) :
  (isInitialized db = true <-> get_readyz db = mkResponse 200 (Text "ready"))
  /\ (isInitialized db = false <-> get_readyz db = mkResponse 503 (Text "not ready"))
  /\ get_readyz (disconnected db) = mkResponse 503 (Text "not ready")
  /\ (forall env, fst (initialize env (disconnected db)) = true ->
        get_readyz (snd (initialize env (disconnected db)))
        = mkResponse 200 (Text "ready")).
Proof.
  unfold get_readyz, send, status_send.
  repeat split.
  - intros ->. reflexivity.
  - destruct (isInitialized db); [reflexivity|discriminate].
  - intros ->. reflexivity.
  - destruct (isInitialized db); [discriminate|reflexivity].
  - intros env. unfold initialize. destruct (fails (fault env)); cbn.
    + discriminate.
    + reflexivity.
Qed.

(** ** Rejected submissions *)

(** C4: a submission whose cart parses to the empty sequence is answered
    400 "Cart is empty" and the store is left exactly as it was. *)
Theorem checkout_empty_cart_rejected {RT : Runtime} {PG : Postgres}
    (env : Env) (req : Request) (db : DataSource) :
  parse_cart req = Some (VArr []) ->
  post_checkout env req db = (Sent (status_send 400 (Text "Cart is empty")), db)
  /\ products (snd (post_checkout env req db)) = products db
  /\ orders (snd (post_checkout env req db)) = orders db
  /\ order_items (snd (post_checkout env req db)) = order_items db.
Proof.
  intros H. rewrite (post_checkout_empty env req db H). repeat split.
Qed.

Lemma checkout_empty_cart_rejected_example :
  post_checkout (RT := Node.runtime) (PG := strict_server) calm
    (checkout_form (VStr "Alice") (VStr "1 Main St") (VStr "[]")) empty_store
  = (Sent (mkResponse 400 (Text "Cart is empty")), empty_store).
Proof.
  apply (checkout_empty_cart_rejected (RT := Node.runtime) (PG := strict_server)
      calm
           (checkout_form (VStr "Alice") (VStr "1 Main St") (VStr "[]"))
           empty_store eq_refl).
Defined.

(** C9: when the [cartData] field is absent or undefined the handler parses
    ['[]'] instead: the answer is 400 "Cart is empty", not the invalid-input
    one, and the store is left exactly as it was. *)
Theorem checkout_absent_cart_is_empty {RT : Runtime} {PG : Postgres}
    (env : Env) (req : Request) (db : DataSource) :
  cartData req = VUndefined ->
  post_checkout env req db = (Sent (status_send 400 (Text "Cart is empty")), db)
  /\ fst (post_checkout env req db)
     <> Sent (status_send 400 (Text "Invalid cart data")).
Proof.
  intros H.
  assert (Hparse : parse_cart req = Some (VArr [])).
  { unfold parse_cart. rewrite H. cbn. apply JSON_parse_empty_array. }
  rewrite (post_checkout_empty env req db Hparse).
  split; [reflexivity|discriminate].
Qed.

Lemma checkout_absent_cart_is_empty_example :
  post_checkout (RT := Node.runtime) (PG := strict_server) calm bare_form
      empty_store
  = (Sent (mkResponse 400 (Text "Cart is empty")), empty_store)
  /\ post_checkout (RT := Node.runtime) (PG := strict_server) calm
       (mkRequest VUndefined) empty_store
     = (Sent (mkResponse 400 (Text "Cart is empty")), empty_store).
Proof.
  split.
  - apply (checkout_absent_cart_is_empty (RT := Node.runtime)
             (PG := strict_server)).
    reflexivity.
  - apply (checkout_absent_cart_is_empty (RT := Node.runtime)
             (PG := strict_server)).
    reflexivity.
Defined.

(** C3, as the code has it: a [cartData] that [JSON.parse] refuses is
    answered 400 "Invalid cart data"; one that parses to a value that is not
    an array is answered 400 "Cart is empty"; either way the store is left
    exactly as it was. A [cartData] that parses to a non-empty array is
    never answered 400, whatever its elements are. *)
Theorem checkout_malformed_rejected {RT : Runtime} {PG : Postgres}
    (env : Env) (req : Request) (db : DataSource) :
  (parse_cart req = None ->
   post_checkout env req db
   = (Sent (status_send 400 (Text "Invalid cart data")), db))
  /\ (forall v, parse_cart req = Some v -> isArray v = false ->
      post_checkout env req db
      = (Sent (status_send 400 (Text "Cart is empty")), db))
  /\ (forall cartItems r,
      parse_cart req = Some (VArr cartItems) -> cartItems <> [] ->
      fst (post_checkout env req db) = Sent r -> status r <> 400).
Proof.
  unfold post_checkout. split; [|split].
  - intros ->. reflexivity.
  - intros v -> Hv. rewrite Hv. reflexivity.
  - intros cartItems r -> Hne.
    destruct cartItems as [|item rest]; [contradiction|].
    cbn [isArray negb orb elements List.length Z.of_nat Z.eqb].
    destruct (cart_total (item :: rest)) as [t|]; [|discriminate].
    unfold place_order.
    destruct (map_throwing snapshot (item :: rest)) as [ois|].
    + destruct (save_order env _ db) as [[id|] db1]; cbn;
        intros H; injection H as <-; discriminate.
    + cbn. intros H; injection H as <-; discriminate.
Qed.

Lemma checkout_malformed_rejected_example :
  post_checkout (RT := Node.runtime) (PG := strict_server) calm
    (checkout_form (VStr "Alice") (VStr "1 Main St") (VStr "[{")) empty_store
  = (Sent (mkResponse 400 (Text "Invalid cart data")), empty_store)
  /\ post_checkout (RT := Node.runtime) (PG := strict_server) calm
       (checkout_form (VStr "Alice") (VStr "1 Main St") (VStr "42")) empty_store
     = (Sent (mkResponse 400 (Text "Cart is empty")), empty_store).
Proof.
  split.
  - apply (proj1 (checkout_malformed_rejected (RT := Node.runtime)
                    (PG := strict_server) _ _ _)).
    reflexivity.
  - apply (proj1 (proj2 (checkout_malformed_rejected (RT := Node.runtime)
                           (PG := strict_server) _ _ _))
             (VNum 42%float)); reflexivity.
Defined.

(** C3, as the claim states it, fails on the JSON text [{}]: it is valid
    JSON and not a sequence, and the answer is 400 "Cart is empty", not
    400 "Invalid cart data". *)
Lemma checkout_object_cart_says_empty :
  JSON_parse (Runtime := Node.runtime) "{}" = Some (VObj [])
  /\ fst (post_checkout (RT := Node.runtime) (PG := strict_server) calm
            (checkout_form (VStr "Alice") (VStr "1 Main St") (VStr "{}"))
            empty_store)
     = Sent (mkResponse 400 (Text "Cart is empty"))
  /\ fst (post_checkout (RT := Node.runtime) (PG := strict_server) calm
            (checkout_form (VStr "Alice") (VStr "1 Main St") (VStr "{}"))
            empty_store)
     <> Sent (mkResponse 400 (Text "Invalid cart data")).
Proof.
  repeat split; try reflexivity. discriminate.
Qed.

(** ** Accepted submissions *)



Section Accepted.
Context {RT : Runtime} {PG : Postgres}.

(** The whole effect of a submission that meets every constraint while
    the store does not fail. *)
Lemma post_checkout_accepted (env : Env) (req : Request) (db : DataSource)
    (cartItems : list value) (lines : list (float * float)) (name address : string) :
  parse_cart req = Some (VArr cartItems) ->
  cartItems <> [] ->
  lines_of cartItems = Some lines ->
  storable_cart cartItems = true ->
  buyer_name req = VStr name ->
  buyer_address req = VStr address ->
  has_nul name = false ->
  has_nul address = false ->
  isInitialized db = true ->
  fault env = None ->
  post_checkout env req db
  = (Sent (confirmation (orders_seq db + 1)),
     committed env
       (mkNewOrder (VStr name) (VStr address) (float_sum lines)
          (map snapshot_of cartItems)) db).
Proof.
  intros Hparse Hne Hlines Hstorable Hname Haddr Hn Ha Hinit Hfault.
  apply andb_prop in Hstorable as [Hitems Hcount]. apply Z.leb_le in Hcount.
  destruct (storable_items_bind cartItems Hitems) as (Hwf & Hbinds & Hparams).
  rewrite (post_checkout_valid env req db cartItems (float_sum lines)
             Hparse Hne (cart_total_lines _ _ Hlines)).
  rewrite Hname, Haddr.
  rewrite save_order_run; cbn [new_name new_address new_orderItems binds];
    try assumption; try reflexivity.
  - rewrite Hn. reflexivity.
  - rewrite Ha. reflexivity.
  - apply well_formed_insertable, Hwf.
  - rewrite Hparams. exact Hcount.
Qed.

(** A well-formed cart that one of the two statements of [save] does not
    bind is answered 500, and leaves the rows as they were. *)
Lemma post_checkout_refused (env : Env) (req : Request) (db : DataSource)
    (cartItems : list value) (lines : list (float * float)) (name address : string) :
  parse_cart req = Some (VArr cartItems) ->
  cartItems <> [] ->
  lines_of cartItems = Some lines ->
  well_formed_cart cartItems = true ->
  buyer_name req = VStr name ->
  buyer_address req = VStr address ->
  storable_cart cartItems && negb (has_nul name) && negb (has_nul address)
  = false ->
  fst (post_checkout env req db)
  = Sent (status_send 500 (Text "Error processing order"))
  /\ orders (snd (post_checkout env req db)) = orders db
  /\ order_items (snd (post_checkout env req db)) = order_items db.
Proof.
  intros Hparse Hne Hlines Hwf Hname Haddr Hno.
  rewrite (post_checkout_valid env req db cartItems (float_sum lines)
             Hparse Hne (cart_total_lines _ _ Hlines)).
  rewrite Hname, Haddr.
  set (o := mkNewOrder (VStr name) (VStr address) (float_sum lines)
              (map snapshot_of cartItems)).
  assert (Hnone : fst (save_order env o db) = None).
  { apply save_order_unbound.
    - cbn. destruct cartItems; [contradiction|discriminate].
    - cbn [o new_name new_address new_orderItems binds].
      rewrite <- andb_assoc, (well_formed_binds cartItems Hwf).
      rewrite <- Hno.
      destruct (storable_cart cartItems), (has_nul name), (has_nul address);
        reflexivity. }
  destruct (save_order env o db) as [[id|] db1] eqn:Hsave; [discriminate|].
  apply save_order_inv in Hsave. destruct Hsave as (_ & _ & Ho & Hi).
  cbn [confirm fst snd]. repeat split; assumption.
Qed.

End Accepted.

(** C1: a well-formed cart (every item an object with a string for its
    name and numbers for its price and its quantity), submitted with a name
    and an address while the store is connected and does not fail, is
    persisted exactly when the two tables take it: no U+0000 in the names
    or in the address, every quantity an integer of 32 bits, and at most
    16383 items, the parameters one statement binds. Then [POST /checkout]
    answers the confirmation and appends one Order whose total is
    [Σ price_i × quantity_i], the sum being the one binary64 arithmetic
    gives from [0] in cart order. Otherwise it answers 500 and leaves the
    orders and their items as they were. *)
Theorem checkout_total_correct {RT : Runtime} {PG : Postgres}
    (env : Env) (req : Request) (db : DataSource)
    (cartItems : list value) (lines : list (float * float)) :
  parse_cart req = Some (VArr cartItems) ->
  cartItems <> [] ->
  lines_of cartItems = Some lines ->
  well_formed_cart cartItems = true ->
  forall name address : string,
  buyer_name req = VStr name ->
  buyer_address req = VStr address ->
  isInitialized db = true ->
  fault env = None ->
  let out := fst (post_checkout env req db) in
  let db' := snd (post_checkout env req db) in
  if storable_cart cartItems && negb (has_nul name) && negb (has_nul address)
  then
    out = Sent (confirmation (orders_seq db + 1))
    /\ orders db'
       = (orders db
          ++ [mkOrder (orders_seq db + 1) (VStr name) (VStr address)
                (float_sum lines) (now env)])%list
  else
    out = Sent (status_send 500 (Text "Error processing order"))
    /\ orders db' = orders db
    /\ order_items db' = order_items db.
Proof.
  intros Hparse Hne Hlines Hwf name address Hname Haddr Hinit Hfault.
  cbv zeta.
  destruct (storable_cart cartItems && negb (has_nul name)
            && negb (has_nul address)) eqn:Htaken.
  - apply andb_prop in Htaken as [[Hstorable Hn]%andb_prop Ha].
    apply negb_true_iff in Hn, Ha.
    rewrite (post_checkout_accepted env req db cartItems lines name address);
      try assumption.
    split; reflexivity.
  - exact (post_checkout_refused env req db cartItems lines name address
             Hparse Hne Hlines Hwf Hname Haddr Htaken).
Qed.

Lemma checkout_total_correct_example :
  fst (post_checkout (RT := Node.runtime) (PG := strict_server) calm alice_order
         empty_store)
  = Sent (confirmation 1)
  /\ orders (snd (post_checkout (RT := Node.runtime) (PG := strict_server) calm
                    alice_order empty_store))
     = [mkOrder 1 (VStr "Alice") (VStr "1 Main St") 7.5%float 1700000000].
Proof.
  exact (checkout_total_correct (RT := Node.runtime) (PG := strict_server) calm
           alice_order empty_store chocolate_items [(2.5%float, 3%float)]
           eq_refl ltac:(discriminate) eq_refl eq_refl "Alice" "1 Main St"
           eq_refl eq_refl eq_refl eq_refl).
Defined.

(** C1, as the claim states it, fails on a cart whose quantity the [int]
    column refuses: the cart of one item of price 2.5 and quantity
    3000000000 is well formed, its total is computed, and the submission is
    answered 500 and leaves no row, the id drawn for the order being
    lost. *)
Lemma checkout_large_quantity_refused :
  parse_cart (RT := Node.runtime) bulk_order
  = Some (VArr [VObj [("id", VNum 2%float); ("name", VStr "WFX Dark Chocolate");
                      ("price", VNum 2.5%float);
                      ("quantity", VNum 3000000000%float)]])
  /\ well_formed_cart
       [VObj [("id", VNum 2%float); ("name", VStr "WFX Dark Chocolate");
              ("price", VNum 2.5%float); ("quantity", VNum 3000000000%float)]]
     = true
  /\ post_checkout (RT := Node.runtime) (PG := strict_server) calm bulk_order
       empty_store
     = (Sent (mkResponse 500 (Text "Error processing order")),
        mkDataSource true [] [] [] 0 1 0).
Proof.
  repeat split; reflexivity.
Qed.



(** ** Failing persistence *)

(** C2: once a submission has passed validation the handler issues one
    [save], and what it leaves is all or nothing. When [save] fails, at
    whatever statement, the client is answered 500 "Error processing order"
    and the products, orders and order items are the rows of before: no
    Order header, no OrderItem. When it succeeds the header and every item
    row are there together. *)
Theorem checkout_atomic {RT : Runtime} {PG : Postgres}
    (env : Env) (req : Request) (db : DataSource)
    (cartItems : list value) (t : float) :
  parse_cart req = Some (VArr cartItems) ->
  cartItems <> [] ->
  cart_total cartItems = Some t ->
  let order_built :=
    mkNewOrder (buyer_name req) (buyer_address req) t (map snapshot_of cartItems) in
  let out := fst (post_checkout env req db) in
  let db' := snd (post_checkout env req db) in
  match fst (save_order env order_built db) with
  | None =>
      out = Sent (status_send 500 (Text "Error processing order"))
      /\ products db' = products db
      /\ orders db' = orders db
      /\ order_items db' = order_items db
  | Some id =>
      out = Sent (confirmation id)
      /\ products db' = products db
      /\ orders db'
         = (orders db
            ++ [mkOrder id (buyer_name req) (buyer_address req) t (now env)])%list
      /\ order_items db'
         = (order_items db
            ++ item_rows (order_items_seq db) id (map snapshot_of cartItems))%list
  end.
Proof.
  intros Hparse Hne Htotal order_built out db'. subst out db'.
  rewrite (post_checkout_valid env req db cartItems t Hparse Hne Htotal).
  fold order_built.
  destruct (save_order env order_built db) as [[id|] db1] eqn:Hsave;
    apply save_order_inv in Hsave; cbn [fst snd confirm].
  - destruct Hsave as [-> ->]. repeat split.
  - destruct Hsave as (_ & Hp & Ho & Hi). repeat split; assumption.
Qed.

(** The store fails at the insert of the items, after the Order header was
    written: the header's id is drawn from the sequence, and no row is
    left. *)
Lemma checkout_atomic_example :
  (fst (post_checkout (RT := Node.runtime) (PG := strict_server)
      failing_after_header alice_order
          empty_store)
   = Sent (mkResponse 500 (Text "Error processing order"))
   /\ products (snd (post_checkout (RT := Node.runtime) (PG := strict_server)
       failing_after_header
                       alice_order empty_store)) = []
   /\ orders (snd (post_checkout (RT := Node.runtime) (PG := strict_server)
       failing_after_header
                     alice_order empty_store)) = []
   /\ order_items (snd (post_checkout (RT := Node.runtime) (PG := strict_server)
       failing_after_header
                          alice_order empty_store)) = [])
  /\ orders_seq (snd (post_checkout (RT := Node.runtime) (PG := strict_server)
      failing_after_header
                        alice_order empty_store)) = 1.
Proof.
  split; [|reflexivity].
  exact (checkout_atomic (RT := Node.runtime) (PG := strict_server)
      failing_after_header alice_order
           empty_store chocolate_items 7.5%float eq_refl
           ltac:(discriminate) eq_refl).
Defined.

(** ** Buyer name and address *)




(** ** The total of a stored order *)

Lemma item_rows_order (seq oid : Z) (items : list NewOrderItem) :
  Forall (fun r => order r = oid) (item_rows seq oid items).
Proof.
  revert seq. induction items as [|i rest IH]; intros seq; cbn; constructor;
    [reflexivity|apply IH].
Qed.

(** Summing over the rows written for a cart gives what summing over the
    cart gave. *)
Lemma fold_item_rows (oid : Z) (cartItems : list value) :
  forall lines seq sum,
    lines_of cartItems = Some lines ->
    fold_left
      (fun s r => (s + number (productPrice r) * number (quantity r))%float)
      (item_rows seq oid (map snapshot_of cartItems)) sum
    = fold_left (fun s l => (s + fst l * snd l)%float) lines sum.
Proof.
  unfold lines_of.
  induction cartItems as [|item rest IH]; intros lines seq sum H; cbn in H.
  - injection H as <-. reflexivity.
  - destruct (line_of item) as [[p q]|] eqn:Hitem; [|discriminate].
    destruct (map_throwing line_of rest) as [ls|] eqn:Hrest; [|discriminate].
    injection H as <-. cbn [map item_rows fold_left fst snd].
    rewrite (IH ls (seq + 1) _ eq_refl). f_equal.
    apply line_of_inv in Hitem as (props & -> & Hp & Hq).
    cbn. rewrite Hp, Hq. reflexivity.
Qed.

Lemma filter_none {A} (keep : A -> bool) (l : list A) :
  Forall (fun x => keep x = false) l -> filter keep l = [].
Proof.
  induction 1 as [|x l Hx _ IH]; cbn; [reflexivity|]. rewrite Hx. exact IH.
Qed.

Lemma filter_all {A} (keep : A -> bool) (l : list A) :
  Forall (fun x => keep x = true) l -> filter keep l = l.
Proof.
  induction 1 as [|x l Hx _ IH]; cbn; [reflexivity|]. rewrite Hx, IH. reflexivity.
Qed.

(** Committing an order keeps the ids within the sequence, and the order
    items of the new order are the rows written with it: no row of before
    names an id not drawn yet. *)
Lemma committed_consistent (env : Env) (o : NewOrder) (db : DataSource) :
  store_consistent db ->
  store_consistent (committed env o db)
  /\ items_of (committed env o db) (orders_seq db + 1)
     = item_rows (order_items_seq db) (orders_seq db + 1) (new_orderItems o).
Proof.
  intros [Hord Hitems]. unfold committed.
  set (id := orders_seq db + 1).
  set (rows := item_rows (order_items_seq db) id (new_orderItems o)).
  assert (Hrows : Forall (fun r => order r = id) rows) by apply item_rows_order.
  split.
  - split; cbn [orders order_items orders_seq]; apply Forall_app; split.
    + eapply Forall_impl; [|exact Hord]. cbn. intros o' Ho. lia.
    + repeat constructor. cbn. lia.
    + eapply Forall_impl; [|exact Hitems]. cbn. intros i Hi. lia.
    + eapply Forall_impl; [|exact Hrows]. cbn. intros r Hr. lia.
  - unfold items_of. cbn [order_items].
    rewrite filter_app, (filter_none _ (order_items db)), (filter_all _ rows).
    + reflexivity.
    + eapply Forall_impl; [|exact Hrows]. cbn. intros r ->. apply Z.eqb_refl.
    + eapply Forall_impl; [|exact Hitems]. cbn. intros i Hi.
      apply Z.eqb_neq. subst id. lia.
Qed.

Lemma consistent_rows (db db1 : DataSource) :
  orders db1 = orders db ->
  order_items db1 = order_items db ->
  orders_seq db <= orders_seq db1 ->
  store_consistent db -> store_consistent db1.
Proof.
  unfold store_consistent. intros -> -> Hseq [Hord Hitems].
  split; (eapply Forall_impl; [|eassumption]); cbn; intros; lia.
Qed.

(** C5, as the code has it: whatever the store holds, a submission whose
    cart items carry a numeric price and quantity persists no order or
    one; the one it persists has for its total the binary64 sum of
    [price × quantity] over the cart, which is the sum of
    [productPrice × quantity] over that order's own OrderItem rows, and
    this total is non-negative when every price and quantity of the cart
    is non-negative and finite. The handler itself checks no sign. The one
    assumption on the store, that no row names an order id not drawn yet,
    is kept by the submission. *)
Theorem checkout_persists_balanced_order {RT : Runtime} {PG : Postgres}
    (env : Env) (req : Request) (db : DataSource)
    (cartItems : list value) (lines : list (float * float)) :
  parse_cart req = Some (VArr cartItems) ->
  lines_of cartItems = Some lines ->
  store_consistent db ->
  let db' := snd (post_checkout env req db) in
  store_consistent db'
  /\ (orders db' = orders db
      \/ exists o,
           orders db' = (orders db ++ [o])%list
           /\ total o = float_sum lines
           /\ total o = order_sum (items_of db' (order_id o))
           /\ (forallb nonneg_line lines = true ->
               (0 <=? total o)%float = true)).
Proof.
  intros Hparse Hlines Hcons db'. subst db'.
  destruct cartItems as [|item rest].
  { rewrite (post_checkout_empty env req db Hparse). cbn. auto. }
  rewrite (post_checkout_valid env req db (item :: rest) (float_sum lines)
             Hparse ltac:(discriminate) (cart_total_lines _ _ Hlines)).
  destruct (save_order env _ db) as [[id|] db1] eqn:Hsave;
    pose proof (save_order_frame _ _ _ _ _ Hsave) as (_ & _ & _ & Hseq & _);
    apply save_order_inv in Hsave; cbn [snd confirm].
  - destruct Hsave as [-> ->].
    destruct (committed_consistent env
                (mkNewOrder (buyer_name req) (buyer_address req)
                   (float_sum lines) (map snapshot_of (item :: rest)))
                db Hcons) as [Hc Hitems].
    split; [exact Hc|]. right. eexists. split; [reflexivity|].
    cbn [total order_id new_total]. split; [reflexivity|]. split.
    + rewrite Hitems. cbn [new_orderItems]. unfold order_sum. symmetry.
      apply fold_item_rows, Hlines.
    + apply float_sum_nonneg.
  - destruct Hsave as (_ & _ & Ho & Hi).
    split; [exact (consistent_rows db db1 Ho Hi Hseq Hcons)|].
    left. exact Ho.
Qed.

Lemma checkout_persists_balanced_order_example :
  snd (post_checkout (RT := Node.runtime) (PG := strict_server) calm alice_order
         empty_store)
  = alice_store
  /\ store_consistent alice_store
  /\ exists o,
       orders alice_store = [o]
       /\ total o = 7.5%float
       /\ total o = order_sum (items_of alice_store (order_id o))
       /\ (0 <=? total o)%float = true.
Proof.
  split; [reflexivity|].
  destruct (checkout_persists_balanced_order (RT := Node.runtime)
              (PG := strict_server) calm alice_order empty_store chocolate_items
              [(2.5%float, 3%float)] eq_refl eq_refl
              (conj (Forall_nil _) (Forall_nil _)))
    as [Hc [Hnone|(o & Ho & Ht & Hsum & Hpos)]].
  - discriminate Hnone.
  - split; [exact Hc|]. exists o.
    split; [exact Ho|]. split; [exact Ht|]. split; [exact Hsum|].
    apply Hpos. reflexivity.
Defined.

(** The restriction to numeric prices and quantities is needed: an item
    without a quantity makes the total [NaN], while its row takes the
    default quantity 1, so that the rows sum to the price. *)
Example checkout_missing_quantity_unbalanced :
  post_checkout (RT := Node.runtime) (PG := strict_server) calm
    (checkout_form (VStr "Alice") (VStr "1 Main St")
       (VStr ("[{" ++ quoted "name" ++ ":" ++ quoted "Gift" ++ ","
              ++ quoted "price" ++ ":2}]")))
    empty_store
  = (Sent (confirmation 1),
     mkDataSource true []
       [mkOrder 1 (VStr "Alice") (VStr "1 Main St") PrimFloat.nan 1700000000]
       [mkOrderItem 1 (VStr "Gift") (VNum 2%float) (VNum 1%float) 1]
       0 1 1)
  /\ order_sum [mkOrderItem 1 (VStr "Gift") (VNum 2%float) (VNum 1%float) 1]
     = 2%float.
Proof.
  split; reflexivity.
Qed.

(** C5, as the claim states it, fails on a cart with a negative price: the
    order is persisted with the total -5. *)
Lemma checkout_negative_total_persisted :
  post_checkout (RT := Node.runtime) (PG := strict_server) calm credit_order
    empty_store
  = (Sent (confirmation 1),
     mkDataSource true []
       [mkOrder 1 (VStr "Mallory") (VStr "2 Side St") (-5)%float 1700000000]
       [mkOrderItem 1 (VStr "Store credit") (VNum (-5)%float) (VNum 1%float) 1]
       0 1 1)
  /\ (0 <=? -5)%float = false.
Proof.
  split; reflexivity.
Qed.

(** ** Seeding *)

Lemma product_rows_length (seq : Z) (ps : list NewProduct) :
  List.length (product_rows seq ps) = List.length ps.
Proof.
  revert seq. induction ps as [|p rest IH]; intros seq; cbn; congruence.
Qed.

(** Saving no product changes nothing, whether it commits or not. *)
Lemma save_products_nil {PG : Postgres} (f : option nat) (db : DataSource) :
  snd (save_products f [] db) = db.
Proof.
  unfold save_products, transaction.
  destruct (isInitialized db); cbn; [|reflexivity].
  destruct (fails f); cbn; [apply rollback_same|reflexivity].
Qed.

(** C7: the seed step is idempotent. After a run that succeeded, a second
    run with the same defaults leaves the store exactly as the first left
    it, whatever the store does the second time; the catalog then holds one
    set of seeded rows if it was empty, and what it held otherwise. *)
Theorem seedIfEmpty_idempotent {PG : Postgres}
    (env1 env2 : Env) (defaults : list NewProduct) (db db1 : DataSource) :
  seedIfEmpty env1 defaults db = (true, db1) ->
  snd (seedIfEmpty env2 defaults db1) = db1
  /\ (products db = [] ->
      products db1 = product_rows (products_seq db) defaults)
  /\ (products db <> [] -> db1 = db).
Proof.
  unfold seedIfEmpty at 1. unfold count_products.
  destruct (negb (isInitialized db) || fails (fault env1)); [discriminate|].
  destruct (Z.of_nat (List.length (products db)) =? 0) eqn:Hcount.
  - apply Z.eqb_eq in Hcount.
    assert (Hempty : products db = []).
    { destruct (products db); [reflexivity|cbn in Hcount; lia]. }
    destruct (save_products (later (fault env1)) defaults db) as [[u|] db2] eqn:Hsave;
      [|discriminate].
    apply save_products_inv in Hsave. intros H. injection H as <-. subst db2.
    split; [|split].
    + unfold seedIfEmpty, count_products.
      destruct (negb (isInitialized (seeded defaults db)) || fails (fault env2));
        [reflexivity|].
      destruct (Z.of_nat (List.length (products (seeded defaults db))) =? 0)
        eqn:Hcount2; [|reflexivity].
      apply Z.eqb_eq in Hcount2. unfold seeded in Hcount2 at 1.
      cbn [products] in Hcount2.
      rewrite Hempty, app_nil_l, product_rows_length in Hcount2.
      destruct defaults as [|p rest]; [|cbn in Hcount2; lia].
      pose proof (save_products_nil (later (fault env2)) (seeded [] db)) as Hnil.
      destruct (save_products (later (fault env2)) [] (seeded [] db)) as [[u'|] db3];
        exact Hnil.
    + intros _. unfold seeded. cbn [products]. rewrite Hempty. reflexivity.
    + intros Hne. contradiction.
  - intros H. injection H as <-.
    split; [|split].
    + unfold seedIfEmpty, count_products.
      destruct (negb (isInitialized db) || fails (fault env2)); [reflexivity|].
      rewrite Hcount. reflexivity.
    + intros Hempty. rewrite Hempty in Hcount. discriminate.
    + reflexivity.
Qed.

(** Seeding the empty catalog with the built-in products, twice. *)
Lemma seedIfEmpty_idempotent_example :
  seedIfEmpty (PG := strict_server) calm default_products empty_store
  = (true, seeded default_products empty_store)
  /\ snd (seedIfEmpty (PG := strict_server) calm default_products
            (seeded default_products empty_store))
     = seeded default_products empty_store
  /\ List.length (products (seeded default_products empty_store)) = 6%nat.
Proof.
  split; [reflexivity|]. split; [|reflexivity].
  exact (proj1 (seedIfEmpty_idempotent (PG := strict_server) calm calm
                  default_products empty_store
                  (seeded default_products empty_store) eq_refl)).
Defined.

(** * The rest of [app.js]: properties *)

(** ** Equality of numbers *)

Lemma SFeqb_inv (x y : spec_float) :
  SFeqb x y = true ->
  (exists s s', x = S754_zero s /\ y = S754_zero s')
  \/ (x = y /\ x <> S754_nan /\ forall s, x <> S754_zero s).
Proof.
  unfold SFeqb, SFcompare.
  destruct x as [sx|sx| |sx mx ex], y as [sy|sy| |sy my ey];
    try discriminate; try (destruct sx; discriminate);
    try (destruct sy; discriminate).
  - intros _. left. eauto.
  - destruct sx, sy; try discriminate; intros _; right;
      repeat split; discriminate.
  - destruct sx, sy; try discriminate;
      destruct (Z.compare ex ey) eqn:He; try discriminate;
      destruct (Pos.compare_cont Eq mx my) eqn:Hm; try discriminate;
      intros _; right;
      apply Z.compare_eq in He; apply Pos.compare_eq in Hm; subst;
      repeat split; discriminate.
Qed.

Lemma SFeqb_same (x : spec_float) :
  x <> S754_nan -> SFeqb x x = true.
Proof.
  unfold SFeqb, SFcompare. destruct x as [s|s| |s m e]; try reflexivity.
  - intros _. destruct s; reflexivity.
  - contradiction.
  - intros _. rewrite Z.compare_refl.
    change (Pos.compare_cont Eq m m) with (Pos.compare m m).
    rewrite Pos.compare_refl. destruct s; reflexivity.
Qed.

(** Two numbers equal to a third are equal. *)
Lemma eqb_common (a b c : float) :
  PrimFloat.eqb a c = true -> PrimFloat.eqb b c = true -> PrimFloat.eqb a b = true.
Proof.
  rewrite !eqb_spec. intros Ha Hb.
  apply SFeqb_inv in Ha. apply SFeqb_inv in Hb.
  destruct Ha as [(s & s' & Ha & Hc)|(Ha & Hn & Hz)].
  - destruct Hb as [(t & t' & Hb & _)|(Hb & _ & Hz)].
    + rewrite Ha, Hb. reflexivity.
    + exfalso. apply (Hz s'). congruence.
  - destruct Hb as [(t & t' & _ & Hc)|(Hb & _ & _)].
    + exfalso. apply (Hz t'). congruence.
    + rewrite Ha, Hb. apply SFeqb_same. congruence.
Qed.

(** ** Objects and lists *)

Lemma own_property_put_same (props : list (string * value)) (k : string) (v : value) :
  own_property (put_property props k v) k = v.
Proof.
  induction props as [|[k' v'] rest IH]; cbn.
  - rewrite String.eqb_refl. reflexivity.
  - destruct (k' =? k)%string eqn:Hk; cbn.
    + rewrite String.eqb_refl. reflexivity.
    + rewrite Hk. exact IH.
Qed.

Lemma own_property_put_other (props : list (string * value)) (k k' : string) (v : value) :
  k' <> k ->
  own_property (put_property props k v) k' = own_property props k'.
Proof.
  intros Hne. induction props as [|[k0 v0] rest IH]; cbn.
  - apply String.eqb_neq in Hne. rewrite String.eqb_sym, Hne. reflexivity.
  - destruct (k0 =? k)%string eqn:Hk; cbn.
    + apply String.eqb_eq in Hk. subst k0.
      apply String.eqb_neq in Hne. rewrite String.eqb_sym, Hne. reflexivity.
    + destruct (k0 =? k')%string; [reflexivity|exact IH].
Qed.

Lemma existsb_none {A} (f : A -> bool) (l : list A) :
  existsb f l = false -> forall x, In x l -> f x = false.
Proof.
  intros H x Hx. destruct (f x) eqn:Hf; [|reflexivity].
  assert (Hex : existsb f l = true) by (apply existsb_exists; eauto).
  congruence.
Qed.

Lemma replace_nth_length {A} (n : nat) (x : A) (l : list A) :
  List.length (replace_nth n x l) = List.length l.
Proof.
  revert n. induction l as [|y rest IH]; intros [|n]; cbn; auto.
Qed.

Lemma replace_nth_map {A B} (f : A -> B) (n : nat) (x d : A) (l : list A) :
  f x = f (nth n l d) -> (n < List.length l)%nat ->
  map f (replace_nth n x l) = map f l.
Proof.
  revert n. induction l as [|y rest IH]; intros [|n]; cbn; intros Hx Hn;
    try lia.
  - rewrite Hx. reflexivity.
  - rewrite IH; [reflexivity|exact Hx|lia].
Qed.

Lemma replace_nth_split {A} (x y : A) (before after : list A) :
  replace_nth (List.length before) x (before ++ y :: after)
  = (before ++ x :: after)%list.
Proof.
  induction before as [|z rest IH]; cbn; [reflexivity|]. rewrite IH. reflexivity.
Qed.

(** ** The cart of the browser *)

Lemma has_id_inv (id : float) (e : value) :
  has_id id e = true ->
  exists props m,
    e = VObj props /\ own_property props "id" = VNum m
    /\ PrimFloat.eqb m id = true.
Proof.
  unfold has_id, strict_equals_number.
  destruct e as [| | | | |l|props]; cbn; try discriminate.
  destruct (own_property props "id") as [| | |m| | |] eqn:Hid; try discriminate.
  intros H. exists props, m. auto.
Qed.

Lemma entries_of_ids (id : float) (c1 c2 : list value) :
  entry_ids c1 = entry_ids c2 -> entries_of id c1 = entries_of id c2.
Proof.
  unfold entries_of, entry_ids, has_id.
  revert c2. induction c1 as [|e1 r1 IH]; intros [|e2 r2]; cbn;
    try discriminate; [reflexivity|].
  intros H. injection H as He Hr. rewrite He.
  destruct (strict_equals_number (GetV e2 "id") id); cbn; rewrite (IH r2 Hr);
    reflexivity.
Qed.

Section CartProperties.
Context {RT : Runtime} {PG : Postgres} {BI : Builtins}.

(** What [find] found is the first entry of the product, and it is an
    object. *)
Lemma find_by_id_found (id : float) (cart : list value) :
  forall n,
    find_by_id id cart = Some (Some n) ->
    (n < List.length cart)%nat
    /\ has_id id (nth n cart VUndefined) = true
    /\ existsb (has_id id) cart = true.
Proof.
  induction cart as [|e rest IH]; intros n; cbn; [discriminate|].
  destruct (Get e "id") as [v|] eqn:Hget; [|discriminate].
  assert (Hv : v = GetV e "id").
  { destruct e; cbn in Hget; try discriminate; injection Hget as <-; reflexivity. }
  subst v. fold (has_id id e).
  destruct (has_id id e) eqn:Hid.
  - intros H. injection H as <-. cbn. repeat split; [lia|exact Hid].
  - destruct (find_by_id id rest) as [[k|]|] eqn:Hrest; try discriminate.
    intros H. injection H as <-.
    destruct (IH k eq_refl) as (Hk & Hn & Hex). cbn.
    repeat split; [lia|exact Hn|exact Hex].
Qed.

Lemma find_by_id_missing (id : float) (cart : list value) :
  find_by_id id cart = Some None -> existsb (has_id id) cart = false.
Proof.
  induction cart as [|e rest IH]; cbn; [reflexivity|].
  destruct (Get e "id") as [v|] eqn:Hget; [|discriminate].
  assert (Hv : v = GetV e "id").
  { destruct e; cbn in Hget; try discriminate; injection Hget as <-; reflexivity. }
  subst v. fold (has_id id e).
  destruct (has_id id e); [discriminate|].
  destruct (find_by_id id rest) as [[k|]|]; try discriminate.
  intros _. apply IH. reflexivity.
Qed.

Lemma find_by_id_absent (id : float) (cart : list value) :
  forallb not_null cart = true ->
  existsb (has_id id) cart = false ->
  find_by_id id cart = Some None.
Proof.
  induction cart as [|e rest IH]; cbn; [reflexivity|].
  intros [He Hrest]%andb_prop [Hid Hex]%orb_false_elim.
  assert (Hget : Get e "id" = Some (GetV e "id")).
  { destruct e; cbn in He |- *; try discriminate; reflexivity. }
  rewrite Hget. fold (has_id id e). rewrite Hid, (IH Hrest Hex). reflexivity.
Qed.

Lemma find_by_id_first (id : float) (before after : list value) (e : value) :
  forallb not_null before = true ->
  existsb (has_id id) before = false ->
  has_id id e = true ->
  find_by_id id (before ++ e :: after) = Some (Some (List.length before)).
Proof.
  intros Hnn Hno He.
  induction before as [|b rest IH]; cbn.
  - destruct (has_id_inv id e He) as (props & m & -> & Hm & Heq). cbn.
    rewrite Hm. cbn. rewrite Heq. reflexivity.
  - cbn in Hnn, Hno.
    apply andb_prop in Hnn as [Hb Hrest].
    apply orb_false_elim in Hno as [Hid Hex].
    assert (Hget : Get b "id" = Some (GetV b "id")).
    { destruct b; cbn in Hb |- *; try discriminate; reflexivity. }
    rewrite Hget. fold (has_id id b). rewrite Hid, (IH Hrest Hex). reflexivity.
Qed.

(** Raising the quantity leaves the id of the entry alone. *)
Lemma bump_quantity_id (it it' : value) :
  bump_quantity it = Some it' -> GetV it' "id" = GetV it "id".
Proof.
  unfold bump_quantity.
  destruct (Get it "quantity") as [q|]; [|discriminate].
  destruct (js_plus q (VNum 1%float)) as [q'|]; [|discriminate].
  destruct it as [| | | | |l|props]; intros H; injection H as <-;
    try reflexivity.
  cbn. apply own_property_put_other. discriminate.
Qed.

(** What [addToCart] does to the entries: a product that has no entry gets
    one, at the end; a product that has one keeps every entry where it is,
    under the same id. *)
Lemma add_entry_cases (cart cart' : list value) (id : float) (name : string)
    (price : float) :
  add_entry cart id name price = Some cart' ->
  (existsb (has_id id) cart = false
   /\ cart' = (cart ++ [new_entry id name price])%list)
  \/ (existsb (has_id id) cart = true /\ entry_ids cart' = entry_ids cart).
Proof.
  unfold add_entry.
  destruct (find_by_id id cart) as [[n|]|] eqn:Hfind; [| |discriminate].
  - destruct (find_by_id_found id cart n Hfind) as (Hn & Hid & Hex).
    destruct (has_id_inv id _ Hid) as (props & m & Hit & _ & _).
    rewrite Hit. cbn [ToBoolean].
    destruct (bump_quantity (VObj props)) as [it'|] eqn:Hbump; [|discriminate].
    intros H. injection H as <-. right. split; [exact Hex|].
    unfold entry_ids. apply replace_nth_map with (d := VUndefined); [|exact Hn].
    rewrite Hit. apply bump_quantity_id, Hbump.
  - intros H. injection H as <-. left.
    split; [apply find_by_id_missing, Hfind|reflexivity].
Qed.

Lemma reduce_snoc {A B} (f : A -> B -> option A) (l : list B) (x : B) (a : A) :
  reduce f (l ++ [x]) a
  = match reduce f l a with Some b => f b x | None => None end.
Proof.
  revert a. induction l as [|y rest IH]; intros a; cbn.
  - destruct (f a x); reflexivity.
  - destruct (f a y); [apply IH|reflexivity].
Qed.

(** A text that the test of the checkout scripts lets through is read by
    the server as it was by the script. *)
Lemma parse_cart_of_text (req : Request) (c : string) :
  cartData req = VStr c -> c <> "" -> parse_cart req = JSON_parse c.
Proof.
  intros Hc Hne. unfold parse_cart. rewrite Hc. unfold js_or. cbn [ToBoolean].
  apply String.eqb_neq in Hne. rewrite Hne. reflexivity.
Qed.

(** Past the two checks the answer is the confirmation or the 500. *)
Lemma post_checkout_past_checks (env : Env) (req : Request) (db : DataSource)
    (cartItems : list value) (r : Response) :
  parse_cart req = Some (VArr cartItems) -> cartItems <> [] ->
  fst (post_checkout env req db) = Sent r -> status r <> 400.
Proof.
  unfold post_checkout. intros -> Hne.
  destruct cartItems as [|item rest]; [contradiction|].
  cbn [isArray negb orb elements List.length Z.of_nat Z.eqb].
  destruct (cart_total (item :: rest)) as [t|]; [|discriminate].
  unfold place_order.
  destruct (map_throwing snapshot (item :: rest)) as [ois|].
  - destruct (save_order env _ db) as [[id|] db1]; cbn;
      intros H; injection H as <-; discriminate.
  - cbn. intros H; injection H as <-; discriminate.
Qed.

(** The loop of the summary adds up as the server does, one line per
    item. *)
Lemma summary_adds_lines (cart : list value) :
  forall t0 ls0 t ls,
    reduce summary_step cart (t0, ls0) = Some (t, ls) ->
    reduce add_line cart t0 = Some t
    /\ List.length ls = (List.length ls0 + List.length cart)%nat.
Proof.
  induction cart as [|item rest IH]; intros t0 ls0 t ls; cbn.
  - intros H. injection H as <- <-. split; [reflexivity|lia].
  - unfold summary_step at 1. cbn [fst snd].
    destruct (add_line t0 item) as [t1|]; [|discriminate].
    destruct (ToString (GetV item "name")) as [n|]; [|discriminate].
    destruct (GetV item "price") as [| | |p| | |]; try discriminate.
    destruct (ToString (GetV item "quantity")) as [q|]; [|discriminate].
    intros H. apply IH in H as [Ht Hl]. split; [exact Ht|].
    rewrite Hl, length_app. cbn. lia.
Qed.
End CartProperties.

(** X1: [addToCart] for a product that has no entry in the stored cart
    (the empty or missing cart included) stores the cart with one more
    entry, [{id, name, price, quantity: 1}], after the entries it had. *)
Theorem addToCart_new_product {RT : Runtime} {BI : Builtins}
    (storage : option string) (cart : list value) (id : float) (name : string)
    (price : float) :
  load_cart storage = Some (VArr cart) ->
  forallb not_null cart = true ->
  existsb (has_id id) cart = false ->
  addToCart storage id name price
  = Some (JSON_stringify (VArr (cart ++ [new_entry id name price]))).
Proof.
  intros Hload Hnn Hno. unfold addToCart, add_entry.
  rewrite Hload, (find_by_id_absent id cart Hnn Hno). reflexivity.
Qed.

Lemma addToCart_new_product_example :
  addToCart (RT := Node.runtime) (BI := NodeBuiltins.builtins) None 2%float
    "WFX Dark Chocolate" 2.5%float
  = Some one_chocolate.
Proof.
  exact (addToCart_new_product (RT := Node.runtime) (BI := NodeBuiltins.builtins)
           None [] 2%float "WFX Dark Chocolate" 2.5%float
           eq_refl eq_refl eq_refl).
Defined.

(** X2: [addToCart] for a product whose first entry carries a number for
    its quantity stores the cart with that quantity raised by one: the
    entry stays where it is, its other properties and the other entries are
    untouched. *)
Theorem addToCart_known_product {RT : Runtime} {BI : Builtins}
    (storage : option string) (before after : list value)
    (props : list (string * value)) (id q : float) (name : string) (price : float) :
  load_cart storage = Some (VArr (before ++ VObj props :: after)) ->
  forallb not_null before = true ->
  existsb (has_id id) before = false ->
  has_id id (VObj props) = true ->
  own_property props "quantity" = VNum q ->
  let props' := put_property props "quantity" (VNum (q + 1)%float) in
  addToCart storage id name price
  = Some (JSON_stringify (VArr (before ++ VObj props' :: after)))
  /\ own_property props' "quantity" = VNum (q + 1)%float
  /\ forall k, k <> "quantity" -> own_property props' k = own_property props k.
Proof.
  intros Hload Hnn Hno Hid Hq props'. split; [|split].
  - unfold addToCart, add_entry.
    rewrite Hload, (find_by_id_first id before after _ Hnn Hno Hid).
    rewrite app_nth2, Nat.sub_diag by lia. cbn [nth ToBoolean].
    unfold bump_quantity. cbn [Get GetV]. rewrite Hq. cbn.
    rewrite replace_nth_split. reflexivity.
  - apply own_property_put_same.
  - intros k Hk. apply own_property_put_other, Hk.
Qed.

Lemma addToCart_known_product_example :
  addToCart (RT := Node.runtime) (BI := NodeBuiltins.builtins) (Some one_chocolate)
    2%float "WFX Dark Chocolate" 2.5%float
  = Some ("[{" ++ quoted "id" ++ ":2," ++ quoted "name" ++ ":"
          ++ quoted "WFX Dark Chocolate" ++ "," ++ quoted "price" ++ ":2.5,"
          ++ quoted "quantity" ++ ":2}]").
Proof.
  exact (proj1 (addToCart_known_product (RT := Node.runtime)
                  (BI := NodeBuiltins.builtins) (Some one_chocolate) [] []
                  [("id", VNum 2%float); ("name", VStr "WFX Dark Chocolate");
                   ("price", VNum 2.5%float); ("quantity", VNum 1%float)]
                  2%float 1%float "WFX Dark Chocolate" 2.5%float
                  eq_refl eq_refl eq_refl eq_refl eq_refl)).
Defined.

(** X3: [addToCart] never makes a second entry for a product, and never
    removes or reorders entries: a cart with at most one entry per product
    id still has at most one after the call; when the product had an entry
    the ids are those of before in the same order, and when it had none
    they are those of before followed by the new id. *)
Theorem addToCart_one_entry_each {RT : Runtime} {BI : Builtins}
    (cart cart' : list value) (id : float) (name : string) (price : float) :
  one_entry_each cart ->
  add_entry cart id name price = Some cart' ->
  one_entry_each cart'
  /\ (existsb (has_id id) cart = true -> entry_ids cart' = entry_ids cart)
  /\ (existsb (has_id id) cart = false ->
      entry_ids cart' = (entry_ids cart ++ [VNum id])%list).
Proof.
  intros Hone Hadd.
  destruct (add_entry_cases cart cart' id name price Hadd)
    as [[Hno ->]|[Hex Hids]].
  - split; [|split].
    + intros id'. unfold entries_of. rewrite filter_app, length_app.
      cbn [filter]. unfold has_id at 2. cbn.
      destruct (PrimFloat.eqb id id') eqn:Heq; cbn; [|specialize (Hone id');
        unfold entries_of in Hone; lia].
      assert (Hnone : filter (has_id id') cart = []).
      { apply filter_none. apply Forall_forall. intros e He.
        destruct (has_id id' e) eqn:Hid'; [|reflexivity]. exfalso.
        destruct (has_id_inv id' e Hid') as (props & m & -> & Hm & Hmid).
        assert (Hhas : has_id id (VObj props) = true).
        { unfold has_id. cbn. rewrite Hm. cbn.
          apply (eqb_common m id id'); assumption. }
        rewrite (existsb_none _ _ Hno _ He) in Hhas. discriminate. }
      rewrite Hnone. cbn. lia.
    + intros Hex. congruence.
    + intros _. unfold entry_ids. rewrite map_app. reflexivity.
  - split; [|split].
    + intros id'. rewrite (entries_of_ids id' cart' cart Hids). apply Hone.
    + intros _. exact Hids.
    + intros Hno. congruence.
Qed.

Lemma addToCart_one_entry_each_example :
  add_entry (RT := Node.runtime) one_chocolate_cart 3%float "WFX Candy Crunch"
    2.75%float
  = Some (one_chocolate_cart
          ++ [new_entry 3%float "WFX Candy Crunch" 2.75%float])%list
  /\ one_entry_each
       (one_chocolate_cart ++ [new_entry 3%float "WFX Candy Crunch" 2.75%float])
  /\ entry_ids
       (one_chocolate_cart ++ [new_entry 3%float "WFX Candy Crunch" 2.75%float])
     = [VNum 2%float; VNum 3%float].
Proof.
  split; [reflexivity|].
  assert (Hone : one_entry_each one_chocolate_cart).
  { intros id'. unfold entries_of, one_chocolate_cart. cbn [filter].
    destruct (has_id id' (new_entry 2%float "WFX Dark Chocolate" 2.5%float));
      cbn; lia. }
  destruct (addToCart_one_entry_each (RT := Node.runtime)
              (BI := NodeBuiltins.builtins) one_chocolate_cart
              (one_chocolate_cart
               ++ [new_entry 3%float "WFX Candy Crunch" 2.75%float])
              3%float "WFX Candy Crunch" 2.75%float Hone eq_refl)
    as (Hone' & _ & Hnew).
  split; [exact Hone'|]. exact (Hnew eq_refl).
Defined.

(** X4: adding a product that has no entry raises the count of the badge
    by exactly one: when [updateCartCount] showed the number [c] and the
    stored text reads back as the cart that was stored, it shows [c + 1]
    after [addToCart]. *)
Theorem updateCartCount_after_new_product {RT : Runtime} {BI : Builtins}
    (storage : option string) (cart : list value) (id c : float) (name : string)
    (price : float) :
  load_cart storage = Some (VArr cart) ->
  forallb not_null cart = true ->
  existsb (has_id id) cart = false ->
  updateCartCount storage = Some (VNum c) ->
  load_cart (Some (JSON_stringify (VArr (cart ++ [new_entry id name price]))))
  = Some (VArr (cart ++ [new_entry id name price])) ->
  updateCartCount (addToCart storage id name price) = Some (VNum (c + 1)%float).
Proof.
  intros Hload Hnn Hno Hcount Hback.
  unfold addToCart, add_entry.
  rewrite Hload, (find_by_id_absent id cart Hnn Hno).
  unfold updateCartCount in *. rewrite Hback. rewrite Hload in Hcount.
  rewrite reduce_snoc, Hcount. reflexivity.
Qed.

Lemma updateCartCount_after_new_product_example :
  updateCartCount (RT := Node.runtime)
    (addToCart (RT := Node.runtime) (BI := NodeBuiltins.builtins)
       (Some one_chocolate) 3%float "WFX Candy Crunch" 2.75%float)
  = Some (VNum 2%float).
Proof.
  exact (updateCartCount_after_new_product (RT := Node.runtime)
           (BI := NodeBuiltins.builtins) (Some one_chocolate) one_chocolate_cart
           3%float 1%float "WFX Candy Crunch" 2.75%float
           eq_refl eq_refl eq_refl eq_refl eq_refl).
Defined.

(** X5: the check of [prepareOrder] and the checks of the server agree on
    arrays and not beyond. When [prepareOrder] returns [true] the
    [cartData] field holds the stored text, which is valid JSON; posted as
    it is, a text that reads as an array is never answered 400, and a text
    that reads as anything else is answered 400 "Cart is empty" although
    the script let it through. *)
Theorem prepareOrder_and_server {RT : Runtime} {PG : Postgres} {BI : Builtins}
    (storage : option string) (c : string)
    (env : Env) (req : Request) (db : DataSource) :
  prepareOrder storage = Some (true, c) ->
  cartData req = VStr c ->
  storage = Some c
  /\ match JSON_parse c with
     | Some (VArr cartItems) =>
         cartItems <> []
         /\ forall r, fst (post_checkout env req db) = Sent r -> status r <> 400
     | Some _ =>
         post_checkout env req db
         = (Sent (status_send 400 (Text "Cart is empty")), db)
     | None => False
     end.
Proof.
  unfold prepareOrder, cart_is_empty.
  destruct storage as [s|]; [|discriminate].
  destruct (s =? "")%string eqn:Hs; [discriminate|].
  apply String.eqb_neq in Hs.
  destruct (JSON_parse s) as [v|] eqn:Hparse; [|discriminate].
  destruct (length_is_zero v) as [[|]|] eqn:Hlen; try discriminate.
  intros H Hc. injection H as <-. split; [reflexivity|].
  pose proof (parse_cart_of_text req s Hc Hs) as Hcart.
  rewrite Hparse in *.
  destruct v as [| | | | |l|props]; try discriminate;
    try (unfold post_checkout; rewrite Hcart; reflexivity).
  assert (Hne : l <> []) by (destruct l; [discriminate|discriminate]).
  split; [exact Hne|].
  intros r. apply (post_checkout_past_checks env req db l r Hcart Hne).
Qed.

Lemma prepareOrder_and_server_example :
  (Some one_chocolate = Some one_chocolate
   /\ (one_chocolate_cart <> []
       /\ forall r,
            fst (post_checkout (RT := Node.runtime) (PG := strict_server) calm
                   (checkout_form (VStr "Alice") (VStr "1 Main St")
                      (VStr one_chocolate)) empty_store) = Sent r ->
            status r <> 400))
  /\ (Some "{}" = Some "{}"
      /\ post_checkout (RT := Node.runtime) (PG := strict_server) calm
           (checkout_form (VStr "Alice") (VStr "1 Main St") (VStr "{}"))
           empty_store
         = (Sent (status_send 400 (Text "Cart is empty")), empty_store)).
Proof.
  split.
  - exact (prepareOrder_and_server (RT := Node.runtime) (PG := strict_server)
             (BI := NodeBuiltins.builtins) (Some one_chocolate) one_chocolate
             calm (checkout_form (VStr "Alice") (VStr "1 Main St")
                     (VStr one_chocolate)) empty_store eq_refl eq_refl).
  - exact (prepareOrder_and_server (RT := Node.runtime) (PG := strict_server)
             (BI := NodeBuiltins.builtins) (Some "{}") "{}"
             calm (checkout_form (VStr "Alice") (VStr "1 Main St") (VStr "{}"))
             empty_store eq_refl eq_refl).
Defined.

(** X6: the total the checkout page shows is the total the order is stored
    with. When [renderCartSummary] shows lines and a total for the stored
    text, and that text is posted as [cartData], the server computes a
    total [t] whose two-digit text is the one shown, there is one line per
    item, and any order the submission stores carries [t]. *)
Theorem summary_total_is_charged {RT : Runtime} {PG : Postgres} {BI : Builtins}
    (c : string) (ls : list SummaryLine) (shown : string)
    (env : Env) (req : Request) (db : DataSource) :
  renderCartSummary (Some c) = Some (CartLines ls shown) ->
  cartData req = VStr c ->
  exists cartItems t,
    parse_cart req = Some (VArr cartItems)
    /\ List.length ls = List.length cartItems
    /\ cart_total cartItems = Some t
    /\ shown = toFixed2 t
    /\ forall r db',
         post_checkout env req db = (Sent r, db') -> status r = 200 ->
         orders db'
         = (orders db
            ++ [mkOrder (orders_seq db + 1) (buyer_name req) (buyer_address req)
                  t (now env)])%list.
Proof.
  unfold renderCartSummary, cart_is_empty.
  destruct (c =? "")%string eqn:Hs; [discriminate|].
  apply String.eqb_neq in Hs.
  destruct (JSON_parse c) as [v|] eqn:Hparse; [|discriminate].
  destruct (length_is_zero v) as [[|]|] eqn:Hlen; try discriminate.
  destruct v as [| | | | |cart|props]; try discriminate.
  destruct (reduce summary_step cart (0%float, [])) as [[t lines]|] eqn:Hsum;
    [|discriminate].
  intros H Hc. injection H as <- <-.
  apply summary_adds_lines in Hsum as [Htotal Hlines].
  pose proof (parse_cart_of_text req c Hc Hs) as Hcart. rewrite Hparse in Hcart.
  assert (Hne : cart <> []) by (destruct cart; discriminate).
  exists cart, t. repeat split; try assumption.
  intros r db' Hrun Hstatus.
  rewrite (post_checkout_valid env req db cart t Hcart Hne Htotal) in Hrun.
  destruct (save_order env _ db) as [[id|] db1] eqn:Hsave;
    apply save_order_inv in Hsave; cbn in Hrun.
  - destruct Hsave as [-> ->]. injection Hrun as <- <-. reflexivity.
  - injection Hrun as <- <-. discriminate.
Qed.

Lemma summary_total_is_charged_example :
  renderCartSummary (RT := Node.runtime) (BI := NodeBuiltins.builtins)
    (Some chocolate_cart)
  = Some (CartLines [mkSummaryLine "WFX Dark Chocolate" "2.50" "3"] "7.50")
  /\ exists cartItems t,
       parse_cart (RT := Node.runtime) alice_order = Some (VArr cartItems)
       /\ 1%nat = List.length cartItems
       /\ cart_total (RT := Node.runtime) cartItems = Some t
       /\ "7.50" = toFixed2 (Builtins := NodeBuiltins.builtins) t
       /\ forall r db',
            post_checkout (RT := Node.runtime) (PG := strict_server) calm
                alice_order empty_store
            = (Sent r, db') -> status r = 200 ->
            orders db'
            = ([] ++ [mkOrder 1 (VStr "Alice") (VStr "1 Main St") t 1700000000])%list.
Proof.
  split; [reflexivity|].
  exact (summary_total_is_charged (RT := Node.runtime) (PG := strict_server)
           (BI := NodeBuiltins.builtins) chocolate_cart
           [mkSummaryLine "WFX Dark Chocolate" "2.50" "3"] "7.50"
           calm alice_order empty_store eq_refl eq_refl).
Defined.

(** ** What a submission does to the store *)

Lemma confirmed_ids_cons (out : Outcome) (outs : list Outcome) :
  confirmed_ids (out :: outs) = (confirmed_ids [out] ++ confirmed_ids outs)%list.
Proof.
  destruct out as [[st [t|title [id]]]|]; cbn; try reflexivity;
    destruct st as [|p|p]; try reflexivity;
    repeat (destruct p as [p|p|]; try reflexivity).
Qed.

Lemma map_throwing_length {A B} (f : A -> option B) (l : list A) :
  forall ys, map_throwing f l = Some ys -> List.length ys = List.length l.
Proof.
  induction l as [|x rest IH]; intros ys H; cbn in H.
  - injection H as <-. reflexivity.
  - destruct (f x); [|discriminate].
    destruct (map_throwing f rest); [|discriminate].
    injection H as <-. cbn. f_equal. apply IH. reflexivity.
Qed.

(** Every submission either leaves the orders and their items as they
    were and confirms nothing, or commits one order and confirms its id;
    either way the catalog and the connection are as before and no
    sequence goes back. *)
Lemma post_checkout_effect {RT : Runtime} {PG : Postgres} (env : Env) (req : Request)
    (db : DataSource) :
  let out := fst (post_checkout env req db) in
  let db' := snd (post_checkout env req db) in
  (isInitialized db' = isInitialized db
   /\ products db' = products db
   /\ products_seq db' = products_seq db
   /\ orders_seq db <= orders_seq db'
   /\ order_items_seq db <= order_items_seq db')
  /\ ((orders db' = orders db /\ order_items db' = order_items db
       /\ confirmed_ids [out] = [])
      \/ (exists o, db' = committed env o db
                    /\ new_orderItems o <> []
                    /\ out = Sent (confirmation (orders_seq db + 1)))).
Proof.
  cbv zeta. unfold post_checkout.
  assert (Hsame : forall r : Response,
             confirmed_ids [Sent r] = [] ->
             (isInitialized db = isInitialized db /\ products db = products db
              /\ products_seq db = products_seq db
              /\ orders_seq db <= orders_seq db
              /\ order_items_seq db <= order_items_seq db)
             /\ ((orders db = orders db /\ order_items db = order_items db
                  /\ confirmed_ids [Sent r] = [])
                 \/ (exists o, db = committed env o db
                               /\ new_orderItems o <> []
                               /\ Sent r = Sent (confirmation (orders_seq db + 1))))).
  { intros r Hr. split; [repeat split; lia|]. left. auto. }
  destruct (parse_cart req) as [cartItems|]; cbn [fst snd].
  2:{ apply Hsame. reflexivity. }
  destruct (negb (isArray cartItems)
            || (Z.of_nat (List.length (elements cartItems)) =? 0)) eqn:Hcheck;
    cbn [fst snd].
  { apply Hsame. reflexivity. }
  apply Bool.orb_false_elim in Hcheck as [_ Hlen]. apply Z.eqb_neq in Hlen.
  destruct (cart_total (elements cartItems)) as [t|]; cbn [fst snd].
  2:{ split; [repeat split; lia|]. left. auto. }
  unfold place_order.
  destruct (map_throwing snapshot (elements cartItems)) as [ois|] eqn:Hmap;
    cbn [fst snd].
  2:{ apply Hsame. reflexivity. }
  apply map_throwing_length in Hmap.
  destruct (save_order env _ db) as [[id|] db1] eqn:Hsave;
    pose proof (save_order_frame _ _ _ _ _ Hsave) as Hframe;
    apply save_order_inv in Hsave; cbn [confirm fst snd].
  - split; [exact Hframe|]. right. destruct Hsave as [-> ->].
    eexists. split; [reflexivity|]. split; [|reflexivity].
    cbn [new_orderItems]. intros ->. cbn in Hmap. lia.
  - split; [exact Hframe|]. left. destruct Hsave as (_ & _ & Ho & Hi). auto.
Qed.

(** No submission, whatever its cart, leaves a row that names an order id
    not drawn yet. *)
Lemma post_checkout_consistent {RT : Runtime} {PG : Postgres}
    (env : Env) (req : Request) (db : DataSource) :
  store_consistent db -> store_consistent (snd (post_checkout env req db)).
Proof.
  intros Hcons.
  destruct (post_checkout_effect env req db)
    as [(_ & _ & _ & Hos & _) [(Ho & Hi & _)|(o & Hdb & _ & _)]].
  - exact (consistent_rows _ _ Ho Hi Hos Hcons).
  - rewrite Hdb. apply committed_consistent, Hcons.
Qed.

Lemma item_rows_ids (oid : Z) (items : list NewOrderItem) :
  forall seq,
    Forall (fun r => seq < item_id r <= seq + Z.of_nat (List.length items))
      (item_rows seq oid items)
    /\ NoDup (map item_id (item_rows seq oid items)).
Proof.
  induction items as [|i rest IH]; intros seq; cbn [item_rows map List.length].
  - split; constructor.
  - destruct (IH (seq + 1)) as [Hids Hnodup]. split.
    + constructor; [cbn; lia|].
      eapply Forall_impl; [|exact Hids]. cbn. intros r Hr. lia.
    + constructor; [|exact Hnodup]. cbn [item_id]. intros Hin.
      apply in_map_iff in Hin as (r & Hr & Hin).
      rewrite Forall_forall in Hids. apply Hids in Hin. lia.
Qed.

(** The store stays sound when its rows stay and no sequence goes back. *)
Lemma sound_rows (db db1 : DataSource) :
  orders db1 = orders db ->
  order_items db1 = order_items db ->
  orders_seq db <= orders_seq db1 ->
  order_items_seq db <= order_items_seq db1 ->
  store_sound db -> store_sound db1.
Proof.
  unfold store_sound. intros -> -> Hos His (H1 & H2 & H3 & H4 & H5 & H6).
  repeat split; try assumption.
  - eapply Forall_impl; [|exact H3]. cbn. intros; lia.
  - eapply Forall_impl; [|exact H4]. cbn. intros; lia.
Qed.

(** The store stays sound when an order with at least one item commits. *)
Lemma sound_committed (env : Env) (o : NewOrder) (db : DataSource) :
  new_orderItems o <> [] ->
  store_sound db -> store_sound (committed env o db).
Proof.
  unfold store_sound, committed. intros Hne (H1 & H2 & H3 & H4 & H5 & H6).
  cbn [orders order_items orders_seq order_items_seq].
  destruct (item_rows_ids (orders_seq db + 1) (new_orderItems o)
              (order_items_seq db)) as [Hids Hnodup].
  pose proof (item_rows_order (order_items_seq db) (orders_seq db + 1)
                (new_orderItems o)) as Hfk.
  rewrite !map_app. cbn [map order_id].
  rewrite Forall_forall in H3, H4, Hids, Hfk.
  repeat split.
  - apply NoDup_app; [exact H1|repeat constructor; intros []|].
    intros id Hin [<-|[]]. apply in_map_iff in Hin as (r & Hr & Hin).
    apply H3 in Hin. lia.
  - apply NoDup_app; [exact H2|exact Hnodup|].
    intros id Hin Hin2.
    apply in_map_iff in Hin as (r & Hr & Hin).
    apply in_map_iff in Hin2 as (r2 & Hr2 & Hin2).
    apply H4 in Hin. apply Hids in Hin2. lia.
  - apply Forall_app. split.
    + apply Forall_forall. intros r Hin. apply H3 in Hin. lia.
    + repeat constructor. cbn. lia.
  - apply Forall_app. split.
    + apply Forall_forall. intros r Hin. apply H4 in Hin. lia.
    + apply Forall_forall. intros r Hin. apply Hids in Hin. lia.
  - apply Forall_app. split.
    + eapply Forall_impl; [|exact H5]. cbn. intros r Hin.
      apply in_or_app. left. exact Hin.
    + apply Forall_forall. intros r Hin. apply Hfk in Hin.
      apply in_or_app. right. left. symmetry. exact Hin.
  - apply Forall_app. split.
    + eapply Forall_impl; [|exact H6]. cbn. intros r Hin.
      apply in_or_app. left. exact Hin.
    + repeat constructor. cbn [order_id]. apply in_or_app. right.
      destruct (new_orderItems o) as [|i rest]; [contradiction|].
      cbn. left. reflexivity.
Qed.

Lemma serve_cons {RT : Runtime} {PG : Postgres} (env : Env) (req : Request)
    (rest : list (Env * Request)) (db : DataSource) :
  serve ((env, req) :: rest) db
  = (fst (post_checkout env req db)
       :: fst (serve rest (snd (post_checkout env req db))),
     snd (serve rest (snd (post_checkout env req db)))).
Proof.
  cbn [serve]. destruct (post_checkout env req db) as [out db1]. cbn [fst snd].
  destruct (serve rest db1); reflexivity.
Qed.

Lemma confirmed_confirmation (id : Z) :
  confirmed_ids [Sent (confirmation id)] = [id].
Proof. reflexivity. Qed.

Lemma increasing_from_weaken (l : list Z) :
  forall n m, n <= m -> increasing_from m l -> increasing_from n l.
Proof.
  destruct l as [|x rest]; intros n m Hnm H; cbn in *; [exact I|].
  destruct H as [Hx Hrest]. split; [lia|exact Hrest].
Qed.

(** X7: whatever is submitted to the checkout, in whatever order and
    whatever the store does, the catalog is as it was: the product rows, the
    sequence of their ids and the state of the connection do not change, so
    readiness does not change either. *)
Theorem checkout_never_touches_catalog {RT : Runtime} {PG : Postgres}
    (reqs : list (Env * Request)) (db : DataSource) :
  let db' := snd (serve reqs db) in
  products db' = products db
  /\ products_seq db' = products_seq db
  /\ isInitialized db' = isInitialized db
  /\ get_readyz db' = get_readyz db.
Proof.
  cbv zeta.
  assert (H : products (snd (serve reqs db)) = products db
              /\ products_seq (snd (serve reqs db)) = products_seq db
              /\ isInitialized (snd (serve reqs db)) = isInitialized db).
  { revert db. induction reqs as [|[env req] rest IH]; intros db.
    - cbn. auto.
    - rewrite serve_cons. cbn [snd].
      destruct (post_checkout_effect env req db) as [(Hi & Hp & Hps & _) _].
      destruct (IH (snd (post_checkout env req db))) as (Hp' & Hps' & Hi').
      repeat split; congruence. }
  destruct H as (Hp & Hps & Hi). repeat split; try assumption.
  unfold get_readyz. rewrite Hi. reflexivity.
Qed.

(** X8: the checkout keeps the store sound over any sequence of
    submissions, failed ones included: order ids and item ids stay unique
    and within their sequences, every item row points to a stored order,
    and no stored order is without items. *)
Theorem checkout_keeps_store_sound {RT : Runtime} {PG : Postgres}
    (reqs : list (Env * Request)) (db : DataSource) :
  store_sound db -> store_sound (snd (serve reqs db)).
Proof.
  revert db. induction reqs as [|[env req] rest IH]; intros db Hsound.
  - exact Hsound.
  - rewrite serve_cons. cbn [snd]. apply IH.
    destruct (post_checkout_effect env req db)
      as [(_ & _ & _ & Hos & His) [(Ho & Hi & _)|(o & Hdb & Hne & _)]].
    + exact (sound_rows _ _ Ho Hi Hos His Hsound).
    + rewrite Hdb. exact (sound_committed env o db Hne Hsound).
Qed.

Lemma empty_store_sound : store_sound empty_store.
Proof. repeat split; constructor. Qed.

Lemma checkout_keeps_store_sound_example :
  store_sound
    (snd (serve (RT := Node.runtime) (PG := strict_server)
            [(calm, alice_order); (failing_after_header, alice_order);
             (calm, bare_form); (calm, anonymous_order)]
            empty_store)).
Proof.
  exact (checkout_keeps_store_sound (RT := Node.runtime) (PG := strict_server)
           [(calm, alice_order); (failing_after_header, alice_order);
            (calm, bare_form); (calm, anonymous_order)]
           empty_store empty_store_sound).
Defined.

(** X9: over any sequence of submissions the orders added to the store are
    exactly the orders confirmed to a buyer, in the order of their
    confirmations: no order is stored without its confirmation page and no
    confirmation page shows an id that is not stored. *)
Theorem confirmed_orders_are_the_stored_ones {RT : Runtime} {PG : Postgres}
    (reqs : list (Env * Request)) (db : DataSource) :
  map order_id (orders (snd (serve reqs db)))
  = (map order_id (orders db) ++ confirmed_ids (fst (serve reqs db)))%list.
Proof.
  revert db. induction reqs as [|[env req] rest IH]; intros db.
  - cbn. rewrite app_nil_r. reflexivity.
  - rewrite serve_cons. cbn [fst snd]. rewrite confirmed_ids_cons, IH.
    destruct (post_checkout_effect env req db)
      as [_ [(Ho & _ & Hnone)|(o & Hdb & _ & Hout)]].
    + rewrite Ho, Hnone. reflexivity.
    + rewrite Hdb, Hout, confirmed_confirmation. unfold committed.
      cbn [orders]. rewrite map_app, <- app_assoc. reflexivity.
Qed.

(** X10: the ids confirmed over a sequence of submissions go strictly up
    and start above the last id drawn before, so no two buyers are shown
    the same order number, also when orders in between were rolled back. *)
Theorem confirmed_ids_increase {RT : Runtime} {PG : Postgres}
    (reqs : list (Env * Request)) (db : DataSource) :
  increasing_from (orders_seq db) (confirmed_ids (fst (serve reqs db)))
  /\ orders_seq db <= orders_seq (snd (serve reqs db)).
Proof.
  revert db. induction reqs as [|[env req] rest IH]; intros db.
  - cbn. split; [exact I|lia].
  - rewrite serve_cons. cbn [fst snd]. rewrite confirmed_ids_cons.
    destruct (IH (snd (post_checkout env req db))) as [Hinc Hle].
    destruct (post_checkout_effect env req db)
      as [(_ & _ & _ & Hos & _) [(_ & _ & Hnone)|(o & Hdb & _ & Hout)]].
    + rewrite Hnone. cbn [app]. split; [|lia].
      exact (increasing_from_weaken _ _ _ Hos Hinc).
    + rewrite Hout, confirmed_confirmation. cbn [app increasing_from].
      rewrite Hdb in Hinc, Hle. unfold committed in Hinc, Hle.
      cbn [orders_seq] in Hinc, Hle. rewrite Hdb. unfold committed.
      cbn [orders_seq]. repeat split; [lia|exact Hinc|lia].
Qed.

(** ** Seeding *)

Section Seeds.
Context {PG : Postgres}.

Lemma insert_product_rows_frame (ps : list NewProduct) :
  forall db r db2,
    insert_rows insert_product ps db = (r, db2) ->
    isInitialized db2 = isInitialized db
    /\ orders db2 = orders db
    /\ order_items db2 = order_items db
    /\ orders_seq db2 = orders_seq db
    /\ order_items_seq db2 = order_items_seq db
    /\ (r <> None -> forallb seed_insertable ps = true).
Proof.
  induction ps as [|p rest IH]; intros db r db2 H.
  - cbn in H. injection H as _ <-. repeat split.
  - cbn [insert_rows] in H. unfold insert_product in H.
    cbn [forallb]. unfold seed_insertable at 1.
    destruct (not_null (seed_name p) && not_null (seed_price p)
              && not_null (seed_image p)).
    + apply IH in H. cbn in H. exact H.
    + injection H as <- <-. cbn. repeat split. intros Hr. contradiction.
Qed.

Lemma insert_product_rows_run (ps : list NewProduct) :
  forall db,
    forallb seed_insertable ps = true ->
    insert_rows insert_product ps db = (Some tt, seeded ps db).
Proof.
  induction ps as [|p rest IH]; intros db H.
  - cbn. destruct db; unfold seeded; cbn. rewrite app_nil_r, Z.add_0_r. reflexivity.
  - cbn [forallb] in H. apply andb_prop in H as [Hp Hrest].
    cbn [insert_rows]. unfold insert_product.
    unfold seed_insertable in Hp. rewrite Hp.
    rewrite (IH _ Hrest). unfold seeded.
    cbn [isInitialized products orders order_items
      products_seq orders_seq order_items_seq product_rows List.length].
    rewrite <- app_assoc. cbn [app]. do 2 f_equal. lia.
Qed.

Lemma insert_products_frame (ps : list NewProduct) :
  forall f db r f' db2,
    insert_products ps f db = (r, f', db2) ->
    isInitialized db2 = isInitialized db
    /\ orders db2 = orders db
    /\ order_items db2 = order_items db
    /\ orders_seq db2 = orders_seq db
    /\ order_items_seq db2 = order_items_seq db
    /\ (r <> None -> forallb seed_insertable ps = true).
Proof.
  intros f db r f' db2. destruct ps as [|p rest].
  - cbn. intros H. injection H as _ _ <-. repeat split.
  - unfold insert_products, statement. destruct (fails f).
    { intros H. injection H as <- _ <-. repeat split. intros Hr. contradiction. }
    destruct ((parameters product_parameters (p :: rest) <=? max_parameters)
              && forallb product_binds (p :: rest)).
    2:{ intros H. injection H as <- _ <-. repeat split. intros Hr. contradiction. }
    destruct (insert_rows insert_product (p :: rest) db) as [r' db3] eqn:Hrows.
    intros H. injection H as <- _ <-.
    exact (insert_product_rows_frame _ _ _ _ Hrows).
Qed.

(** Seeds that the columns take as they are bind, three parameters a
    seed, and meet the constraints. *)
Lemma storable_seeds_bind (ps : list NewProduct) :
  forallb storable_seed ps = true ->
  forallb seed_insertable ps = true
  /\ forallb product_binds ps = true
  /\ parameters product_parameters ps = 3 * Z.of_nat (List.length ps).
Proof.
  induction ps as [|p rest IH]; intros H.
  - repeat split.
  - cbn [forallb] in H. apply andb_prop in H as [Hp Hrest].
    destruct (IH Hrest) as (Hins & Hbinds & Hcount).
    cbn [forallb parameters fold_right List.length].
    fold (parameters product_parameters rest).
    rewrite Hins, Hbinds, Hcount.
    unfold storable_seed in Hp.
    unfold seed_insertable, product_binds, product_parameters.
    destruct (seed_name p) as [| | | |n| |]; try discriminate.
    destruct (seed_price p) as [| | |x| | |]; try discriminate.
    destruct (seed_image p) as [| | | |i| |]; try discriminate.
    apply andb_prop in Hp as [Hn Hi].
    cbn [binds parameter not_null]. rewrite Hn, Hi. repeat split. lia.
Qed.

Lemma insert_products_run (ps : list NewProduct) :
  forall db,
    storable_seeds ps = true ->
    insert_products ps None db = (Some tt, None, seeded ps db).
Proof.
  intros db [Hps Hcount]%andb_prop. apply Z.leb_le in Hcount.
  destruct (storable_seeds_bind ps Hps) as (Hins & Hbinds & Hparams).
  destruct ps as [|p rest].
  - cbn. destruct db; unfold seeded; cbn. rewrite app_nil_r, Z.add_0_r. reflexivity.
  - unfold insert_products, statement. cbn [fails later].
    rewrite Hparams, Hbinds. apply Z.leb_le in Hcount. rewrite Hcount.
    cbn [andb]. rewrite (insert_product_rows_run _ _ Hins). reflexivity.
Qed.

Lemma save_products_run (ps : list NewProduct) (db : DataSource) :
  isInitialized db = true ->
  storable_seeds ps = true ->
  save_products None ps db = (Some tt, seeded ps db).
Proof.
  intros Hinit Hps. unfold save_products, transaction. rewrite Hinit. cbn [negb].
  rewrite (insert_products_run _ _ Hps). reflexivity.
Qed.

Lemma save_products_frame (f : option nat) (ps : list NewProduct) (db : DataSource) :
  forall r db1,
    save_products f ps db = (r, db1) ->
    isInitialized db1 = isInitialized db
    /\ orders db1 = orders db
    /\ order_items db1 = order_items db
    /\ orders_seq db1 = orders_seq db
    /\ order_items_seq db1 = order_items_seq db
    /\ (r <> None -> forallb seed_insertable ps = true).
Proof.
  intros r db1. unfold save_products, transaction.
  destruct (isInitialized db) eqn:Hinit; cbn [negb].
  2:{ intros H. injection H as <- <-. repeat split; auto. }
  destruct (insert_products ps f db) as [[[u|] f'] db2] eqn:Hrun;
    apply insert_products_frame in Hrun;
    destruct Hrun as (Hi & Ho & Hoi & Hos & His & Hok).
  - destruct (fails f'); intros H; injection H as <- <-; cbn;
      repeat split; try congruence; exact Hok.
  - intros H. injection H as <- <-. cbn. repeat split; try congruence.
Qed.
End Seeds.

(** X11: the seed step writes the defaults whole or not at all, and
    nothing else. When it reports a failure the catalog holds the rows it
    held; it reports success on an empty catalog only when every default
    met the column constraints; and the orders, their items, their
    sequences and the connection are never touched. *)
Theorem seedIfEmpty_all_or_nothing {PG : Postgres}
    (env : Env) (defaults : list NewProduct) (db : DataSource) :
  let ok := fst (seedIfEmpty env defaults db) in
  let db' := snd (seedIfEmpty env defaults db) in
  (ok = false -> products db' = products db)
  /\ (ok = true -> products db = [] ->
      forallb seed_insertable defaults = true
      /\ db' = seeded defaults db)
  /\ orders db' = orders db
  /\ order_items db' = order_items db
  /\ orders_seq db' = orders_seq db
  /\ order_items_seq db' = order_items_seq db
  /\ isInitialized db' = isInitialized db.
Proof.
  cbv zeta. unfold seedIfEmpty, count_products.
  destruct (negb (isInitialized db) || fails (fault env)); cbn [fst snd].
  { split; [reflexivity|]. split; [discriminate|]. repeat split. }
  destruct (Z.of_nat (List.length (products db)) =? 0) eqn:Hcount; cbn [fst snd].
  2:{ apply Z.eqb_neq in Hcount. split; [reflexivity|]. split; [|repeat split].
      intros _ Hempty. rewrite Hempty in Hcount. cbn in Hcount. lia. }
  destruct (save_products (later (fault env)) defaults db) as [[u|] db1] eqn:Hsave;
    pose proof (save_products_frame _ _ _ _ _ Hsave)
      as (Hi & Ho & Hoi & Hos & His & Hok);
    apply save_products_inv in Hsave; cbn [fst snd].
  - split; [discriminate|]. split; [|repeat split; assumption].
    intros _ _. split; [apply Hok; discriminate|exact Hsave].
  - destruct Hsave as (_ & Hp & _ & _).
    split; [intros _; exact Hp|]. split; [discriminate|].
    repeat split; assumption.
Qed.

(** ** The products page *)

Lemma map_throwing_all {A B} (f : A -> option B) (l : list A) :
  Forall (fun x => f x <> None) l ->
  exists ys, map_throwing f l = Some ys /\ Forall2 (fun x y => f x = Some y) l ys.
Proof.
  induction 1 as [|x rest Hx Hrest IH]; cbn.
  - exists []. split; [reflexivity|constructor].
  - destruct IH as (ys & -> & Hys). destruct (f x) as [y|] eqn:Hfx; [|contradiction].
    exists (y :: ys). split; [reflexivity|]. constructor; assumption.
Qed.

Lemma escape_quotes_head (s : string) :
  match escape_quotes s with
  | String c _ => c <> "'"%char
  | EmptyString => True
  end.
Proof.
  destruct s as [|c r]; cbn; [exact I|].
  destruct (c =? "'")%char eqn:Hc.
  - discriminate.
  - apply Ascii.eqb_neq in Hc. exact Hc.
Qed.

(** A character that is no apostrophe, before a text that does not begin
    with one, is read as itself. *)
Lemma unescape_quotes_step (c : ascii) (rest : string) :
  match rest with
  | String c' _ => c' <> "'"%char
  | EmptyString => True
  end ->
  unescape_quotes (String c rest) = String c (unescape_quotes rest).
Proof.
  intros Hrest. destruct rest as [|c' r'].
  - destruct c as [[] [] [] [] [] [] [] []]; reflexivity.
  - destruct (Ascii.eqb_spec c "\"%char) as [->|Hback].
    + destruct c' as [[] [] [] [] [] [] [] []];
        try reflexivity; contradiction.
    + destruct c as [[] [] [] [] [] [] [] []];
        try reflexivity; contradiction.
Qed.

(** X12: when the store is connected and answers, the products page shows
    one card per product row, in the order of the rows: the name and the
    price with two digits, the image under the address of the assets, and a
    button that calls [addToCart] with the id of the row, its name with the
    apostrophes escaped and its price. *)
Theorem products_page_lists_catalog {RT : Runtime} {BI : Builtins}
    (env : Env) (e : ProcessEnv) (db : DataSource) :
  isInitialized db = true ->
  fails (fault env) = false ->
  forallb displayable (products db) = true ->
  exists cards,
    get_products env e db = ProductsPage cards
    /\ map call_id cards = map product_id (products db)
    /\ Forall2
         (fun p c =>
            product_name p = VStr (card_name c)
            /\ call_name c = escape_quotes (card_name c)
            /\ exists x img,
                 price p = VNum x /\ image p = VStr img
                 /\ card_price c = toFixed2 x
                 /\ call_price c = NumberToString x
                 /\ card_image c = asset_url e img)
         (products db) cards.
Proof.
  intros Hinit Hfault Hrows. unfold get_products. rewrite Hinit, Hfault.
  cbn [negb orb].
  induction (products db) as [|p rest IH]; cbn [map_throwing].
  - exists []. repeat split. constructor.
  - cbn [forallb] in Hrows. apply andb_prop in Hrows as [Hp Hrest].
    destruct (IH Hrest) as (cards & Hcards & Hids & Hshape).
    destruct (map_throwing (product_card e) rest) as [cs|]; [|discriminate].
    injection Hcards as ->.
    unfold displayable in Hp. unfold product_card.
    destruct (product_name p) as [| | | |n| |] eqn:Hn; try discriminate.
    destruct (price p) as [| | |x| | |] eqn:Hx; try discriminate.
    destruct (image p) as [| | | |img| |] eqn:Himg; try discriminate.
    cbn [ToString]. eexists. split; [reflexivity|]. split.
    + cbn [map call_id]. rewrite Hids. reflexivity.
    + constructor; [|exact Hshape]. cbn.
      split; [exact Hn|]. split; [reflexivity|].
      exists x, img. repeat split; assumption.
Qed.

Lemma products_page_lists_catalog_example :
  exists cards,
    get_products (RT := Node.runtime) (BI := NodeBuiltins.builtins)
      calm no_env bakers_shelf = ProductsPage cards
    /\ map call_id cards = map product_id (products bakers_shelf)
    /\ Forall2
         (fun p c =>
            product_name p = VStr (card_name c)
            /\ call_name c = escape_quotes (card_name c)
            /\ exists x img,
                 price p = VNum x /\ image p = VStr img
                 /\ card_price c = toFixed2 (Builtins := NodeBuiltins.builtins) x
                 /\ call_price c = NumberToString (Runtime := Node.runtime) x
                 /\ card_image c = asset_url no_env img)
         (products bakers_shelf) cards.
Proof.
  exact (products_page_lists_catalog (RT := Node.runtime)
           (BI := NodeBuiltins.builtins) calm no_env bakers_shelf
           eq_refl eq_refl eq_refl).
Defined.

Example bakers_page :
  get_products (RT := Node.runtime) (BI := NodeBuiltins.builtins)
    calm no_env bakers_shelf
  = ProductsPage [bakers_card].
Proof. reflexivity. Qed.

(** X13: escaping the apostrophes of a name loses nothing and leaves no
    apostrophe bare: every apostrophe of the result stands right after a
    backslash, and taking the added backslashes away gives the name back,
    so that two names are never escaped to the same text. *)
Theorem escape_quotes_round_trip (s : string) :
  quotes_guarded (escape_quotes s) = true
  /\ unescape_quotes (escape_quotes s) = s
  /\ (forall t, escape_quotes t = escape_quotes s -> t = s).
Proof.
  assert (Hback : forall r, unescape_quotes (escape_quotes r) = r).
  { induction r as [|c r IH]; [reflexivity|].
    cbn [escape_quotes]. destruct (c =? "'")%char eqn:Hc.
    - apply Ascii.eqb_eq in Hc. subst c. cbn [unescape_quotes]. rewrite IH.
      reflexivity.
    - rewrite (unescape_quotes_step c _ (escape_quotes_head r)), IH.
      reflexivity. }
  split; [|split].
  - unfold quotes_guarded. generalize " "%char as previous.
    induction s as [|c r IH]; intros previous; [reflexivity|].
    cbn [escape_quotes]. destruct (c =? "'")%char eqn:Hc.
    + cbn [quotes_guarded_after]. rewrite IH.
      destruct previous as [[] [] [] [] [] [] [] []]; reflexivity.
    + cbn [quotes_guarded_after]. rewrite Hc, IH. reflexivity.
  - apply Hback.
  - intros t Ht. rewrite <- (Hback t), Ht. apply Hback.
Qed.

(** ** Connection options *)

(** X14: the connection that creates the database and the connection of
    the data source are configured alike: when the options of the data
    source can be built, so can those of the maintenance connection, with
    the same host, port, TLS setting, user and password; only the database
    differs, [postgres] for the one and [DB_NAME] or [webforx_store] for
    the other. TLS is off only when [DB_SSL] is not exactly [true] and the
    host is unset, empty or [localhost]. *)
Theorem connection_options_agree {BI : Builtins}
    (e : ProcessEnv) (fs : Files) (o : ConnectionOptions) (sync : bool) :
  dataSourceOptions e fs = Some (o, sync) ->
  (exists c,
      dbConfig e fs = Some c
      /\ host c = host o /\ port c = port o /\ ssl c = ssl o
      /\ user c = user o /\ password c = password o
      /\ database c = "postgres"
      /\ database o = env_or (DB_NAME e) "webforx_store")
  /\ (ssl o = SslOff <->
      DB_SSL e <> Some "true"
      /\ (is_set (DB_HOST e) = false \/ DB_HOST e = Some "localhost")).
Proof.
  unfold dataSourceOptions, dbConfig.
  destruct (ssl_option e fs) as [s|] eqn:Hssl; [|discriminate].
  intros H. injection H as <- <-. split.
  { eexists. split; [reflexivity|]. cbn. repeat split. }
  cbn [ssl]. unfold ssl_option in Hssl. unfold is_set.
  destruct (DB_SSL e) as [w|].
  - destruct (String.eqb_spec w "true") as [Hw|Hw]; [subst w|].
    + cbn [orb] in Hssl. split.
      * intros ->. destruct (DB_SSL_CA_PATH e) as [path|]; [|discriminate].
        destruct (path =? "")%string; [discriminate|].
        destruct (readFile fs path); discriminate.
      * intros [Hne _]. contradiction.
    + cbn [orb] in Hssl.
      destruct (DB_HOST e) as [h|].
      * destruct (String.eqb_spec h "") as [Hh|Hh]; [subst h|]; cbn [negb andb] in Hssl.
        { injection Hssl as <-. split; [|reflexivity].
          intros _. split; [congruence|]. left. reflexivity. }
        destruct (String.eqb_spec h "localhost") as [Hl|Hl]; [subst h|]; cbn [negb] in Hssl.
        { injection Hssl as <-. split; [|reflexivity].
          intros _. split; [congruence|]. right. reflexivity. }
        split.
        { intros ->. destruct (DB_SSL_CA_PATH e) as [path|]; [|discriminate].
          destruct (path =? "")%string; [discriminate|].
          destruct (readFile fs path); discriminate. }
        intros [_ [Hset|Hhost]]; [discriminate|congruence].
      * injection Hssl as <-. split; [|reflexivity].
        intros _. split; [congruence|]. left. reflexivity.
  - cbn [orb] in Hssl.
    destruct (DB_HOST e) as [h|].
    + destruct (String.eqb_spec h "") as [Hh|Hh]; [subst h|]; cbn [negb andb] in Hssl.
      { injection Hssl as <-. split; [|reflexivity].
        intros _. split; [congruence|]. left. reflexivity. }
      destruct (String.eqb_spec h "localhost") as [Hl|Hl]; [subst h|]; cbn [negb] in Hssl.
      { injection Hssl as <-. split; [|reflexivity].
        intros _. split; [congruence|]. right. reflexivity. }
      split.
      { intros ->. destruct (DB_SSL_CA_PATH e) as [path|]; [|discriminate].
        destruct (path =? "")%string; [discriminate|].
        destruct (readFile fs path); discriminate. }
      intros [_ [Hset|Hhost]]; [discriminate|congruence].
    + injection Hssl as <-. split; [|reflexivity].
      intros _. split; [congruence|]. left. reflexivity.
Qed.

Lemma connection_options_agree_example :
  (exists c,
      dbConfig (BI := NodeBuiltins.builtins) cloud_env some_files = Some c
      /\ host c = host cloud_options /\ port c = port cloud_options
      /\ ssl c = ssl cloud_options
      /\ user c = user cloud_options /\ password c = password cloud_options
      /\ database c = "postgres"
      /\ database cloud_options = env_or (DB_NAME cloud_env) "webforx_store")
  /\ (ssl cloud_options = SslOff <->
      DB_SSL cloud_env <> Some "true"
      /\ (is_set (DB_HOST cloud_env) = false
          \/ DB_HOST cloud_env = Some "localhost")).
Proof.
  exact (connection_options_agree (BI := NodeBuiltins.builtins)
           cloud_env some_files cloud_options true eq_refl).
Defined.

(** ** Creating the database *)

Lemma has_database_app (name : string) (dbs more : list string) :
  has_database name (dbs ++ more)
  = has_database name dbs || has_database name more.
Proof. unfold has_database. apply existsb_app. Qed.

Lemma has_database_last (name : string) (dbs : list string) :
  has_database name (dbs ++ [name]) = true.
Proof.
  rewrite has_database_app. unfold has_database at 2. cbn.
  rewrite String.eqb_refl. cbn. apply Bool.orb_true_r.
Qed.

Section Created.
Context {BI : Builtins}.
Variable odd_name : string -> list string -> bool * list string.

(** What a run does to the databases when the target has a plain name: at
    most the target is added, and nothing when it was there. *)
Lemma ensureDatabaseExists_cases (e : ProcessEnv) (fs : Files) (f : option nat)
    (dbs : list string) :
  let target := env_or (DB_NAME e) "webforx_store" in
  plain_name target = true ->
  let ok := fst (ensureDatabaseExists odd_name e fs f dbs) in
  let dbs' := snd (ensureDatabaseExists odd_name e fs f dbs) in
  (dbs' = dbs
   /\ (ok = true -> flag (CREATE_DB_IF_MISSING e) "false" = true ->
       has_database target dbs = true /\ dbConfig e fs <> None))
  \/ (has_database target dbs = false
      /\ flag (CREATE_DB_IF_MISSING e) "false" = true
      /\ dbConfig e fs <> None
      /\ dbs' = (dbs ++ [target])%list).
Proof.
  cbv zeta. intros Hplain. unfold ensureDatabaseExists.
  destruct (flag (CREATE_DB_IF_MISSING e) "false"); cbn [negb fst snd].
  2:{ left. split; [reflexivity|]. intros _ H. discriminate. }
  destruct (dbConfig e fs) as [c|]; cbn [fst snd].
  2:{ left. split; [reflexivity|]. intros H. discriminate. }
  destruct (fails f || negb (has_database "postgres" dbs)); cbn [fst snd].
  { left. split; [reflexivity|]. intros H. discriminate. }
  destruct (fails (later f)); cbn [fst snd].
  { left. split; [reflexivity|]. intros H. discriminate. }
  rewrite Hplain. cbn [negb].
  destruct (has_database (env_or (DB_NAME e) "webforx_store") dbs) eqn:Hhas;
    cbn [fst snd].
  { left. split; [reflexivity|]. intros _ _. split; [reflexivity|discriminate]. }
  destruct (fails (later (later f))); cbn [fst snd].
  { left. split; [reflexivity|]. intros H. discriminate. }
  right. repeat split. discriminate.
Qed.

(** X15: creating the database when it is missing, for a database name
    that needs no quoting. A run never removes or renames a database: the
    databases afterwards are those before, with at most the target added
    at the end. A run that succeeds with [CREATE_DB_IF_MISSING] on leaves
    the target in place, and it is the database the data source connects
    to; and a run on a server that has the target changes nothing, so that
    a second start-up creates nothing. *)
Theorem ensureDatabaseExists_creates_once (e : ProcessEnv) (fs : Files)
    (f f2 : option nat) (dbs : list string) :
  let target := env_or (DB_NAME e) "webforx_store" in
  plain_name target = true ->
  let ok := fst (ensureDatabaseExists odd_name e fs f dbs) in
  let dbs' := snd (ensureDatabaseExists odd_name e fs f dbs) in
  (dbs' = dbs \/ (has_database target dbs = false /\ dbs' = (dbs ++ [target])%list))
  /\ (has_database target dbs = true -> dbs' = dbs)
  /\ (ok = true -> flag (CREATE_DB_IF_MISSING e) "false" = true ->
      has_database target dbs' = true
      /\ (exists o sync, dataSourceOptions e fs = Some (o, sync)
                         /\ database o = target)
      /\ snd (ensureDatabaseExists odd_name e fs f2 dbs') = dbs').
Proof.
  cbv zeta. intros Hplain.
  destruct (ensureDatabaseExists_cases e fs f dbs Hplain)
    as [[Hsame Hok]|(Hmissing & Hflag & Hconfig & Hadded)].
  - split; [left; exact Hsame|]. split; [intros _; exact Hsame|].
    intros Hrun Hflag. destruct (Hok Hrun Hflag) as [Hhas Hconfig].
    rewrite Hsame. split; [exact Hhas|]. split.
    + unfold dbConfig in Hconfig. unfold dataSourceOptions.
      destruct (ssl_option e fs); [|contradiction].
      eexists. eexists. split; reflexivity.
    + destruct (ensureDatabaseExists_cases e fs f2 dbs Hplain)
        as [[Hsame2 _]|(Hmissing2 & _)]; [exact Hsame2|congruence].
  - split; [right; split; assumption|]. split; [congruence|].
    intros _ _. rewrite Hadded. split; [apply has_database_last|]. split.
    + unfold dbConfig in Hconfig. unfold dataSourceOptions.
      destruct (ssl_option e fs); [|contradiction].
      eexists. eexists. split; reflexivity.
    + destruct (ensureDatabaseExists_cases e fs f2
                  (dbs ++ [env_or (DB_NAME e) "webforx_store"])%list Hplain)
        as [[Hsame2 _]|(Hmissing2 & _)]; [exact Hsame2|].
      rewrite has_database_last in Hmissing2. discriminate.
Qed.
End Created.

Lemma ensureDatabaseExists_creates_once_example :
  ensureDatabaseExists (BI := NodeBuiltins.builtins) refuse_odd_name
    cloud_env some_files None ["postgres"]
  = (true, ["postgres"; "shop_db"])
  /\ has_database "shop_db" ["postgres"; "shop_db"] = true
  /\ (exists o sync,
         dataSourceOptions (BI := NodeBuiltins.builtins) cloud_env some_files
         = Some (o, sync)
         /\ database o = "shop_db")
  /\ snd (ensureDatabaseExists (BI := NodeBuiltins.builtins) refuse_odd_name
            cloud_env some_files (Some 2%nat) ["postgres"; "shop_db"])
     = ["postgres"; "shop_db"].
Proof.
  split; [reflexivity|].
  exact (proj2 (proj2 (ensureDatabaseExists_creates_once
                         (BI := NodeBuiltins.builtins) refuse_odd_name
                         cloud_env some_files None (Some 2%nat) ["postgres"]
                         eq_refl))
           eq_refl eq_refl).
Defined.

(** ** Uploading the static files *)

Lemma s3_get_put_same (bucket key body : string) (s3 : ObjectStore) :
  s3_get bucket key (s3_put bucket key body s3) = Some body.
Proof.
  induction s3 as [|[[b k] body'] rest IH]; cbn.
  - rewrite !String.eqb_refl. reflexivity.
  - destruct ((b =? bucket)%string && (k =? key)%string) eqn:Hhit; cbn.
    + rewrite !String.eqb_refl. reflexivity.
    + rewrite Hhit. exact IH.
Qed.

Lemma s3_get_put_other (bucket key body b k : string) (s3 : ObjectStore) :
  b <> bucket \/ k <> key ->
  s3_get b k (s3_put bucket key body s3) = s3_get b k s3.
Proof.
  intros Hother.
  assert (Hmiss : (bucket =? b)%string && (key =? k)%string = false).
  { apply Bool.andb_false_iff. destruct Hother as [Hb|Hk]; [left|right];
      apply String.eqb_neq; congruence. }
  induction s3 as [|[[b' k'] body'] rest IH]; cbn.
  - rewrite Hmiss. reflexivity.
  - destruct ((b' =? bucket)%string && (k' =? key)%string) eqn:Hhit; cbn.
    + apply andb_prop in Hhit as [Hb Hk].
      apply String.eqb_eq in Hb, Hk. subst b' k'. rewrite Hmiss. reflexivity.
    + rewrite IH. reflexivity.
Qed.

(** The objects after the loop: each as before, or the content of the file
    of its name. *)
Lemma upload_all_objects (bucket : string) (entries : list (string * option string)) :
  forall f s3 b k,
    let s3' := snd (upload_all bucket entries f s3) in
    s3_get b k s3' = s3_get b k s3
    \/ (b = bucket
        /\ exists body, In (k, Some body) entries /\ s3_get b k s3' = Some body).
Proof.
  cbv zeta. induction entries as [|[file content] rest IH]; intros f s3 b k.
  - left. reflexivity.
  - cbn [upload_all]. destruct (fails f); [left; reflexivity|].
    destruct content as [body|]; [|left; reflexivity].
    destruct (IH (later f) (s3_put bucket file body s3) b k)
      as [Hsame|(Hb & body' & Hin & Hget)].
    + destruct (String.eqb_spec b bucket) as [Hb|Hb].
      * destruct (String.eqb_spec k file) as [Hk|Hk].
        { subst b k. right. split; [reflexivity|]. exists body.
          split; [left; reflexivity|]. rewrite Hsame. apply s3_get_put_same. }
        left. rewrite Hsame. apply s3_get_put_other. right. exact Hk.
      * left. rewrite Hsame. apply s3_get_put_other. left. exact Hb.
    + right. split; [exact Hb|]. exists body'. split; [right; exact Hin|exact Hget].
Qed.

(** After a loop that went through, every entry has been read and is the
    object of its name. *)
Lemma upload_all_done (bucket : string) (entries : list (string * option string)) :
  forall f s3 s3',
    upload_all bucket entries f s3 = (true, s3') ->
    NoDup (map fst entries) ->
    forall file content,
      In (file, content) entries ->
      exists body, content = Some body /\ s3_get bucket file s3' = Some body.
Proof.
  induction entries as [|[name content0] rest IH];
    intros f s3 s3' Hrun Hnames file content Hin; [contradiction|].
  cbn [upload_all] in Hrun. destruct (fails f); [discriminate|].
  destruct content0 as [body0|]; [|discriminate].
  cbn [map fst] in Hnames. apply NoDup_cons_iff in Hnames as [Hfresh Hnames].
  destruct Hin as [Hhere|Hin].
  - injection Hhere as <- <-. exists body0. split; [reflexivity|].
    pose proof (upload_all_objects bucket rest (later f)
                  (s3_put bucket name body0 s3) bucket name) as Hobj.
    cbv zeta in Hobj. rewrite Hrun in Hobj. cbn [snd] in Hobj.
    destruct Hobj as [Hsame|(_ & body & Hin & _)].
    + rewrite Hsame. apply s3_get_put_same.
    + exfalso. apply Hfresh. apply in_map_iff. exists (name, Some body).
      split; [reflexivity|exact Hin].
  - exact (IH _ _ _ Hrun Hnames file content Hin).
Qed.

(** X16: after an upload that went through, with the bucket and the region
    configured, every file of the [static] directory is the object of its
    own name in the bucket, with the content of the file, and that is the
    object the address of the asset names. *)
Theorem upload_serves_every_file (e : ProcessEnv) (fs : Files) (f : option nat)
    (s3 s3' : ObjectStore) (bucket region : string)
    (entries : list (string * option string)) :
  flag (STARTUP_UPLOAD_STATIC e) "false" = true ->
  S3_BUCKET e = Some bucket -> bucket <> "" ->
  S3_REGION e = Some region -> region <> "" ->
  static_dir fs = Some entries ->
  NoDup (map fst entries) ->
  uploadStaticFilesToS3 e fs f s3 = (true, s3') ->
  forall file content,
    In (file, content) entries ->
    (exists body, content = Some body /\ s3_get bucket file s3' = Some body)
    /\ asset_url e file
       = "https://" ++ bucket ++ ".s3." ++ region ++ ".amazonaws.com/" ++ file.
Proof.
  intros Hflag Hbucket Hb Hregion Hr Hdir Hnames Hrun file content Hin.
  apply String.eqb_neq in Hb, Hr.
  unfold uploadStaticFilesToS3 in Hrun. unfold asset_url.
  rewrite Hflag in Hrun. unfold is_set, env_or in *.
  rewrite Hbucket, Hregion in *. rewrite Hb, Hr in *. cbn [negb orb andb] in *.
  split; [|reflexivity].
  destruct (aws_sdk fs); cbn [negb] in Hrun; [|discriminate].
  rewrite Hdir in Hrun.
  exact (upload_all_done bucket entries f s3 s3' Hrun Hnames file content Hin).
Qed.

Lemma upload_serves_every_file_example :
  (exists body,
      Some "<svg>chocolate</svg>" = Some body
      /\ s3_get "wfx-assets" "chocolate.svg"
           [("wfx-assets", "shop.svg", "<svg>shop</svg>");
            ("wfx-assets", "chocolate.svg", "<svg>chocolate</svg>")]
         = Some body)
  /\ asset_url cloud_env "chocolate.svg"
     = "https://wfx-assets.s3.eu-west-1.amazonaws.com/chocolate.svg".
Proof.
  refine (upload_serves_every_file cloud_env some_files None []
            [("wfx-assets", "shop.svg", "<svg>shop</svg>");
             ("wfx-assets", "chocolate.svg", "<svg>chocolate</svg>")]
            "wfx-assets" "eu-west-1"
            [("shop.svg", Some "<svg>shop</svg>");
             ("chocolate.svg", Some "<svg>chocolate</svg>")]
            eq_refl eq_refl _ eq_refl _ eq_refl _ eq_refl
            "chocolate.svg" (Some "<svg>chocolate</svg>") _).
  - discriminate.
  - discriminate.
  - repeat constructor; cbn; intros H; repeat destruct H as [H|H];
      try discriminate; contradiction.
  - right. left. reflexivity.
Defined.

(** X17: an upload, finished or failed, only ever writes the static files
    into the configured bucket: every object afterwards is as it was
    before, or is the content of the file of its name in that bucket.
    Nothing is removed and no other bucket is written. *)
Theorem upload_writes_only_static_files (e : ProcessEnv) (fs : Files)
    (f : option nat) (s3 : ObjectStore) (b k : string) :
  let s3' := snd (uploadStaticFilesToS3 e fs f s3) in
  s3_get b k s3' = s3_get b k s3
  \/ (S3_BUCKET e = Some b
      /\ exists entries body,
           static_dir fs = Some entries
           /\ In (k, Some body) entries
           /\ s3_get b k s3' = Some body).
Proof.
  cbv zeta. unfold uploadStaticFilesToS3.
  destruct (negb (flag (STARTUP_UPLOAD_STATIC e) "false")); [left; reflexivity|].
  destruct (negb (is_set (S3_BUCKET e)) || negb (is_set (S3_REGION e))) eqn:Hset;
    [left; reflexivity|].
  destruct (negb (aws_sdk fs)); [left; reflexivity|].
  destruct (static_dir fs) as [entries|]; [|left; reflexivity].
  destruct (upload_all_objects (env_or (S3_BUCKET e) "") entries f s3 b k)
    as [Hsame|(Hb & body & Hin & Hget)]; [left; exact Hsame|].
  right. split.
  - apply Bool.orb_false_elim in Hset as [Hbucket _].
    unfold is_set, env_or in *. destruct (S3_BUCKET e) as [name|]; [|discriminate].
    destruct (name =? "")%string; [discriminate|]. congruence.
  - exists entries, body. repeat split; assumption.
Qed.

(** ** Start-up *)

Lemma seedIfEmpty_run {PG : Postgres} (clock : Z) (defaults : list NewProduct)
    (db : DataSource) :
  isInitialized db = true ->
  storable_seeds defaults = true ->
  seedIfEmpty (mkEnv None clock) defaults db
  = (true, match products db with [] => seeded defaults db | _ :: _ => db end).
Proof.
  intros Hinit Hseeds. unfold seedIfEmpty, count_products. rewrite Hinit.
  cbn [negb orb fault fails later].
  destruct (products db) as [|p rest] eqn:Hrows; cbn [List.length].
  - cbn. rewrite (save_products_run defaults db Hinit Hseeds). reflexivity.
  - reflexivity.
Qed.

Lemma seedIfEmpty_done {PG : Postgres} (env : Env) (defaults : list NewProduct)
    (db db1 : DataSource) :
  seedIfEmpty env defaults db = (true, db1) ->
  isInitialized db = true
  /\ isInitialized db1 = true
  /\ (products db1 <> [] \/ defaults = []).
Proof.
  unfold seedIfEmpty, count_products.
  destruct (isInitialized db) eqn:Hinit; cbn [negb orb]; [|discriminate].
  destruct (fails (fault env)); [discriminate|].
  destruct (Z.of_nat (List.length (products db)) =? 0) eqn:Hcount.
  - destruct (save_products (later (fault env)) defaults db) as [[u|] db2] eqn:Hsave;
      [|discriminate].
    apply save_products_inv in Hsave. intros H. injection H as <-. subst db2.
    split; [reflexivity|]. split; [exact Hinit|].
    unfold seeded. cbn [products].
    destruct defaults as [|p rest]; [right; reflexivity|left].
    cbn [product_rows]. intros Hnil. apply app_eq_nil in Hnil as [_ Hnil].
    discriminate.
  - intros H. injection H as <-. split; [reflexivity|]. split; [exact Hinit|].
    left. intros Hnil. rewrite Hnil in Hcount. discriminate.
Qed.

Section Booting.
Context {PG : Postgres} {BI : Builtins}.
Variable odd_name : string -> list string -> bool * list string.

(** X18: start-up either ends listening or ends the process with code 1,
    never listening. It listens only once all of the chain is done: the
    data source is initialized, so that [/readyz] answers ready from the
    first request on, the database it connects to exists, its tables do,
    and the catalog has been seeded unless there was nothing to seed. *)
Theorem startup_listens_only_when_ready (e : ProcessEnv) (fs : Files)
    (configured : option (list NewProduct)) (fl : BootFaults) (clock : Z)
    (w : World) :
  listening w = false ->
  let boot := fst (startup odd_name e fs configured fl clock w) in
  let w' := snd (startup odd_name e fs configured fl clock w) in
  match boot with
  | Listening =>
      listening w' = true
      /\ isInitialized (store w') = true
      /\ get_readyz (store w') = mkResponse 200 (Text "ready")
      /\ tables w' = true
      /\ (exists o sync, dataSourceOptions e fs = Some (o, sync)
                         /\ has_database (database o) (databases w') = true)
      /\ (products (store w') <> [] \/ seed_defaults configured = [])
  | Exited code => code = 1 /\ listening w' = false
  end.
Proof.
  cbv zeta. intros Hquiet. unfold startup.
  destruct (dataSourceOptions e fs) as [[o sync]|]; [|split; [reflexivity|exact Hquiet]].
  destruct (ensureDatabaseExists odd_name e fs (at_ensure fl) (databases w))
    as [ensured dbs].
  destruct ensured; cbn [negb fst snd]; [|split; reflexivity].
  destruct (uploadStaticFilesToS3 e fs (at_upload fl) (objects w)) as [up s3].
  destruct up; cbn [negb fst snd]; [|split; reflexivity].
  destruct (has_database (database o) dbs) eqn:Hdb; cbn [negb fst snd];
    [|split; reflexivity].
  match goal with
  | |- context [initialize ?env ?st] =>
      destruct (initialize env st) as [connected st1]
  end.
  destruct connected; cbn [negb fst snd]; [|split; reflexivity].
  match goal with
  | |- context [if negb ?tb then _ else _] => destruct tb eqn:Htables
  end; cbn [negb fst snd]; [|split; reflexivity].
  destruct (seedIfEmpty (mkEnv (at_seed fl) clock) (seed_defaults configured) st1)
    as [seeded_ok st2] eqn:Hseed.
  destruct seeded_ok; cbn [negb fst snd]; [|split; reflexivity].
  destruct (at_listen fl); cbn [fst snd]; [split; reflexivity|].
  cbn [listening store tables databases].
  apply seedIfEmpty_done in Hseed as (_ & Hinit & Hrows).
  split; [reflexivity|]. split; [exact Hinit|].
  split; [unfold get_readyz; rewrite Hinit; reflexivity|].
  split; [reflexivity|]. split; [|exact Hrows].
  exists o, sync. split; [reflexivity|exact Hdb].
Qed.

(** X19: with the database in place, the creation of the database and the
    upload left off, [synchronize] on, seeds that the columns of the
    [products] table take (strings without U+0000 for the name and the
    image, a number for the price, at most 21845 seeds, the parameters one
    statement binds) and no failure from outside, start-up ends listening: the
    data source is initialized, the tables exist, an empty catalog holds
    the seeds and a catalog that had rows is as it was, and neither the
    databases nor the object store have changed. *)
Theorem startup_reaches_listening (e : ProcessEnv) (fs : Files)
    (configured : option (list NewProduct)) (clock : Z) (w : World)
    (o : ConnectionOptions) :
  dataSourceOptions e fs = Some (o, true) ->
  flag (CREATE_DB_IF_MISSING e) "false" = false ->
  flag (STARTUP_UPLOAD_STATIC e) "false" = false ->
  has_database (database o) (databases w) = true ->
  storable_seeds (seed_defaults configured) = true ->
  let connected :=
    mkDataSource true (products (store w)) (orders (store w))
      (order_items (store w)) (products_seq (store w)) (orders_seq (store w))
      (order_items_seq (store w)) in
  startup odd_name e fs configured no_faults clock w
  = (Listening,
     mkWorld (databases w) (objects w)
       (match products (store w) with
        | [] => seeded (seed_defaults configured) connected
        | _ :: _ => connected
        end)
       true true).
Proof.
  cbv zeta. intros Hoptions Hcreate Hupload Hdb Hseeds. unfold startup.
  rewrite Hoptions. unfold ensureDatabaseExists, uploadStaticFilesToS3.
  rewrite Hcreate, Hupload. cbn [negb]. rewrite Hdb. cbn [negb andb].
  unfold initialize. cbn [no_faults at_connect at_seed at_listen fault fails].
  cbn [disconnected isInitialized products orders order_items products_seq
       orders_seq order_items_seq].
  rewrite Bool.orb_true_r. cbn [negb].
  rewrite seedIfEmpty_run; [|reflexivity|exact Hseeds].
  cbn [negb products]. reflexivity.
Qed.
End Booting.

Lemma startup_listens_only_when_ready_example :
  fst cloud_boot = Listening
  /\ listening (snd cloud_boot) = true
  /\ isInitialized (store (snd cloud_boot)) = true
  /\ get_readyz (store (snd cloud_boot)) = mkResponse 200 (Text "ready")
  /\ tables (snd cloud_boot) = true
  /\ (exists o sync,
         dataSourceOptions (BI := NodeBuiltins.builtins) cloud_env some_files
         = Some (o, sync)
         /\ has_database (database o) (databases (snd cloud_boot)) = true)
  /\ (products (store (snd cloud_boot)) <> [] \/ seed_defaults None = []).
Proof.
  split; [reflexivity|].
  exact (startup_listens_only_when_ready (PG := strict_server) (BI :=
      NodeBuiltins.builtins)
           refuse_odd_name cloud_env some_files None no_faults 1700000000
           bare_world eq_refl).
Defined.

Lemma startup_reaches_listening_example :
  startup (PG := strict_server) (BI := NodeBuiltins.builtins) refuse_odd_name
      no_env some_files None
    no_faults 1700000000 local_world
  = (Listening,
     mkWorld ["postgres"; "webforx_store"] []
       (seeded default_products (mkDataSource true [] [] [] 0 0 0)) true true).
Proof.
  exact (startup_reaches_listening (PG := strict_server) (BI :=
      NodeBuiltins.builtins) refuse_odd_name
           no_env some_files None 1700000000 local_world
           (mkConnectionOptions "localhost" 5432%float SslOff "postgres"
              "postgres" "webforx_store")
           eq_refl eq_refl eq_refl eq_refl eq_refl).
Defined.

(** ** The cart page and the checkout page *)

Section CartViews.
Context {RT : Runtime} {PG : Postgres} {BI : Builtins}.

Lemma ToNumber_ToString (v : value) :
  ToNumber v = None <-> ToString v = None.
Proof.
  destruct v as [| |[]| | |l|l]; cbn; try (split; discriminate).
  - destruct (ObjectToString (VArr l)); cbn; split; congruence.
  - destruct (ObjectToString (VObj l)); cbn; split; congruence.
Qed.

Lemma summary_step_line (s : float) (ls : list SummaryLine) (item : value) :
  match cart_line item with
  | Some l => exists t, summary_step (s, ls) item = Some (t, (ls ++ [l])%list)
  | None => summary_step (s, ls) item = None
  end.
Proof.
  unfold cart_line, summary_step, add_line. cbn [fst snd].
  destruct (Get item "name") as [name|] eqn:Hname.
  2:{ destruct item; cbn in Hname; try discriminate; reflexivity. }
  assert (Hprice : Get item "price" = Some (GetV item "price")).
  { destruct item; cbn in Hname; try discriminate; reflexivity. }
  assert (Hquantity : Get item "quantity" = Some (GetV item "quantity")).
  { destruct item; cbn in Hname; try discriminate; reflexivity. }
  assert (Hn : name = GetV item "name").
  { destruct item; cbn in Hname; try discriminate;
      injection Hname as <-; reflexivity. }
  rewrite Hprice, Hquantity. subst name.
  destruct (ToString (GetV item "name")) as [n|].
  2:{ destruct (ToNumber (GetV item "price")); [|reflexivity].
      destruct (ToNumber (GetV item "quantity")); reflexivity. }
  destruct (GetV item "price") as [| | |p| | |];
    try (destruct (ToNumber _); [|reflexivity];
         destruct (ToNumber (GetV item "quantity")); reflexivity).
  cbn [ToNumber].
  destruct (ToString (GetV item "quantity")) as [q|] eqn:Hq.
  - destruct (ToNumber (GetV item "quantity")) as [q'|] eqn:Hq'.
    + eexists. reflexivity.
    + apply ToNumber_ToString in Hq'. congruence.
  - destruct (ToNumber (GetV item "quantity")); reflexivity.
Qed.

Lemma summary_lines (cart : list value) :
  forall s ls,
    match map_throwing cart_line cart with
    | Some ls' =>
        exists t, reduce summary_step cart (s, ls) = Some (t, (ls ++ ls')%list)
    | None => reduce summary_step cart (s, ls) = None
    end.
Proof.
  induction cart as [|item rest IH]; intros s ls; cbn [map_throwing reduce].
  - exists s. rewrite app_nil_r. reflexivity.
  - pose proof (summary_step_line s ls item) as Hstep.
    destruct (cart_line item) as [l|].
    + destruct Hstep as [t ->]. specialize (IH t (ls ++ [l])%list).
      destruct (map_throwing cart_line rest) as [ls'|].
      * destruct IH as [t' ->]. exists t'. rewrite <- app_assoc. reflexivity.
      * exact IH.
    + rewrite Hstep. reflexivity.
Qed.

(** X20: the cart page and the checkout page read the cart alike. For
    whatever is stored under ['cart'], [renderCart] shows the notice of the
    empty cart exactly when [renderCartSummary] does, lists exactly the
    lines the summary lists, and throws exactly when the summary throws. *)
Theorem cart_page_shows_summary_lines (storage : option string) :
  renderCart storage = option_map view_of (renderCartSummary storage).
Proof.
  unfold renderCart, renderCartSummary.
  destruct (cart_is_empty storage) as [[|]|]; try reflexivity.
  destruct storage as [s|]; [|reflexivity].
  destruct (JSON_parse s) as [[| | | | |cart|]|]; try reflexivity.
  pose proof (summary_lines cart 0%float []) as Hlines.
  destruct (map_throwing cart_line cart) as [ls|].
  - destruct Hlines as [t ->]. reflexivity.
  - rewrite Hlines. reflexivity.
Qed.
End CartViews.
